(** * sanitize-request: a shallow embedding of the sanitization engine

    The development follows the TypeScript sources:
    - [types/sanitization.ts]          records of the configuration and result;
    - [constants/sensitiveFields.ts]   the list [SENSITIVE_FIELDS];
    - [config/sanitizationConfigs.ts]  the named profiles, [getConfig] and
                                       [createCustomConfig];
    - [utils/sanitizer.ts]             the class [Sanitizer] and its exports;
    - [middleware/sanitizeRequest.ts]  the Express binding.

    DOMPurify (the markup filter) and the length of [JSON.stringify] are
    parameters of the development.  JavaScript strings are modelled by
    [string], their [length] by [String.length]. *)

From Stdlib Require Import String Ascii List ZArith Bool Lia DecimalString.
Import ListNotations.
Open Scope string_scope.

Set Warnings "-register-all".

(** ** JavaScript values *)

(** The values a parsed request body can hold, plus the two host objects that
    [SanitizableValue] names.  A number is never inspected by the engine, so
    its carrier is [Z].  An object is the list of its own enumerable
    string-keyed properties in [Object.entries] order (for an object of
    JavaScript the keys of such a list are distinct); its prototype is not
    part of the model. *)
Inductive value : Type :=
| VUndefined
| VNull
| VBoolean (b : bool)
| VNumber (n : Z)
| VString (s : string)
| VArray (items : list value)
| VObject (entries : list (string * value))
| VDate (time : Z)
| VRegExp (source flags : string).

(** Values thrown by JavaScript code.  [NonError] stands for a thrown value
    that is not an instance of [Error]. *)
Inductive exn : Type :=
| SanitizationError (message : string) (field : option string)
| Error (message : string)
| TypeError (message : string)
| NonError.

(** [error instanceof Error ? error.message : 'Unknown error'] *)
Definition message_or_unknown (error : exn) : string :=
  match error with
  | SanitizationError message _ => message
  | Error message => message
  | TypeError message => message
  | NonError => "Unknown error"
  end.

(** Template-literal rendering of an array index and of a number. *)
Definition string_of_nat (n : nat) : string :=
  NilEmpty.string_of_uint (Nat.to_uint n).

Definition string_of_Z (z : Z) : string :=
  NilZero.string_of_int (Z.to_int z).

(** [fieldName ? a : b] and [fieldName || 'unknown']: an absent or empty
    string is falsy. *)
Definition truthy (fieldName : option string) : bool :=
  match fieldName with
  | Some s => negb (s =? "")
  | None => false
  end.

Definition or_unknown (fieldName : option string) : string :=
  match fieldName with
  | Some s => if s =? "" then "unknown" else s
  | None => "unknown"
  end.

(** [Array.prototype.includes] on an array of strings. *)
Definition includes (l : list string) (s : string) : bool :=
  existsb (String.eqb s) l.

(** [String.prototype.substring(0, n)]: a negative [n] is clamped to 0, an
    [n] beyond the end to the length. *)
Definition substring0 (n : Z) (s : string) : string :=
  substring 0 (Z.to_nat n) s.

(** ** Objects *)

(** Own-property lookup in an entry list. *)
Fixpoint own (A : Type) (key : string) (entries : list (string * A)) : option A :=
  match entries with
  | [] => None
  | (k, v) :: rest => if k =? key then Some v else own A key rest
  end.
Arguments own {A} key entries.

Definition keys (A : Type) (entries : list (string * A)) : list string :=
  map fst entries.
Arguments keys {A} entries.

(** [CreateDataProperty]: an existing key keeps its position and takes the
    new value, a new key goes last.  This is what object spread and object
    literals do. *)
Fixpoint define (A : Type) (entries : list (string * A)) (key : string) (v : A)
  : list (string * A) :=
  match entries with
  | [] => [(key, v)]
  | (k, old) :: rest =>
      if k =? key then (k, v) :: rest else (k, old) :: define A rest key v
  end.
Arguments define {A} entries key v.

(** [obj[key] = v] on an object created by the literal [{}].  The key
    [__proto__] reaches the accessor of [Object.prototype]: the assignment
    changes (or leaves) the prototype and creates no own property. *)
Definition assign (obj : list (string * value)) (key : string) (v : value)
  : list (string * value) :=
  if key =? "__proto__" then obj else define obj key v.

(** [{ ...a, ...b }] *)
Definition spread (A : Type) (a b : list (string * A)) : list (string * A) :=
  fold_left (fun acc kv => define acc (fst kv) (snd kv)) b a.
Arguments spread {A} a b.

(** ** types/sanitization.ts *)

(** An optional property of a record: missing, or present with a value that
    may be [undefined]. *)
Inductive prop (A : Type) : Type :=
| Absent
| Present (v : option A).
Arguments Absent {A}.
Arguments Present {A} v.

(** Reading a property: a missing one reads as [undefined]. *)
Definition read (A : Type) (p : prop A) : option A :=
  match p with
  | Absent => None
  | Present v => v
  end.
Arguments read {A} p.

(** [{ ...a, ...b }] at one property. *)
Definition spread_prop (A : Type) (a b : prop A) : prop A :=
  match b with
  | Absent => a
  | Present _ => b
  end.
Arguments spread_prop {A} a b.

Definition is_present (A : Type) (p : prop A) : bool :=
  match p with
  | Absent => false
  | Present _ => true
  end.
Arguments is_present {A} p.

Record SanitizationConfig : Type := mkConfig {
  allowedTags : prop (list string);
  allowedAttributes : prop (list (string * list string));
  stripIgnoreTag : prop bool;
  stripIgnoreTagBody : prop bool;
  allowEmptyTags : prop bool;
  maxTagDepth : prop Z;
  maxStringLength : prop Z
}.

Record SanitizationResult : Type := mkResult {
  data : value;
  sanitized : bool;
  warnings : list string;
  errors : option (list string)
}.

Module Metadata.
Record SanitizationMetadata : Type := mk {
  sanitized : bool;
  warnings : list string;
  errors : option (list string);
  fieldsModified : list string;
  originalSize : option nat;
  finalSize : option nat
}.
End Metadata.
Definition SanitizationMetadata : Type := Metadata.SanitizationMetadata.

(** ** constants/sensitiveFields.ts *)

Definition SENSITIVE_FIELDS : list string :=
  [ "password"; "confirmPassword"; "passwordConfirm"; "adminPassword";
    "token"; "accessToken"; "refreshToken"; "apiKey"; "secret"; "privateKey";
    "jwt"; "sessionId"; "csrfToken"; "authToken" ].

(** ** Effects of the class [Sanitizer] *)

(** A method of [Sanitizer] reads and writes [this.metadata] and either
    returns or throws; the writes made before a [throw] stay. *)
Inductive outcome (A : Type) : Type :=
| Returned (a : A)
| Thrown (e : exn).
Arguments Returned {A} a.
Arguments Thrown {A} e.

Definition M (A : Type) : Type :=
  SanitizationMetadata -> outcome A * SanitizationMetadata.

Definition ret (A : Type) (a : A) : M A := fun m => (Returned a, m).
Arguments ret {A} a.

Definition bind (A B : Type) (c : M A) (k : A -> M B) : M B :=
  fun m =>
    match c m with
    | (Returned a, m') => k a m'
    | (Thrown e, m') => (Thrown e, m')
    end.
Arguments bind {A B} c k.

Definition throw (A : Type) (e : exn) : M A := fun m => (Thrown e, m).
Arguments throw {A} e.

(** [try { body } catch (error) { handler }] *)
Definition try_catch (A : Type) (body : M A) (handler : exn -> M A) : M A :=
  fun m =>
    match body m with
    | (Returned a, m') => (Returned a, m')
    | (Thrown e, m') => handler e m'
    end.
Arguments try_catch {A} body handler.

Definition get : M SanitizationMetadata := fun m => (Returned m, m).

Definition modify (f : SanitizationMetadata -> SanitizationMetadata) : M unit :=
  fun m => (Returned tt, f m).

Definition when (b : bool) (c : M unit) : M unit :=
  if b then c else ret tt.

Declare Scope js_scope.
Delimit Scope js_scope with js.
Notation "x <- c ;; k" := (bind c (fun x => k))
  (at level 100, c at next level, right associativity) : js_scope.
Notation "c ;; k" := (bind c (fun _ => k))
  (at level 100, right associativity) : js_scope.
Notation "c >>= k" := (bind c k) (at level 50, left associativity) : js_scope.
Open Scope js_scope.

(** The writes to [this.metadata]. *)
Definition set_sanitized (m : SanitizationMetadata) : SanitizationMetadata :=
  Metadata.mk true (Metadata.warnings m) (Metadata.errors m)
    (Metadata.fieldsModified m) (Metadata.originalSize m) (Metadata.finalSize m).

Definition push_warning (w : string) (m : SanitizationMetadata)
  : SanitizationMetadata :=
  Metadata.mk (Metadata.sanitized m) (Metadata.warnings m ++ [w])%list
    (Metadata.errors m) (Metadata.fieldsModified m) (Metadata.originalSize m)
    (Metadata.finalSize m).

Definition push_fieldModified (f : string) (m : SanitizationMetadata)
  : SanitizationMetadata :=
  Metadata.mk (Metadata.sanitized m) (Metadata.warnings m) (Metadata.errors m)
    (Metadata.fieldsModified m ++ [f])%list (Metadata.originalSize m)
    (Metadata.finalSize m).

(** [this.metadata.errors = this.metadata.errors || [];
    this.metadata.errors.push(message)] *)
Definition push_error (message : string) (m : SanitizationMetadata)
  : SanitizationMetadata :=
  Metadata.mk (Metadata.sanitized m) (Metadata.warnings m)
    (Some (match Metadata.errors m with Some l => l | None => [] end ++ [message])%list)
    (Metadata.fieldsModified m) (Metadata.originalSize m) (Metadata.finalSize m).

Definition set_finalSize (n : nat) (m : SanitizationMetadata)
  : SanitizationMetadata :=
  Metadata.mk (Metadata.sanitized m) (Metadata.warnings m) (Metadata.errors m)
    (Metadata.fieldsModified m) (Metadata.originalSize m) (Some n).

(** ** utils/sanitizer.ts *)

(** The object handed to [DOMPurify.sanitize]. *)
Record PurifyConfig : Type := mkPurify {
  ALLOWED_TAGS : list string;
  ALLOWED_ATTR : list string;
  KEEP_CONTENT : bool;
  ALLOW_EMPTY_TAGS : bool
}.

(** [Required<SanitizationConfig>], the field [this.config]. *)
Module Required.
Record config : Type := mk {
  allowedTags : list string;
  allowedAttributes : list (string * list string);
  stripIgnoreTag : bool;
  stripIgnoreTagBody : bool;
  allowEmptyTags : bool;
  maxTagDepth : Z;
  maxStringLength : Z
}.
End Required.

(** The constructor of [Sanitizer]: [||] and [??] put the defaults in. *)
Definition default (A : Type) (p : prop A) (d : A) : A :=
  match read p with
  | Some a => a
  | None => d
  end.
Arguments default {A} p d.

Definition Sanitizer_config (config : SanitizationConfig) : Required.config :=
  Required.mk
    (default (allowedTags config) [])
    (default (allowedAttributes config) [])
    (default (stripIgnoreTag config) true)
    (default (stripIgnoreTagBody config) false)
    (default (allowEmptyTags config) false)
    (default (maxTagDepth config) 10%Z)
    (default (maxStringLength config) 10000%Z).

Definition Sanitizer_metadata : SanitizationMetadata :=
  Metadata.mk false [] (Some []) [] None None.

(** [Object.values(allowedAttributes).flat()] *)
Definition Object_values_flat (allowedAttributes : list (string * list string))
  : list string :=
  concat (map snd allowedAttributes).

Definition purifyConfig (config : Required.config) : PurifyConfig :=
  mkPurify
    (Required.allowedTags config)
    (Object_values_flat (Required.allowedAttributes config))
    (negb (Required.stripIgnoreTagBody config))
    (Required.allowEmptyTags config).

Definition truncation_warning (fieldName : option string)
  (originalLength : nat) (maxStringLength : Z) : string :=
  "String in field '" ++ or_unknown fieldName ++ "' truncated from "
  ++ string_of_nat originalLength ++ " to " ++ string_of_Z maxStringLength
  ++ " characters".

Definition failure_message (fieldName : option string) (error : exn) : string :=
  "Failed to sanitize string in field '" ++ or_unknown fieldName ++ "': "
  ++ message_or_unknown error.

(** The message of the [TypeError] raised by [undefined.length]. *)
Definition undefined_length_message : string :=
  "Cannot read properties of undefined (reading 'length')".

Section Sanitizer.

(** [DOMPurify.sanitize(input, purifyConfig)]: the filtered string, or the
    value it throws. *)
Variable purify : PurifyConfig -> string -> string + exn.

(** The length of [JSON.stringify(v)] for a [v] other than [undefined]. *)
Variable JSON_length : value -> nat.

(** [JSON.stringify(v).length]: [JSON.stringify(undefined)] is [undefined],
    whose [length] cannot be read. *)
Definition JSON_stringify_length (v : value) : M nat :=
  match v with
  | VUndefined => throw (TypeError undefined_length_message)
  | _ => ret (JSON_length v)
  end.

Variable config : Required.config.

Definition DOMPurify_sanitize (input : string) : M string :=
  match purify (purifyConfig config) input with
  | inl sanitized => ret sanitized
  | inr error => throw error
  end.

Definition sanitizeString (input : string) (fieldName : option string)
  : M string :=
  try_catch
    (let originalLength := String.length input in
     let exceeds := (Z.of_nat originalLength >? Required.maxStringLength config)%Z in
     when exceeds
       (modify (push_warning
          (truncation_warning fieldName originalLength
             (Required.maxStringLength config))) ;;
        modify set_sanitized) ;;
     let input :=
       if exceeds then substring0 (Required.maxStringLength config) input
       else input in
     sanitized <- DOMPurify_sanitize input ;;
     when (negb (sanitized =? input))
       (modify set_sanitized ;;
        match fieldName with
        | Some f => when (truthy fieldName) (modify (push_fieldModified f))
        | None => ret tt
        end) ;;
     ret sanitized)
    (fun error =>
       let message := failure_message fieldName error in
       modify (push_error message) ;;
       throw (SanitizationError message fieldName)).

(** The field name handed down to an array element and to an object entry. *)
Definition index_path (fieldName : option string) (index : nat) : string :=
  match fieldName with
  | Some f =>
      if truthy fieldName then f ++ "[" ++ string_of_nat index ++ "]"
      else "[" ++ string_of_nat index ++ "]"
  | None => "[" ++ string_of_nat index ++ "]"
  end.

Definition fullFieldName (fieldName : option string) (key : string) : string :=
  match fieldName with
  | Some f => if truthy fieldName then f ++ "." ++ key else key
  | None => key
  end.

(** [fieldName && SENSITIVE_FIELDS.includes(fieldName)] *)
Definition is_sensitive (fieldName : option string) : bool :=
  match fieldName with
  | Some f => truthy fieldName && includes SENSITIVE_FIELDS f
  | None => false
  end.

(** [value.map((item, index) => rec(item, path))], from [index] on. *)
Definition map_items (rec : value -> option string -> M value)
  (fieldName : option string) : list value -> nat -> M (list value) :=
  fix map_items (items : list value) (index : nat) : M (list value) :=
    match items with
    | [] => ret []
    | item :: rest =>
        item' <- rec item (Some (index_path fieldName index)) ;;
        rest' <- map_items rest (S index) ;;
        ret (item' :: rest')
    end.

(** [for (const [key, val] of entries) sanitizedObj[key] = rec(val, path)],
    returning [sanitizedObj]. *)
Definition assign_entries (rec : value -> option string -> M value)
  (fieldName : option string)
  : list (string * value) -> list (string * value) -> M (list (string * value)) :=
  fix loop (entries sanitizedObj : list (string * value))
    : M (list (string * value)) :=
    match entries with
    | [] => ret sanitizedObj
    | (key, val) :: rest =>
        val' <- rec val (Some (fullFieldName fieldName key)) ;;
        loop rest (assign sanitizedObj key val')
    end.

(** [sanitizeValue].  A [Date] or a [RegExp] is an object that is not an
    array and has no enumerable own property: [Object.entries] is empty
    for it and the fresh [sanitizedObj] is returned as it is. *)
Fixpoint sanitizeValue (v : value) (fieldName : option string) {struct v}
  : M value :=
  match v with
  | VNull | VUndefined => ret v
  | _ =>
    if is_sensitive fieldName then ret v
    else
      match v with
      | VString s =>
          sanitized <- sanitizeString s fieldName ;; ret (VString sanitized)
      | VArray items =>
          items' <- map_items sanitizeValue fieldName items 0 ;;
          ret (VArray items')
      | VObject entries =>
          sanitizedObj <- assign_entries sanitizeValue fieldName entries [] ;;
          ret (VObject sanitizedObj)
      | VDate _ | VRegExp _ _ => ret (VObject [])
      | _ => ret v
      end
  end.

(** The public method [sanitize]. *)
Definition sanitize (input : value) : M SanitizationResult :=
  originalSize <- JSON_stringify_length input ;;
  modify (fun _ => Metadata.mk false [] (Some []) [] (Some originalSize) None) ;;
  try_catch
    (sanitizedData <- sanitizeValue input None ;;
     finalSize <- JSON_stringify_length sanitizedData ;;
     modify (set_finalSize finalSize) ;;
     m <- get ;;
     ret (mkResult sanitizedData (Metadata.sanitized m) (Metadata.warnings m)
            (match Metadata.errors m with
             | Some (_ :: _ as errors) => Some errors
             | _ => None
             end)))
    (fun error =>
       match error with
       | SanitizationError _ _ => throw error
       | _ => throw (SanitizationError
                       ("Sanitization failed: " ++ message_or_unknown error) None)
       end).

End Sanitizer.

(** The exported functions build a [Sanitizer] and call [sanitize]; the
    instance, and with it the metadata, is dropped. *)
Definition run_sanitize (purify : PurifyConfig -> string -> string + exn)
  (JSON_length : value -> nat) (config : SanitizationConfig) (input : value)
  : outcome SanitizationResult * SanitizationMetadata :=
  sanitize purify JSON_length (Sanitizer_config config) input Sanitizer_metadata.

Definition sanitizeRequestData (purify : PurifyConfig -> string -> string + exn)
  (JSON_length : value -> nat) (data : value) (config : SanitizationConfig)
  : outcome SanitizationResult :=
  fst (run_sanitize purify JSON_length config data).

(** ** config/sanitizationConfigs.ts *)

Definition some (A : Type) (a : A) : prop A := Present (Some a).
Arguments some {A} a.

Definition BASE_CONFIG : SanitizationConfig :=
  mkConfig
    (some ["b"; "i"; "em"; "strong"; "p"; "br"; "ul"; "ol"; "li"; "a"])
    (some [("a", ["href"; "title"])])
    (some true) (some false) (some false) (some 10%Z) (some 10000%Z).

Definition STRICT_CONFIG : SanitizationConfig :=
  mkConfig
    (some ["b"; "i"; "em"; "strong"])
    (some [])
    (some true) (some true) (some false) (some 5%Z) (some 1000%Z).

Definition LIBERAL_CONFIG : SanitizationConfig :=
  mkConfig
    (some ["h1"; "h2"; "h3"; "h4"; "h5"; "h6"; "p"; "br"; "hr";
           "b"; "i"; "em"; "strong"; "u"; "s"; "sub"; "sup";
           "ul"; "ol"; "li"; "a"; "img";
           "blockquote"; "code"; "pre";
           "table"; "thead"; "tbody"; "tr"; "th"; "td";
           "div"; "span"])
    (some [("a", ["href"; "title"; "target"; "rel"]);
           ("img", ["src"; "alt"; "title"; "width"; "height"]);
           ("blockquote", ["cite"]);
           ("table", ["class"]);
           ("th", ["scope"]);
           ("td", ["colspan"; "rowspan"])])
    Absent Absent (some true) (some 20%Z) (some 50000%Z).

Definition BLOG_CONFIG : SanitizationConfig :=
  mkConfig
    (some ["h2"; "h3"; "h4"; "h5"; "h6"; "p"; "br";
           "b"; "i"; "em"; "strong"; "u";
           "ul"; "ol"; "li"; "a"; "img";
           "blockquote"; "code"; "div"; "span"])
    (some [("a", ["href"; "title"; "rel"]);
           ("img", ["src"; "alt"; "title"]);
           ("blockquote", ["cite"]);
           ("div", ["class"]);
           ("span", ["class"])])
    (some true) Absent (some false) (some 15%Z) (some 25000%Z).

Definition COMMENT_CONFIG : SanitizationConfig :=
  mkConfig
    (some ["b"; "i"; "em"; "strong"; "br"; "a"])
    (some [("a", ["href"; "title"])])
    (some true) (some true) (some false) (some 3%Z) (some 2000%Z).

Definition EMAIL_CONFIG : SanitizationConfig :=
  mkConfig
    (some ["p"; "br"; "b"; "i"; "em"; "strong"; "a"])
    (some [("a", ["href"; "title"])])
    (some true) (some true) (some false) (some 5%Z) (some 5000%Z).

Definition ADMIN_CONFIG : SanitizationConfig :=
  mkConfig
    (some ["h1"; "h2"; "h3"; "h4"; "h5"; "h6"; "p"; "br"; "hr";
           "b"; "i"; "em"; "strong"; "u"; "s"; "sub"; "sup";
           "ul"; "ol"; "li"; "a"; "img";
           "blockquote"; "code"; "pre";
           "table"; "thead"; "tbody"; "tr"; "th"; "td";
           "div"; "span"; "section"; "article";
           "form"; "input"; "textarea"; "select"; "option";
           "button"; "label"])
    (some [("a", ["href"; "title"; "target"; "rel"]);
           ("img", ["src"; "alt"; "title"; "width"; "height"; "class"]);
           ("blockquote", ["cite"]);
           ("table", ["class"]);
           ("th", ["scope"; "class"]);
           ("td", ["colspan"; "rowspan"; "class"]);
           ("div", ["class"; "id"]);
           ("span", ["class"; "id"]);
           ("form", ["action"; "method"]);
           ("input", ["type"; "name"; "value"; "placeholder"; "required"]);
           ("textarea", ["name"; "placeholder"; "required"; "rows"; "cols"]);
           ("select", ["name"; "required"]);
           ("option", ["value"]);
           ("button", ["type"; "class"]);
           ("label", ["for"])])
    Absent Absent (some true) (some 25%Z) (some 100000%Z).

Definition SANITIZATION_CONFIGS : list (string * SanitizationConfig) :=
  [ ("base", BASE_CONFIG);
    ("strict", STRICT_CONFIG);
    ("liberal", LIBERAL_CONFIG);
    ("blog", BLOG_CONFIG);
    ("comment", COMMENT_CONFIG);
    ("email", EMAIL_CONFIG);
    ("admin", ADMIN_CONFIG) ].

(** [SANITIZATION_CONFIGS] is an object literal, so a read [obj[name]] that
    finds no own property goes on to [Object.prototype].  Every property
    found there is truthy (a built-in function, or the prototype itself for
    [__proto__]) and has no enumerable own property. *)
Definition Object_prototype_keys : list string :=
  [ "constructor"; "__defineGetter__"; "__defineSetter__"; "hasOwnProperty";
    "__lookupGetter__"; "__lookupSetter__"; "isPrototypeOf";
    "propertyIsEnumerable"; "toString"; "valueOf"; "__proto__";
    "toLocaleString" ].

(** The object literal [{}]. *)
Definition empty_config : SanitizationConfig :=
  mkConfig Absent Absent Absent Absent Absent Absent Absent.

(** [getConfig]: the copy [{ ...config }] of a profile has the properties of
    the profile; the copy of an inherited built-in has none. *)
Definition getConfig (name : string) : outcome SanitizationConfig :=
  match own name SANITIZATION_CONFIGS with
  | Some config => Returned config
  | None =>
      if includes Object_prototype_keys name then Returned empty_config
      else Thrown (Error ("Unknown sanitization config: " ++ name))
  end.

(** [ConfigName | SanitizationConfig] *)
Inductive config_ref : Type :=
| Named (name : string)
| Inline (config : SanitizationConfig).

(** [typeof base === 'string' ? getConfig(base) : { ...base }] *)
Definition baseConfig_of (base : config_ref) : outcome SanitizationConfig :=
  match base with
  | Named name => getConfig name
  | Inline config => Returned config
  end.

Definition createCustomConfig (base : config_ref) (overrides : SanitizationConfig)
  : outcome SanitizationConfig :=
  match baseConfig_of base with
  | Thrown e => Thrown e
  | Returned baseConfig =>
      Returned
        (mkConfig
           (spread_prop (allowedTags baseConfig) (allowedTags overrides))
           (some (spread (default (allowedAttributes baseConfig) [])
                         (default (allowedAttributes overrides) [])))
           (spread_prop (stripIgnoreTag baseConfig) (stripIgnoreTag overrides))
           (spread_prop (stripIgnoreTagBody baseConfig) (stripIgnoreTagBody overrides))
           (spread_prop (allowEmptyTags baseConfig) (allowEmptyTags overrides))
           (spread_prop (maxTagDepth baseConfig) (maxTagDepth overrides))
           (spread_prop (maxStringLength baseConfig) (maxStringLength overrides)))
  end.

(** ** middleware/sanitizeRequest.ts *)

(** The part of the Express request the middleware touches.  The property
    [_sanitization] holds the flags of the result; its timestamp is left
    out, and so is [req.method], which only the console line reads. *)
Record Request : Type := mkRequest {
  path : string;
  body : value;
  _sanitization : option (bool * list string * option (list string))
}.

Module Options.
Record SanitizeRequestOptions : Type := mk {
  config : option config_ref;
  skipPaths : option (list string)
}.
End Options.

(** [haystack.includes(needle)] on strings. *)
Definition string_includes (haystack needle : string) : bool :=
  match index 0 needle haystack with
  | Some _ => true
  | None => false
  end.

(** [req.body && typeof req.body === 'object'] *)
Definition is_object (v : value) : bool :=
  match v with
  | VArray _ | VObject _ | VDate _ | VRegExp _ _ => true
  | _ => false
  end.

Section Middleware.

Variable purify : PurifyConfig -> string -> string + exn.
Variable JSON_length : value -> nat.

(** The [catch] block of the middleware: what [next] receives. *)
Definition next_error (error : exn) : exn :=
  match error with
  | SanitizationError _ _ => error
  | _ => Error ("Request sanitization failed: " ++ message_or_unknown error)
  end.

(** The middleware for options that set none of [onSanitized], [onError]
    and [logWarnings]: the argument handed to [next] ([None] for the plain
    [next()]) and the request as the middleware leaves it.  The middleware
    with the three options is [sanitizeRequest_with] below. *)
Definition sanitizeRequest (options : Options.SanitizeRequestOptions)
  (req : Request) : option exn * Request :=
  if match Options.skipPaths options with
     | Some paths => existsb (string_includes (path req)) paths
     | None => false
     end
  then (None, req)
  else
    match
      match Options.config options with
      | Some (Named name) =>
          if name =? "" then getConfig "base" else getConfig name
      | Some (Inline config) => Returned config
      | None => getConfig "base"
      end
    with
    | Thrown error => (Some (next_error error), req)
    | Returned config =>
        if is_object (body req) then
          match sanitizeRequestData purify JSON_length (body req) config with
          | Thrown error => (Some (next_error error), req)
          | Returned result =>
              let req1 := mkRequest (path req) (data result) (_sanitization req) in
              let req2 :=
                if sanitized result || negb (Nat.eqb (length (warnings result)) 0)
                then mkRequest (path req1) (body req1)
                       (Some (sanitized result, warnings result, errors result))
                else req1 in
              match errors result with
              | Some (_ :: _ as errs) =>
                  (Some (Error ("Sanitization errors: " ++ String.concat ", " errs)),
                   req2)
              | _ => (None, req2)
              end
          end
        else (None, req)
    end.

End Middleware.

(** *** The middleware with its callbacks *)

(** The object stored as [_sanitization] and handed to [onSanitized]. *)
Definition sanitization_info : Type :=
  (bool * list string * option (list string))%type.

(** [onSanitized], [onError] and [logWarnings].  A callback may throw and may
    change the object it is given: [onSanitized] returns what it has thrown,
    if anything, and the object as it leaves it, which is the one
    [req._sanitization] refers to; [onError] likewise with the request. *)
Record Callbacks : Type := mkCallbacks {
  onSanitized : option (sanitization_info -> option exn * sanitization_info);
  onError : option (exn -> Request -> option exn * Request);
  logWarnings : bool
}.

(** How a call of the middleware ends: with a call of [next], or with an
    exception that leaves the [catch] block. *)
Inductive reply : Type :=
| Next (argument : option exn)
| Escaped (error : exn).

(** [options.onError?.(error, req)] *)
Definition call_onError (callbacks : Callbacks) (error : exn) (req : Request)
  : option exn * Request :=
  match onError callbacks with
  | Some callback => callback error req
  | None => (None, req)
  end.

(** The [catch] block. *)
Definition catch_block (callbacks : Callbacks) (error : exn) (req : Request)
  : reply * Request :=
  let sanitizationError := next_error error in
  match call_onError callbacks sanitizationError req with
  | (Some thrown, req') => (Escaped thrown, req')
  | (None, req') => (Next (Some sanitizationError), req')
  end.

Section Middleware_with_callbacks.

Variable purify : PurifyConfig -> string -> string + exn.
Variable JSON_length : value -> nat.

(** How the call ends, the request as the middleware leaves it, and the
    lines written with [console.warn], each with the array printed after
    it.  [method] is [req.method].  A call of [next] is taken to return.
    The [errors] tested after [onSanitized] is the constant of the
    destructuring. *)
Definition sanitizeRequest_with (callbacks : Callbacks) (method : string)
  (options : Options.SanitizeRequestOptions) (req : Request)
  : reply * Request * list (string * list string) :=
  if match Options.skipPaths options with
     | Some paths => existsb (string_includes (path req)) paths
     | None => false
     end
  then (Next None, req, [])
  else
    match
      match Options.config options with
      | Some (Named name) =>
          if name =? "" then getConfig "base" else getConfig name
      | Some (Inline config) => Returned config
      | None => getConfig "base"
      end
    with
    | Thrown error => (catch_block callbacks error req, [])
    | Returned config =>
        if is_object (body req) then
          match sanitizeRequestData purify JSON_length (body req) config with
          | Thrown error => (catch_block callbacks error req, [])
          | Returned result =>
              let req1 := mkRequest (path req) (data result) (_sanitization req) in
              let info := (sanitized result, warnings result, errors result) in
              let flagged :=
                sanitized result || negb (Nat.eqb (length (warnings result)) 0) in
              let console :=
                if flagged && (logWarnings callbacks
                               && negb (Nat.eqb (length (warnings result)) 0))
                then [("Sanitization warnings for " ++ method ++ " " ++ path req ++ ":",
                       warnings result)]
                else [] in
              let called :=
                if flagged then
                  match onSanitized callbacks with
                  | Some callback =>
                      (fst (callback info),
                       mkRequest (path req1) (body req1) (Some (snd (callback info))))
                  | None => (None, mkRequest (path req1) (body req1) (Some info))
                  end
                else (None, req1) in
              match fst called with
              | Some thrown => (catch_block callbacks thrown (snd called), console)
              | None =>
                  match errors result with
                  | Some (_ :: _ as errs) =>
                      let error :=
                        Error ("Sanitization errors: " ++ String.concat ", " errs) in
                      match call_onError callbacks error (snd called) with
                      | (Some thrown, req3) =>
                          (catch_block callbacks thrown req3, console)
                      | (None, req3) => (Next (Some error), req3, console)
                      end
                  | _ => (Next None, snd called, console)
                  end
              end
          end
        else (Next None, req, [])
    end.

End Middleware_with_callbacks.

(** Options that set no callback and do not log. *)
Definition no_callbacks : Callbacks := mkCallbacks None None false.

(** An [onSanitized] that throws, as a callback that reads a property of
    [undefined] does, and an [onError] that records the error it is given in
    the request. *)
Definition throwing_onSanitized : sanitization_info -> option exn * sanitization_info :=
  fun info => (Some (TypeError "boom"), info).

Definition recording_onError : exn -> Request -> option exn * Request :=
  fun error req =>
    (None,
     mkRequest (path req) (body req)
       (Some (false, [message_or_unknown error], None))).

(** ** Notions used by the statements *)

(** The string [sanitizeString] hands to DOMPurify. *)
Definition truncated (config : Required.config) (input : string) : string :=
  if (Z.of_nat (String.length input) >? Required.maxStringLength config)%Z
  then substring0 (Required.maxStringLength config) input
  else input.

(** The strings the traversal of [sanitizeValue] reaches, each with the field
    name it is reached under, in the order of the traversal. *)
Definition leaves_of_items (rec : value -> option string -> list (option string * string))
  (fieldName : option string) : list value -> nat -> list (option string * string) :=
  fix go (items : list value) (index : nat) : list (option string * string) :=
    match items with
    | [] => []
    | item :: rest =>
        (rec item (Some (index_path fieldName index)) ++ go rest (S index))%list
    end.

Definition leaves_of_entries (rec : value -> option string -> list (option string * string))
  (fieldName : option string) : list (string * value) -> list (option string * string) :=
  fix go (entries : list (string * value)) : list (option string * string) :=
    match entries with
    | [] => []
    | (key, val) :: rest =>
        (rec val (Some (fullFieldName fieldName key)) ++ go rest)%list
    end.

Fixpoint string_leaves (v : value) (fieldName : option string) {struct v}
  : list (option string * string) :=
  match v with
  | VNull | VUndefined => []
  | _ =>
    if is_sensitive fieldName then []
    else
      match v with
      | VString s => [(fieldName, s)]
      | VArray items => leaves_of_items string_leaves fieldName items 0
      | VObject entries => leaves_of_entries string_leaves fieldName entries
      | _ => []
      end
  end.

(** Stand-ins for DOMPurify: one that keeps every string, one that removes
    everything, and one that throws as the mock of the test suite does. *)
Definition keep_all : PurifyConfig -> string -> string + exn :=
  fun _ input => inl input.

Definition strip_all : PurifyConfig -> string -> string + exn :=
  fun _ _ => inl "".

Definition dompurify_failure : PurifyConfig -> string -> string + exn :=
  fun _ _ => inr (Error "dompurify-failure").

(** A stand-in that serializes two strings the way an HTML serializer
    does when [b] is an allowed tag, closing the open element and escaping
    the ampersand of its text, and returns every other string as it is.  The
    strings it returns are returned by it unchanged, as a serializer returns
    its own output. *)
Definition closes_and_escapes : PurifyConfig -> string -> string + exn :=
  fun _ input =>
    if input =? "<b>&" then inl "<b>&amp;</b>"
    else if input =? "<b>&a" then inl "<b>&amp;a</b>"
    else inl input.

(** A profile that allows [b] and sets [maxStringLength]. *)
Definition bold_config (n : Z) : SanitizationConfig :=
  mkConfig (some ["b"]) Absent Absent Absent Absent Absent (some n).

(** A stand-in for the length of the JSON text. *)
Definition no_length : value -> nat := fun _ => 0.

(** A configuration that only sets [maxStringLength]. *)
Definition max_length_config (n : Z) : SanitizationConfig :=
  mkConfig Absent Absent Absent Absent Absent Absent (some n).

(** Induction on values that reaches below arrays and objects. *)
Section value_induction.

Variable P : value -> Prop.
Hypothesis P_undefined : P VUndefined.
Hypothesis P_null : P VNull.
Hypothesis P_boolean : forall b, P (VBoolean b).
Hypothesis P_number : forall n, P (VNumber n).
Hypothesis P_string : forall s, P (VString s).
Hypothesis P_array : forall items, Forall P items -> P (VArray items).
Hypothesis P_object :
  forall entries, Forall (fun kv => P (snd kv)) entries -> P (VObject entries).
Hypothesis P_date : forall t, P (VDate t).
Hypothesis P_regexp : forall source flags, P (VRegExp source flags).

Fixpoint value_nested_ind (v : value) : P v :=
  match v with
  | VUndefined => P_undefined
  | VNull => P_null
  | VBoolean b => P_boolean b
  | VNumber n => P_number n
  | VString s => P_string s
  | VArray items =>
      P_array items
        ((fix all (l : list value) : Forall P l :=
            match l with
            | [] => Forall_nil P
            | x :: r => Forall_cons x (value_nested_ind x) (all r)
            end) items)
  | VObject entries =>
      P_object entries
        ((fix all (l : list (string * value)) : Forall (fun kv => P (snd kv)) l :=
            match l with
            | [] => Forall_nil _
            | kv :: r => Forall_cons kv (value_nested_ind (snd kv)) (all r)
            end) entries)
  | VDate t => P_date t
  | VRegExp source flags => P_regexp source flags
  end.

End value_induction.

(** The metadata after the length check and after the comparison of the
    filtered string with the string that was filtered. *)
Definition after_length_check (config : Required.config) (input : string)
  (fieldName : option string) (m : SanitizationMetadata) : SanitizationMetadata :=
  if (Z.of_nat (String.length input) >? Required.maxStringLength config)%Z
  then set_sanitized
         (push_warning
            (truncation_warning fieldName (String.length input)
               (Required.maxStringLength config)) m)
  else m.

Definition after_comparison (filtered input : string) (fieldName : option string)
  (m : SanitizationMetadata) : SanitizationMetadata :=
  if filtered =? input then m
  else
    match fieldName with
    | Some f => if truthy fieldName then push_fieldModified f (set_sanitized m)
                else set_sanitized m
    | None => set_sanitized m
    end.

(** The merge of one property, as the spread [{ ...baseConfig, ...overrides }]
    is documented: a property of the overrides wins, a property the overrides
    lack is that of the base. *)
Definition overrides_win (A : Type) (field : SanitizationConfig -> prop A)
  (baseConfig overrides merged : SanitizationConfig) : Prop :=
  field merged =
  if is_present (field overrides) then field overrides else field baseConfig.
Arguments overrides_win {A} field baseConfig overrides merged.

(** What a run of the traversal over the strings [leaves] does to the error
    list: a run that returns has passed every string through the filter and
    leaves the error list alone; a run that throws has met a string the
    filter refuses, throws the failure of that string and has appended its
    message. *)
Section Runs.

Variable purify : PurifyConfig -> string -> string + exn.
Variable config : Required.config.

Definition leaf_ok (leaf : option string * string) : bool :=
  match purify (purifyConfig config) (truncated config (snd leaf)) with
  | inl _ => true
  | inr _ => false
  end.

Definition errors_list (m : SanitizationMetadata) : list string :=
  match Metadata.errors m with
  | Some l => l
  | None => []
  end.

Definition run_spec (A : Type) (leaves : list (option string * string))
  (m : SanitizationMetadata) (r : outcome A * SanitizationMetadata) : Prop :=
  match r with
  | (Returned _, m') =>
      Metadata.errors m' = Metadata.errors m /\
      forallb leaf_ok leaves = true
  | (Thrown e, m') =>
      exists path s error,
        In (path, s) leaves /\
        purify (purifyConfig config) (truncated config s) = inr error /\
        e = SanitizationError (failure_message path error) path /\
        Metadata.errors m' =
          Some (errors_list m ++ [failure_message path error])%list
  end.

(** A value the traversal returns as it is, under a given field name. *)
Definition fixed (v : value) (fieldName : option string) : Prop :=
  forall m, exists m', sanitizeValue purify config v fieldName m = (Returned v, m').

(** A reached string on which the filter has settled: what it returns for
    the string as cut is within [maxStringLength], and is returned by it
    unchanged. *)
Definition leaf_settled (leaf : option string * string) : Prop :=
  forall t,
    purify (purifyConfig config) (truncated config (snd leaf)) = inl t ->
    (Z.of_nat (String.length t) <= Required.maxStringLength config)%Z /\
    purify (purifyConfig config) t = inl t.

(** When the filter has settled on the strings reached, the result of the
    traversal is returned as it is by a second traversal under the same
    field name. *)
Definition settles (v : value) : Prop :=
  forall fieldName m v' m',
    Forall leaf_settled (string_leaves v fieldName) ->
    sanitizeValue purify config v fieldName m = (Returned v', m') ->
    fixed v' fieldName.

(** What the loop over the entries keeps true of [sanitizedObj]. *)
Definition settled_object (fieldName : option string)
  (obj : list (string * value)) : Prop :=
  NoDup (keys obj) /\
  ~ In "__proto__" (keys obj) /\
  Forall (fun kv => fixed (snd kv)
                      (Some (fullFieldName fieldName (fst kv)))) obj.

End Runs.
Arguments run_spec purify config {A} leaves m r.

(** [s.includes(c)] for one character. *)
Fixpoint contains_char (c : ascii) (s : string) : bool :=
  match s with
  | EmptyString => false
  | String c' rest => Ascii.eqb c' c || contains_char c rest
  end.

(** Two values of the same shape: the same kind of value at every place,
    arrays of the same length, objects with the same keys in the same order;
    only the text of a string may differ. *)
Inductive same_shape : value -> value -> Prop :=
| shape_undefined : same_shape VUndefined VUndefined
| shape_null : same_shape VNull VNull
| shape_boolean b : same_shape (VBoolean b) (VBoolean b)
| shape_number n : same_shape (VNumber n) (VNumber n)
| shape_string s s' : same_shape (VString s) (VString s')
| shape_array items items' :
    Forall2 same_shape items items' ->
    same_shape (VArray items) (VArray items')
| shape_object entries entries' :
    Forall2 (fun kv kv' => fst kv = fst kv' /\ same_shape (snd kv) (snd kv'))
      entries entries' ->
    same_shape (VObject entries) (VObject entries')
| shape_date t : same_shape (VDate t) (VDate t)
| shape_regexp source flags : same_shape (VRegExp source flags) (VRegExp source flags).

(** A value as [JSON.parse] builds it, with no key [__proto__]: the keys of
    an object are distinct, and there is no [Date] and no [RegExp]. *)
Inductive plain : value -> Prop :=
| plain_undefined : plain VUndefined
| plain_null : plain VNull
| plain_boolean b : plain (VBoolean b)
| plain_number n : plain (VNumber n)
| plain_string s : plain (VString s)
| plain_array items : Forall plain items -> plain (VArray items)
| plain_object entries :
    NoDup (keys entries) ->
    ~ In "__proto__" (keys entries) ->
    Forall (fun kv => plain (snd kv)) entries ->
    plain (VObject entries).

(** Shape preservation at one value: whatever the traversal returns for a
    plain value has the shape of that value. *)
Definition keeps_shape (purify : PurifyConfig -> string -> string + exn)
  (config : Required.config) (v : value) : Prop :=
  plain v ->
  forall fieldName m v' m',
    sanitizeValue purify config v fieldName m = (Returned v', m') ->
    same_shape v v'.

(** ** The metadata a traversal is expected to leave *)

(** A reached string that is longer than [maxStringLength], one that the
    filter returns changed, and the warnings and modified fields these give
    rise to, in the order of the traversal. *)
Section Expected.

Variable purify : PurifyConfig -> string -> string + exn.
Variable config : Required.config.

Definition over_long (leaf : option string * string) : bool :=
  (Z.of_nat (String.length (snd leaf)) >? Required.maxStringLength config)%Z.

Definition filter_changes (leaf : option string * string) : bool :=
  match purify (purifyConfig config) (truncated config (snd leaf)) with
  | inl filtered => negb (filtered =? truncated config (snd leaf))
  | inr _ => false
  end.

Definition expected_warnings (leaves : list (option string * string))
  : list string :=
  map (fun leaf =>
         truncation_warning (fst leaf) (String.length (snd leaf))
           (Required.maxStringLength config))
    (filter over_long leaves).

Definition expected_modified (leaves : list (option string * string))
  : list string :=
  flat_map (fun leaf =>
              match fst leaf with
              | Some f => if filter_changes leaf && truthy (fst leaf) then [f] else []
              | None => []
              end) leaves.

Definition touched (leaf : option string * string) : bool :=
  over_long leaf || filter_changes leaf.

(** What a run that returns has done to the warnings, the modified fields
    and the flag. *)
Definition meta_spec (A : Type) (leaves : list (option string * string))
  (m : SanitizationMetadata) (r : outcome A * SanitizationMetadata) : Prop :=
  match r with
  | (Returned _, m') =>
      Metadata.warnings m' = (Metadata.warnings m ++ expected_warnings leaves)%list /\
      Metadata.fieldsModified m' =
        (Metadata.fieldsModified m ++ expected_modified leaves)%list /\
      Metadata.sanitized m' = Metadata.sanitized m || existsb touched leaves
  | (Thrown _, _) => True
  end.

(** A reached string the engine leaves alone: within the limit and returned
    by the filter as it is. *)
Definition untouched (leaf : option string * string) : Prop :=
  (Z.of_nat (String.length (snd leaf)) <= Required.maxStringLength config)%Z /\
  purify (purifyConfig config) (snd leaf) = inl (snd leaf).

End Expected.
Arguments meta_spec purify config {A} leaves m r.

(** Sample runs that the witnesses below evaluate. *)
Definition sample_body : value :=
  VObject [("bio", VString "hello world"); ("age", VNumber 42);
           ("tags", VArray [VString "a"; VString "toolong"])].

Definition sample_result : SanitizationResult :=
  mkResult
    (VObject [("bio", VString "hello"); ("age", VNumber 42);
              ("tags", VArray [VString "a"; VString "toolo"])])
    true
    ["String in field 'bio' truncated from 11 to 5 characters";
     "String in field 'tags[1]' truncated from 7 to 5 characters"]
    None.

Definition sample_metadata : SanitizationMetadata :=
  Metadata.mk true
    ["String in field 'bio' truncated from 11 to 5 characters";
     "String in field 'tags[1]' truncated from 7 to 5 characters"]
    (Some []) [] (Some 0) (Some 0).

(** A filter that refuses what is longer than [n] characters and keeps the
    rest. *)
Definition refuse_longer_than (n : nat) : PurifyConfig -> string -> string + exn :=
  fun _ input =>
    if Nat.leb (String.length input) n then inl input else inr (Error "too long").

(** The two decisions the middleware takes before it looks at the body:
    whether the path is skipped, and which profile the options name. *)
Definition skipped (options : Options.SanitizeRequestOptions) (req : Request) : bool :=
  match Options.skipPaths options with
  | Some paths => existsb (string_includes (path req)) paths
  | None => false
  end.

Definition resolved (options : Options.SanitizeRequestOptions)
  : outcome SanitizationConfig :=
  match Options.config options with
  | Some (Named name) => if name =? "" then getConfig "base" else getConfig name
  | Some (Inline config) => Returned config
  | None => getConfig "base"
  end.

(** ** middleware/sanitizeStrings.ts *)

(** The characters of the model are the code units below 256.  Among them
    the white space and the line terminators of ECMAScript, which
    [String.prototype.trim] removes, are the codes 9 to 13, 32 and 160. *)
Definition is_white_space (c : ascii) : bool :=
  let n := nat_of_ascii c in
  (Nat.leb 9 n && Nat.leb n 13) || Nat.eqb n 32 || Nat.eqb n 160.

Fixpoint trimStart (s : string) : string :=
  match s with
  | EmptyString => EmptyString
  | String c rest => if is_white_space c then trimStart rest else s
  end.

Fixpoint trimEnd (s : string) : string :=
  match s with
  | EmptyString => EmptyString
  | String c rest =>
      match trimEnd rest with
      | EmptyString => if is_white_space c then EmptyString else String c EmptyString
      | rest' => String c rest'
      end
  end.

Definition trim (s : string) : string := trimEnd (trimStart s).

(** The character class of the regular expression: the two angle brackets,
    the double and the single quote, and the ampersand. *)
Definition is_markup_char (c : ascii) : bool :=
  Ascii.eqb c "<" || Ascii.eqb c ">" || Ascii.eqb c "034" || Ascii.eqb c "'"
  || Ascii.eqb c "&".

(** [value.replace(re, '')] for the global regular expression [re] of that
    class: every such character is removed. *)
Fixpoint remove_markup_chars (s : string) : string :=
  match s with
  | EmptyString => EmptyString
  | String c rest =>
      if is_markup_char c then remove_markup_chars rest
      else String c (remove_markup_chars rest)
  end.

Definition defaultSanitizer (value : string) : string :=
  trim (remove_markup_chars value).

Module StringsOptions.
Record SanitizeStringsOptions : Type := mk {
  customSensitiveFields : option (list string);
  customSanitizer : option (string -> string + exn);
  skipEmptyStrings : option bool
}.
End StringsOptions.

(** [!req.body] *)
Definition falsy (v : value) : bool :=
  match v with
  | VUndefined | VNull => true
  | VBoolean b => negb b
  | VNumber n => Z.eqb n 0
  | VString s => s =? ""
  | _ => false
  end.

(** [Object.entries] of a truthy value: the entries of an object, the
    elements of an array under their indices, the characters of a string
    under theirs, and nothing for a number, a boolean, a [Date] or a
    [RegExp]. *)
Fixpoint index_entries (items : list value) (index : nat) : list (string * value) :=
  match items with
  | [] => []
  | item :: rest => (string_of_nat index, item) :: index_entries rest (S index)
  end.

Fixpoint char_entries (s : string) (index : nat) : list (string * value) :=
  match s with
  | EmptyString => []
  | String c rest =>
      (string_of_nat index, VString (String c EmptyString))
      :: char_entries rest (S index)
  end.

Definition Object_entries (v : value) : list (string * value) :=
  match v with
  | VObject entries => entries
  | VArray items => index_entries items 0
  | VString s => char_entries s 0
  | _ => []
  end.

(** Writing the element of an array whose index renders as [key]. *)
Fixpoint set_index (items : list value) (index : nat) (key : string) (v : value)
  : list value :=
  match items with
  | [] => []
  | item :: rest =>
      if string_of_nat index =? key then v :: rest
      else item :: set_index rest (S index) key v
  end.

(** The message of the [TypeError] raised in strict code by a write to a
    character of a string. *)
Definition read_only_message (key s : string) : string :=
  "Cannot assign to read only property '" ++ key ++ "' of string '" ++ s ++ "'".

Section SanitizeStrings.

(** Whether the compiled module is strict code. *)
Variable strict : bool.

(** [req.body[key] = v] for a [key] that [Object.entries(req.body)] has
    listed: the own property of an object or the element of an array takes
    the value; a character of a string cannot be written, which strict code
    reports and other code ignores. *)
Definition set_property (body : value) (key : string) (v : value) : value + exn :=
  match body with
  | VObject entries => inl (VObject (define entries key v))
  | VArray items => inl (VArray (set_index items 0 key v))
  | VString s => if strict then inr (TypeError (read_only_message key s)) else inl body
  | _ => inl body
  end.

(** The loop over the entries listed at its start; [body] is the body as
    the writes so far have left it.  The result is what the [catch] block
    hands to [next], if anything was thrown, and the body at that point. *)
Fixpoint sanitize_entries (sanitizer : string -> string + exn)
  (sensitiveFields : list string) (skipEmptyStrings : bool)
  (entries : list (string * value)) (body : value) : option exn * value :=
  match entries with
  | [] => (None, body)
  | (key, VString value) :: rest =>
      if negb (includes sensitiveFields key) then
        if skipEmptyStrings && (trim value =? "") then
          sanitize_entries sanitizer sensitiveFields skipEmptyStrings rest body
        else
          match sanitizer value with
          | inr error => (Some error, body)
          | inl sanitized =>
              match set_property body key (VString sanitized) with
              | inr error => (Some error, body)
              | inl body' =>
                  sanitize_entries sanitizer sensitiveFields skipEmptyStrings
                    rest body'
              end
          end
      else sanitize_entries sanitizer sensitiveFields skipEmptyStrings rest body
  | _ :: rest =>
      sanitize_entries sanitizer sensitiveFields skipEmptyStrings rest body
  end.

Definition sensitiveFields_of (options : StringsOptions.SanitizeStringsOptions)
  : list string :=
  (SENSITIVE_FIELDS ++
   match StringsOptions.customSensitiveFields options with
   | Some fields => fields
   | None => []
   end)%list.

Definition sanitizer_of (options : StringsOptions.SanitizeStringsOptions)
  : string -> string + exn :=
  match StringsOptions.customSanitizer options with
  | Some sanitizer => sanitizer
  | None => fun value => inl (defaultSanitizer value)
  end.

Definition skipEmptyStrings_of (options : StringsOptions.SanitizeStringsOptions)
  : bool :=
  match StringsOptions.skipEmptyStrings options with
  | Some b => b
  | None => false
  end.

(** The middleware: what [next] receives and the request as it is left. *)
Definition sanitizeStrings (options : StringsOptions.SanitizeStringsOptions)
  (req : Request) : option exn * Request :=
  if falsy (body req) then (None, req)
  else
    let run :=
      sanitize_entries (sanitizer_of options) (sensitiveFields_of options)
        (skipEmptyStrings_of options) (Object_entries (body req)) (body req) in
    (fst run, mkRequest (path req) (snd run) (_sanitization req)).

End SanitizeStrings.

(** A character the default sanitizer removes occurs in a string. *)
Fixpoint has_markup_char (s : string) : bool :=
  match s with
  | EmptyString => false
  | String c rest => is_markup_char c || has_markup_char rest
  end.

(** What the middleware makes of one entry when the sanitizer returns
    [clean value] for every string. *)
Definition rewrite_entry (clean : string -> string) (sensitiveFields : list string)
  (skipEmptyStrings : bool) (kv : string * value) : string * value :=
  match snd kv with
  | VString value =>
      if includes sensitiveFields (fst kv) then kv
      else if skipEmptyStrings && (trim value =? "") then kv
      else (fst kv, VString (clean value))
  | _ => kv
  end.

(** A custom sanitizer that throws on one string and otherwise does what
    the default does. *)
Definition throwing_sanitizer_on (bad : string) : string -> string + exn :=
  fun value => if value =? bad then inr (Error "Fail") else inl (defaultSanitizer value).

Definition starts_with_white_space (s : string) : bool :=
  match s with
  | EmptyString => false
  | String c _ => is_white_space c
  end.

Fixpoint ends_with_white_space (s : string) : bool :=
  match s with
  | EmptyString => false
  | String c EmptyString => is_white_space c
  | String _ rest => ends_with_white_space rest
  end.

(** ** Places in a value *)

(** A place in a value is reached by steps: into the property of an object
    or into the element of an array. *)
Inductive step : Type :=
| Key (key : string)
| Index (index : nat).

(** The value at a place, if there is one. *)
Fixpoint value_at (v : value) (steps : list step) : option value :=
  match steps with
  | [] => Some v
  | Key key :: rest =>
      match v with
      | VObject entries =>
          match own key entries with
          | Some child => value_at child rest
          | None => None
          end
      | _ => None
      end
  | Index index :: rest =>
      match v with
      | VArray items =>
          match nth_error items index with
          | Some child => value_at child rest
          | None => None
          end
      | _ => None
      end
  end.

(** The field name [sanitizeValue] hands down to a place, from the field
    name of the value the steps start at. *)
Fixpoint field_name_at (fieldName : option string) (steps : list step)
  : option string :=
  match steps with
  | [] => fieldName
  | Key key :: rest => field_name_at (Some (fullFieldName fieldName key)) rest
  | Index index :: rest => field_name_at (Some (index_path fieldName index)) rest
  end.

(** Whether the sensitivity guard fires at the place or on the way to it, so
    that the traversal returns what is there, and all below it, as it is. *)
Fixpoint guard_fires (fieldName : option string) (steps : list step) : bool :=
  is_sensitive fieldName ||
  match steps with
  | [] => false
  | Key key :: rest => guard_fires (Some (fullFieldName fieldName key)) rest
  | Index index :: rest => guard_fires (Some (index_path fieldName index)) rest
  end.

(** The keys of every object in a value are distinct, as they are in every
    object of JavaScript. *)
Inductive distinct_keys : value -> Prop :=
| distinct_undefined : distinct_keys VUndefined
| distinct_null : distinct_keys VNull
| distinct_boolean b : distinct_keys (VBoolean b)
| distinct_number n : distinct_keys (VNumber n)
| distinct_string s : distinct_keys (VString s)
| distinct_array items : Forall distinct_keys items -> distinct_keys (VArray items)
| distinct_object entries :
    NoDup (keys entries) ->
    Forall (fun kv => distinct_keys (snd kv)) entries ->
    distinct_keys (VObject entries)
| distinct_date t : distinct_keys (VDate t)
| distinct_regexp source flags : distinct_keys (VRegExp source flags).

(** A [Date] or a [RegExp]. *)
Definition is_host_object (v : value) : bool :=
  match v with
  | VDate _ | VRegExp _ _ => true
  | _ => false
  end.


(** A body with host objects: under a plain key, inside an array, and inside
    the value of a sensitive key. *)
Definition dated_body : value :=
  VObject [("createdAt", VDate 0);
           ("rules", VArray [VRegExp "a+" "g"]);
           ("token", VObject [("issuedAt", VDate 0)])].

(** * Properties *)

(** ** Strings *)

Lemma substring0_length (n : nat) (s : string) :
  String.length (substring 0 n s) = Nat.min n (String.length s).
Proof.
  revert n; induction s as [|c s IH]; intros [|n]; simpl; auto.
Qed.


(** ** Objects as entry lists *)

Lemma own_define (A : Type) (entries : list (string * A)) key v k :
  own k (define entries key v) = if key =? k then Some v else own k entries.
Proof.
  induction entries as [|[k0 v0] rest IH]; simpl.
  - destruct (key =? k); reflexivity.
  - destruct (k0 =? key) eqn:E0; simpl.
    + apply String.eqb_eq in E0; subst k0.
      destruct (key =? k); reflexivity.
    + rewrite IH. destruct (k0 =? k) eqn:E1; [|reflexivity].
      apply String.eqb_eq in E1; subst k0.
      rewrite String.eqb_sym in E0. rewrite E0. reflexivity.
Qed.

Lemma own_absent (A : Type) (entries : list (string * A)) k :
  ~ In k (keys entries) -> own k entries = None.
Proof.
  induction entries as [|[k0 v0] rest IH]; simpl; intros H; [reflexivity|].
  destruct (k0 =? k) eqn:E.
  - apply String.eqb_eq in E. tauto.
  - apply IH. tauto.
Qed.

Lemma own_spread (A : Type) (b a : list (string * A)) k :
  NoDup (keys b) ->
  own k (spread a b) =
  match own k b with
  | Some v => Some v
  | None => own k a
  end.
Proof.
  unfold spread. revert a.
  induction b as [|[k0 v0] rest IH]; simpl; intros a Hnd; [reflexivity|].
  inversion Hnd as [|? ? Hnotin Hrest]; subst.
  rewrite IH by assumption. rewrite own_define.
  destruct (k0 =? k) eqn:E.
  - apply String.eqb_eq in E; subst k0.
    rewrite (own_absent _ rest k Hnotin). reflexivity.
  - reflexivity.
Qed.

Lemma define_fresh (A : Type) (entries : list (string * A)) key v :
  ~ In key (keys entries) -> define entries key v = (entries ++ [(key, v)])%list.
Proof.
  induction entries as [|[k0 v0] rest IH]; simpl; intros H; [reflexivity|].
  destruct (k0 =? key) eqn:E.
  - apply String.eqb_eq in E. tauto.
  - rewrite IH by tauto. reflexivity.
Qed.

Lemma keys_define_present (A : Type) (entries : list (string * A)) key v :
  In key (keys entries) -> keys (define entries key v) = keys entries.
Proof.
  induction entries as [|[k0 v0] rest IH]; simpl; intros H; [contradiction|].
  destruct (k0 =? key) eqn:E; simpl; [reflexivity|].
  apply String.eqb_neq in E. f_equal. apply IH. tauto.
Qed.

Lemma Forall_define (A : Type) (Q : string * A -> Prop) entries key v :
  Forall Q entries -> Q (key, v) -> Forall Q (define entries key v).
Proof.
  intros Hall Hq. induction Hall as [|[k0 v0] rest Hk Hrest IH]; simpl.
  - constructor; [exact Hq | constructor].
  - destruct (k0 =? key) eqn:E.
    + apply String.eqb_eq in E; subst k0. constructor; assumption.
    + constructor; assumption.
Qed.

(** ** One call of [sanitizeString] *)

Lemma sanitizeString_eq purify config input fieldName m :
  sanitizeString purify config input fieldName m =
  match purify (purifyConfig config) (truncated config input) with
  | inl filtered =>
      (Returned filtered,
       after_comparison filtered (truncated config input) fieldName
         (after_length_check config input fieldName m))
  | inr error =>
      (Thrown (SanitizationError (failure_message fieldName error) fieldName),
       push_error (failure_message fieldName error)
         (after_length_check config input fieldName m))
  end.
Proof.
  unfold sanitizeString, try_catch, bind, when, modify, ret, throw,
    DOMPurify_sanitize, truncated, after_length_check, after_comparison.
  destruct (Z.of_nat (String.length input) >? Required.maxStringLength config)%Z;
    cbn beta iota;
    match goal with
    | |- context [purify ?c ?i] => destruct (purify c i) as [filtered|error]
    end; cbn; try reflexivity;
    destruct (filtered =? _); cbn; try reflexivity;
    destruct fieldName as [f|]; cbn; try reflexivity;
    destruct (f =? ""); reflexivity.
Qed.


(** ** Merging profiles *)

(** C8.  [createCustomConfig] returns a profile in which every property the
    overrides carry replaces that of the base and every other property is
    that of the base, while [allowedAttributes] is merged tag by tag: a tag of
    the overrides has the attribute list of the overrides, a tag only the
    base has keeps the list of the base. *)
Theorem createCustomConfig_merges base overrides baseConfig :
  baseConfig_of base = Returned baseConfig ->
  NoDup (keys (default (allowedAttributes overrides) [])) ->
  exists merged,
    createCustomConfig base overrides = Returned merged /\
    overrides_win allowedTags baseConfig overrides merged /\
    overrides_win stripIgnoreTag baseConfig overrides merged /\
    overrides_win stripIgnoreTagBody baseConfig overrides merged /\
    overrides_win allowEmptyTags baseConfig overrides merged /\
    overrides_win maxTagDepth baseConfig overrides merged /\
    overrides_win maxStringLength baseConfig overrides merged /\
    (forall tag,
        own tag (default (allowedAttributes merged) []) =
        match own tag (default (allowedAttributes overrides) []) with
        | Some attributes => Some attributes
        | None => own tag (default (allowedAttributes baseConfig) [])
        end).
Proof.
  intros Hbase Hnd. unfold createCustomConfig. rewrite Hbase.
  eexists; split; [reflexivity|].
  unfold overrides_win; cbn [allowedTags stripIgnoreTag stripIgnoreTagBody
    allowEmptyTags maxTagDepth maxStringLength allowedAttributes].
  repeat (split; [unfold spread_prop, is_present;
                  match goal with
                  | |- context [match ?f overrides with _ => _ end] =>
                      destruct (f overrides); reflexivity
                  end|]).
  intros tag. unfold some at 1, default at 1. cbn [read].
  apply own_spread. exact Hnd.
Qed.

Lemma createCustomConfig_merges_witness :
  let overrides :=
    mkConfig (some ["p"; "br"; "strong"; "em"]) (some [("a", ["href"])])
      Absent Absent Absent Absent (some 1000%Z) in
  baseConfig_of (Named "base") = Returned BASE_CONFIG /\
  NoDup (keys (default (allowedAttributes overrides) [])) /\
  exists merged,
    createCustomConfig (Named "base") overrides = Returned merged /\
    maxStringLength merged = some 1000%Z /\
    maxTagDepth merged = some 10%Z /\
    own "a" (default (allowedAttributes merged) []) = Some ["href"].
Proof.
  cbv zeta.
  assert (H1 : baseConfig_of (Named "base") = Returned BASE_CONFIG) by reflexivity.
  assert (H2 : NoDup (keys (default (allowedAttributes
                 (mkConfig (some ["p"; "br"; "strong"; "em"]) (some [("a", ["href"])])
                    Absent Absent Absent Absent (some 1000%Z))) []))).
  { simpl. constructor; [simpl; tauto | constructor]. }
  split; [exact H1 | split; [exact H2 |]].
  destruct (createCustomConfig_merges _ _ _ H1 H2)
    as (merged & Hm & _ & _ & _ & _ & Hdepth & Hlen & Hattr).
  exists merged. split; [exact Hm | split; [exact Hlen | split; [exact Hdepth |]]].
  rewrite (Hattr "a"). reflexivity.
Defined.

(** ** Sensitive fields *)

Lemma sensitive_path_is_skipped purify config v fieldName m :
  is_sensitive fieldName = true ->
  sanitizeValue purify config v fieldName m = (Returned v, m).
Proof.
  intros Hs. destruct v; simpl; try rewrite Hs; reflexivity.
Qed.

Lemma contains_char_app c a b :
  contains_char c (a ++ b) = contains_char c a || contains_char c b.
Proof.
  induction a as [|c' a IH]; simpl; [reflexivity|].
  rewrite IH. apply orb_assoc.
Qed.

Lemma includes_In l s : includes l s = true -> In s l.
Proof.
  unfold includes. rewrite existsb_exists. intros (x & Hin & Heq).
  apply String.eqb_eq in Heq. subst. exact Hin.
Qed.

(** No sensitive name holds a dot or a bracket, so no synthesized path under
    a parent, and no path of an array element, is sensitive: the guard only
    fires where the path is the bare key. *)
Lemma sensitive_names_are_bare c s :
  c = "."%char \/ c = "["%char ->
  contains_char c s = true -> includes SENSITIVE_FIELDS s = false.
Proof.
  intros Hc Hs. destruct (includes SENSITIVE_FIELDS s) eqn:E; [|reflexivity].
  apply includes_In in E.
  assert (Hall : forallb (fun n => negb (contains_char c n)) SENSITIVE_FIELDS = true)
    by (destruct Hc; subst; reflexivity).
  rewrite forallb_forall in Hall. specialize (Hall _ E).
  rewrite Hs in Hall. discriminate.
Qed.

Lemma nested_path_is_not_sensitive parent key :
  parent <> "" -> is_sensitive (Some (fullFieldName (Some parent) key)) = false.
Proof.
  intros Hp. apply String.eqb_neq in Hp.
  unfold fullFieldName, is_sensitive. cbn [truthy]. rewrite Hp. cbn [negb].
  rewrite (sensitive_names_are_bare "."%char); [apply andb_false_r | left; reflexivity |].
  rewrite !contains_char_app. simpl. apply orb_true_r.
Qed.

Lemma element_path_is_not_sensitive fieldName index :
  is_sensitive (Some (index_path fieldName index)) = false.
Proof.
  unfold is_sensitive.
  rewrite (sensitive_names_are_bare "["%char); [apply andb_false_r | right; reflexivity |].
  unfold index_path.
  destruct fieldName as [f|]; [destruct (truthy (Some f))|];
    rewrite ?contains_char_app; simpl; rewrite ?orb_true_r; reflexivity.
Qed.

Lemma sensitive_path_is_sensitive_key fieldName key :
  is_sensitive (Some (fullFieldName fieldName key)) = true ->
  includes SENSITIVE_FIELDS key = true.
Proof.
  destruct fieldName as [parent|].
  - destruct (String.eqb_spec parent "") as [->|Hp].
    + simpl. intros H. apply andb_prop in H. tauto.
    + rewrite (nested_path_is_not_sensitive parent key Hp). discriminate.
  - simpl. intros H. apply andb_prop in H. tauto.
Qed.

(** C1.  The sensitivity test compares the dotted field path, not the key:
    a [password] under [user] is reached as [user.password], which is not in
    [SENSITIVE_FIELDS].  With [maxStringLength] 3 and a filter that keeps
    everything the nested password is cut and a warning names it; with a
    filter that removes everything it is emptied and recorded as modified.
    The same field at the top level is returned as it is. *)
Theorem nested_password_is_sanitized :
  let nested := VObject [("user", VObject [("password", VString "hunter2")])] in
  run_sanitize keep_all no_length (max_length_config 3) nested =
    (Returned
       (mkResult (VObject [("user", VObject [("password", VString "hun")])]) true
          ["String in field 'user.password' truncated from 7 to 3 characters"]
          None),
     Metadata.mk true
       ["String in field 'user.password' truncated from 7 to 3 characters"]
       (Some []) [] (Some 0) (Some 0)) /\
  run_sanitize strip_all no_length BASE_CONFIG nested =
    (Returned
       (mkResult (VObject [("user", VObject [("password", VString "")])]) true []
          None),
     Metadata.mk true [] (Some []) ["user.password"] (Some 0) (Some 0)) /\
  run_sanitize strip_all no_length BASE_CONFIG
    (VObject [("password", VString "hunter2")]) =
    (Returned (mkResult (VObject [("password", VString "hunter2")]) false [] None),
     Metadata.mk false [] (Some []) [] (Some 0) (Some 0)).
Proof.
  cbv zeta. repeat split; vm_compute; reflexivity.
Qed.

(** ** The configuration handed to the filter *)

(** C2.  [ALLOWED_ATTR] is the concatenation of all attribute lists: the tag
    an attribute was allowed for does not reach the filter.  A profile that
    allows [href] on [a] and one that allows it on [img] give the same
    DOMPurify configuration, and [sanitizeString] behaves the same under
    both, whatever the filter is. *)
Theorem attribute_tags_do_not_reach_the_filter purify input fieldName m :
  let profile owner :=
    Sanitizer_config
      (mkConfig (some ["a"; "img"]) (some [(owner, ["href"])])
         Absent Absent Absent Absent Absent) in
  purifyConfig (profile "a") = mkPurify ["a"; "img"] ["href"] true false /\
  purifyConfig (profile "img") = mkPurify ["a"; "img"] ["href"] true false /\
  sanitizeString purify (profile "a") input fieldName m =
  sanitizeString purify (profile "img") input fieldName m.
Proof.
  cbv zeta. repeat split.
Qed.

(** ** The shape of the result *)

(** C3.  An own property [__proto__] of the input, as [JSON.parse] creates
    it, is assigned with [sanitizedObj[key] = ...] and so never becomes an own
    property of the result: the key set shrinks. *)
Theorem proto_key_is_dropped purify JSON_length config :
  sanitizeRequestData purify JSON_length
    (VObject [("__proto__", VObject [("isAdmin", VBoolean true)]);
              ("name", VNumber 1)])
    config =
  Returned (mkResult (VObject [("name", VNumber 1)]) false [] None).
Proof.
  reflexivity.
Qed.

Lemma same_shape_refl v : same_shape v v.
Proof.
  induction v as [| |b|n|s|items IH|entries IH|t|source flags]
    using value_nested_ind; try constructor.
  - induction IH; constructor; assumption.
  - induction IH; constructor; auto.
Qed.

(** Shape preservation, level by level. *)
Section Shape.

Variable purify : PurifyConfig -> string -> string + exn.
Variable config : Required.config.

Lemma map_items_shape fieldName items :
  Forall (fun v => keeps_shape purify config v) items ->
  Forall plain items ->
  forall index m items' m',
    map_items (sanitizeValue purify config) fieldName items index m =
      (Returned items', m') ->
    Forall2 same_shape items items'.
Proof.
  induction 1 as [|item rest Hitem _ IH]; intros Hplain index m items' m' Hrun;
    cbn [map_items] in Hrun.
  - inversion Hrun; subst. constructor.
  - inversion Hplain as [|? ? Hp Hps]; subst. unfold bind in Hrun.
    destruct (sanitizeValue purify config item _ m) as [[item'|e] m1] eqn:E1;
      [|discriminate].
    destruct (map_items _ fieldName rest (S index) m1) as [[rest'|e] m2] eqn:E2;
      [|discriminate].
    inversion Hrun; subst. constructor.
    + exact (Hitem Hp _ _ _ _ E1).
    + exact (IH Hps _ _ _ _ E2).
Qed.

Lemma assign_entries_shape fieldName entries :
  Forall (fun kv => keeps_shape purify config (snd kv)) entries ->
  Forall (fun kv => plain (snd kv)) entries ->
  forall obj m obj' m',
    NoDup (keys (obj ++ entries)) ->
    ~ In "__proto__" (keys entries) ->
    assign_entries (sanitizeValue purify config) fieldName entries obj m =
      (Returned obj', m') ->
    exists added,
      obj' = (obj ++ added)%list /\
      Forall2 (fun kv kv' => fst kv = fst kv' /\ same_shape (snd kv) (snd kv'))
        entries added.
Proof.
  induction 1 as [|[key val] rest Hval _ IH];
    intros Hplain obj m obj' m' Hnd Hproto Hrun; cbn [assign_entries] in Hrun.
  - inversion Hrun; subst. exists []. rewrite app_nil_r. split; constructor.
  - inversion Hplain as [|? ? Hp Hps]; subst. cbn [snd] in Hp, Hval.
    unfold bind in Hrun.
    destruct (sanitizeValue purify config val _ m) as [[val'|e] m1] eqn:E1;
      [|discriminate].
    assert (Hfresh : ~ In key (keys obj)).
    { unfold keys in Hnd. rewrite map_app in Hnd. simpl in Hnd.
      apply NoDup_remove_2 in Hnd. intros Hin. apply Hnd.
      apply in_or_app. left. exact Hin. }
    assert (Hassign : assign obj key val' = (obj ++ [(key, val')])%list).
    { unfold assign. destruct (key =? "__proto__") eqn:E.
      - apply String.eqb_eq in E. simpl in Hproto. tauto.
      - apply define_fresh. exact Hfresh. }
    rewrite Hassign in Hrun.
    destruct (IH Hps (obj ++ [(key, val')])%list m1 obj' m') as (added & -> & Hall).
    + unfold keys in *. rewrite <- app_assoc, map_app. rewrite map_app in Hnd.
      exact Hnd.
    + simpl in Hproto. tauto.
    + exact Hrun.
    + exists ((key, val') :: added). split.
      * rewrite <- app_assoc. reflexivity.
      * constructor; [split; [reflexivity | exact (Hval Hp _ _ _ _ E1)] | exact Hall].
Qed.

(** Away from the key [__proto__] and from host objects the claim of C3
    holds: a returned value has the shape of the input. *)
Lemma sanitizeValue_keeps_shape v : keeps_shape purify config v.
Proof.
  induction v as [| |b|n|s|items IH|entries IH|t|source flags]
    using value_nested_ind; intros Hplain fieldName m v' m' Hrun;
    cbn [sanitizeValue] in Hrun;
    try (inversion Hrun; subst; constructor);
    try (destruct (is_sensitive fieldName);
         [inversion Hrun; subst; apply same_shape_refl|]);
    try (inversion Hrun; subst; constructor); unfold bind in Hrun.
  - destruct (sanitizeString purify config s fieldName m) as [[f|e] m1];
      inversion Hrun; subst. constructor.
  - destruct (map_items _ fieldName items 0 m) as [[items'|e] m1] eqn:E;
      inversion Hrun; subst. constructor.
    inversion Hplain; subst. exact (map_items_shape _ _ IH ltac:(assumption) _ _ _ _ E).
  - destruct (assign_entries _ fieldName entries [] m) as [[obj|e] m1] eqn:E;
      inversion Hrun; subst. constructor.
    inversion Hplain as [| | | | | |? Hnd Hproto Hps]; subst.
    destruct (assign_entries_shape _ _ IH Hps [] _ _ _ Hnd Hproto E)
      as (added & -> & Hall).
    exact Hall.
  - inversion Hplain.
  - inversion Hplain.
Qed.

End Shape.

(** ** Host objects *)

(** C9, as the claim states it, fails under a sensitive field name: the
    [Date] is returned as it is. *)
Lemma sensitive_date_is_kept :
  sanitizeRequestData keep_all no_length
    (VObject [("token", VDate 0); ("createdAt", VDate 0)]) BASE_CONFIG =
  Returned
    (mkResult (VObject [("token", VDate 0); ("createdAt", VObject [])])
       false [] None) /\
  VDate 0 <> VObject [].
Proof.
  split; [reflexivity | discriminate].
Qed.

(** ** Resolving a profile name *)

Lemma getConfig_unknown name :
  own name SANITIZATION_CONFIGS = None ->
  includes Object_prototype_keys name = false ->
  getConfig name = Thrown (Error ("Unknown sanitization config: " ++ name)).
Proof.
  intros Hown Hproto. unfold getConfig. rewrite Hown, Hproto. reflexivity.
Qed.

(** A name that does not resolve stops the middleware before the body is
    looked at: [next] receives the error and the request is untouched,
    whatever the body and the filter are. *)
Lemma sanitizeRequest_unknown_config purify JSON_length name skipPaths req :
  name <> "" ->
  own name SANITIZATION_CONFIGS = None ->
  includes Object_prototype_keys name = false ->
  sanitizeRequest purify JSON_length (Options.mk (Some (Named name)) skipPaths) req =
  (if match skipPaths with
      | Some paths => existsb (string_includes (path req)) paths
      | None => false
      end
   then None
   else Some (Error ("Request sanitization failed: Unknown sanitization config: "
                     ++ name)),
   req).
Proof.
  intros Hne Hown Hproto. unfold sanitizeRequest. cbn [Options.skipPaths Options.config].
  destruct (match skipPaths with Some _ => _ | None => _ end); [reflexivity|].
  apply String.eqb_neq in Hne. rewrite Hne.
  rewrite (getConfig_unknown name Hown Hproto). reflexivity.
Qed.

Example getConfig_nonexistent :
  getConfig "nonexistent" = Thrown (Error "Unknown sanitization config: nonexistent").
Proof. reflexivity. Qed.

(** C7.  A name that is no profile but a property every object inherits
    resolves: [SANITIZATION_CONFIGS[name]] is then a built-in, the test
    [!config] lets it through, and its copy is the empty configuration.  The
    middleware goes on to sanitize the body under the defaults. *)
Theorem getConfig_resolves_inherited_names :
  own "constructor" SANITIZATION_CONFIGS = None /\
  getConfig "constructor" = Returned empty_config /\
  getConfig "toString" = Returned empty_config /\
  sanitizeRequest strip_all no_length
    (Options.mk (Some (Named "constructor")) None)
    (mkRequest "/api/posts" (VObject [("content", VString "<p>hello</p>")]) None) =
  (None,
   mkRequest "/api/posts" (VObject [("content", VString "")])
     (Some (true, [], None))).
Proof.
  repeat split.
Qed.

(** ** Runs of the traversal and the error list *)

Section Run_facts.

Variable purify : PurifyConfig -> string -> string + exn.
Variable config : Required.config.

Lemma run_spec_ret (A : Type) (a : A) m : run_spec purify config [] m (ret a m).
Proof. simpl; auto. Qed.

Lemma run_spec_bind (A B : Type) (c : M A) (k : A -> M B) l1 l2 m :
  run_spec purify config l1 m (c m) ->
  (forall a m1, run_spec purify config l2 m1 (k a m1)) ->
  run_spec purify config (l1 ++ l2)%list m (bind c k m).
Proof.
  unfold bind. intros Hc Hk.
  destruct (c m) as [[a|e] m1]; simpl in Hc.
  - destruct Hc as [He Hl1]. specialize (Hk a m1).
    destruct (k a m1) as [[b|e] m2]; simpl in *.
    + destruct Hk as [He2 Hl2]. split; [congruence|].
      rewrite forallb_app, Hl1, Hl2. reflexivity.
    + destruct Hk as (path & s & error & Hin & Hp & -> & Herr).
      exists path, s, error. repeat split; auto.
      * apply in_or_app; auto.
      * rewrite Herr. unfold errors_list. rewrite He. reflexivity.
  - destruct Hc as (path & s & error & Hin & Hp & -> & Herr).
    exists path, s, error. repeat split; auto. apply in_or_app; auto.
Qed.

Lemma run_spec_map (A B : Type) (f : A -> B) l m (r : outcome A * SanitizationMetadata) :
  run_spec purify config l m r ->
  run_spec purify config l m (match r with
            | (Returned a, m') => (Returned (f a), m')
            | (Thrown e, m') => (Thrown e, m')
            end).
Proof. destruct r as [[a|e] m']; simpl; auto. Qed.

Lemma errors_after_length_check input fieldName m :
  Metadata.errors (after_length_check config input fieldName m) = Metadata.errors m.
Proof. unfold after_length_check. destruct (_ >? _)%Z; reflexivity. Qed.

Lemma errors_after_comparison filtered input fieldName m :
  Metadata.errors (after_comparison filtered input fieldName m) = Metadata.errors m.
Proof.
  unfold after_comparison. destruct (filtered =? input); [reflexivity|].
  destruct fieldName as [f|]; [destruct (truthy (Some f))|]; reflexivity.
Qed.

Lemma sanitizeString_spec input fieldName m :
  run_spec purify config [(fieldName, input)] m (sanitizeString purify config input fieldName m).
Proof.
  rewrite sanitizeString_eq. unfold run_spec, leaf_ok. cbn [snd forallb].
  destruct (purify (purifyConfig config) (truncated config input)) as [filtered|error] eqn:E.
  - split; [|reflexivity].
    rewrite errors_after_comparison. apply errors_after_length_check.
  - exists fieldName, input, error. repeat split; auto.
    + left; reflexivity.
    + unfold push_error, errors_list. cbn [Metadata.errors].
      rewrite errors_after_length_check. reflexivity.
Qed.

Lemma map_items_spec fieldName items :
  Forall (fun v => forall fn m,
              run_spec purify config (string_leaves v fn) m (sanitizeValue purify config v fn m)) items ->
  forall index m,
    run_spec purify config (leaves_of_items string_leaves fieldName items index) m
      (map_items (sanitizeValue purify config) fieldName items index m).
Proof.
  induction 1 as [|item rest Hitem _ IH]; intros index m; cbn [map_items leaves_of_items].
  - apply run_spec_ret.
  - apply run_spec_bind; [apply Hitem|]. intros item' m1.
    rewrite <- (app_nil_r (leaves_of_items _ _ rest _)).
    apply run_spec_bind; [apply IH|]. intros; apply run_spec_ret.
Qed.

Lemma assign_entries_spec fieldName entries :
  Forall (fun kv => forall fn m,
              run_spec purify config (string_leaves (snd kv) fn) m
                (sanitizeValue purify config (snd kv) fn m)) entries ->
  forall sanitizedObj m,
    run_spec purify config (leaves_of_entries string_leaves fieldName entries) m
      (assign_entries (sanitizeValue purify config) fieldName entries sanitizedObj m).
Proof.
  induction 1 as [|[key val] rest Hval _ IH]; intros sanitizedObj m;
    cbn [assign_entries leaves_of_entries].
  - apply run_spec_ret.
  - apply run_spec_bind; [apply Hval|]. intros val' m1. apply IH.
Qed.

Lemma sanitizeValue_spec v :
  forall fieldName m,
    run_spec purify config (string_leaves v fieldName) m (sanitizeValue purify config v fieldName m).
Proof.
  induction v as [| |b|n|s|items IH|entries IH|t|source flags]
    using value_nested_ind; intros fieldName m; cbn [sanitizeValue string_leaves];
    try apply run_spec_ret;
    destruct (is_sensitive fieldName); try apply run_spec_ret.
  - rewrite <- (app_nil_r [(fieldName, s)]).
    apply run_spec_bind; [apply sanitizeString_spec|]. intros; apply run_spec_ret.
  - rewrite <- (app_nil_r (leaves_of_items _ _ _ _)).
    apply run_spec_bind; [apply map_items_spec; exact IH|]. intros; apply run_spec_ret.
  - rewrite <- (app_nil_r (leaves_of_entries _ _ _)).
    apply run_spec_bind; [apply assign_entries_spec; exact IH|].
    intros; apply run_spec_ret.
Qed.

End Run_facts.

(** The traversal of a value other than [undefined] does not return
    [undefined]. *)
Lemma sanitizeValue_defined purify config v fieldName m v' m' :
  sanitizeValue purify config v fieldName m = (Returned v', m') ->
  v <> VUndefined -> v' <> VUndefined.
Proof.
  intros H Hv. destruct v; try congruence; simpl in H; unfold ret, bind in H;
    try (destruct (is_sensitive fieldName));
    try match type of H with
        | context [sanitizeString ?p ?c ?s ?f ?m] =>
            destruct (sanitizeString p c s f m) as [[x|e] m1]
        | context [map_items ?r ?f ?i ?n ?m] =>
            destruct (map_items r f i n m) as [[x|e] m1]
        | context [assign_entries ?r ?f ?i ?n ?m] =>
            destruct (assign_entries r f i n m) as [[x|e] m1]
        end;
    inversion H; subst; discriminate.
Qed.

(** The public method, by what the traversal of the input does from the
    fresh metadata. *)
Lemma sanitize_eq purify JSON_length config input m :
  input <> VUndefined ->
  let m0 := Metadata.mk false [] (Some []) [] (Some (JSON_length input)) None in
  sanitize purify JSON_length config input m =
  match sanitizeValue purify config input None m0 with
  | (Returned sanitizedData, m1) =>
      (Returned
         (mkResult sanitizedData (Metadata.sanitized m1) (Metadata.warnings m1)
            (match Metadata.errors m1 with
             | Some (_ :: _ as errors) => Some errors
             | _ => None
             end)),
       set_finalSize (JSON_length sanitizedData) m1)
  | (Thrown (SanitizationError message field), m1) =>
      (Thrown (SanitizationError message field), m1)
  | (Thrown error, m1) =>
      (Thrown (SanitizationError
                 ("Sanitization failed: " ++ message_or_unknown error) None), m1)
  end.
Proof.
  intros Hin m0. unfold sanitize.
  assert (Hlen : JSON_stringify_length JSON_length input = ret (JSON_length input))
    by (destruct input; try reflexivity; congruence).
  rewrite Hlen. unfold bind at 1. unfold ret at 1. unfold bind at 1, modify at 1.
  fold m0. unfold try_catch, bind.
  destruct (sanitizeValue purify config input None m0) as [[v' | e] m1] eqn:E.
  - pose proof (sanitizeValue_defined _ _ _ _ _ _ _ E Hin) as Hv'.
    assert (Hlen' : JSON_stringify_length JSON_length v' = ret (JSON_length v'))
      by (destruct v'; try reflexivity; congruence).
    rewrite Hlen'. reflexivity.
  - destruct e; reflexivity.
Qed.

(** C10.  A call of [sanitize] that returns carries no error list: the field
    [errors] of the result is [undefined]. *)
Theorem returned_result_has_no_errors purify JSON_length config input m result m' :
  sanitize purify JSON_length config input m = (Returned result, m') ->
  errors result = None.
Proof.
  intros H.
  destruct (match input with VUndefined => true | _ => false end) eqn:Hu.
  - destruct input; discriminate.
  - assert (Hin : input <> VUndefined) by (intros ->; discriminate).
    rewrite (sanitize_eq _ _ _ _ _ Hin) in H. cbv zeta in H.
    pose proof (sanitizeValue_spec purify config input None
                  (Metadata.mk false [] (Some []) [] (Some (JSON_length input)) None))
      as Hspec.
    destruct (sanitizeValue purify config input None _) as [[v' | e] m1].
    + simpl in Hspec. destruct Hspec as [He _]. cbn [Metadata.errors] in He.
      inversion H; subst. cbn [errors]. rewrite He. reflexivity.
    + destruct e; discriminate H.
Qed.

Lemma returned_result_has_no_errors_witness :
  let input := VObject [("field", VString "12345678901234567890")] in
  let config := Sanitizer_config (max_length_config 10) in
  let run := sanitize keep_all no_length config input Sanitizer_metadata in
  exists result m',
    run = (Returned result, m') /\
    warnings result <> [] /\
    errors result = None.
Proof.
  cbv zeta. eexists. eexists.
  assert (H : sanitize keep_all no_length (Sanitizer_config (max_length_config 10))
                (VObject [("field", VString "12345678901234567890")])
                Sanitizer_metadata =
              (Returned
                 (mkResult (VObject [("field", VString "1234567890")]) true
                    ["String in field 'field' truncated from 20 to 10 characters"]
                    None),
               Metadata.mk true
                 ["String in field 'field' truncated from 20 to 10 characters"]
                 (Some []) [] (Some 0) (Some 0)))
    by (vm_compute; reflexivity).
  split; [exact H | split; [discriminate |]].
  exact (returned_result_has_no_errors _ _ _ _ _ _ _ H).
Defined.

(** C4.  When the filter refuses one of the strings the traversal reaches,
    [sanitize] throws: the thrown [SanitizationError] carries the field name
    of a refused string and the message built from it, the error list of the
    metadata holds that message and nothing else, and no result is
    returned. *)
Theorem filter_failure_aborts purify JSON_length config input m path s error :
  In (path, s) (string_leaves input None) ->
  purify (purifyConfig config) (truncated config s) = inr error ->
  exists path' s' error' m',
    In (path', s') (string_leaves input None) /\
    purify (purifyConfig config) (truncated config s') = inr error' /\
    sanitize purify JSON_length config input m =
      (Thrown (SanitizationError (failure_message path' error') path'), m') /\
    Metadata.errors m' = Some [failure_message path' error'].
Proof.
  intros Hin Hfail.
  assert (Hdef : input <> VUndefined) by (intros ->; simpl in Hin; contradiction).
  rewrite (sanitize_eq _ _ _ _ _ Hdef). cbv zeta.
  pose proof (sanitizeValue_spec purify config input None
                (Metadata.mk false [] (Some []) [] (Some (JSON_length input)) None))
    as Hspec.
  destruct (sanitizeValue purify config input None _) as [[v' | e] m1]; simpl in Hspec.
  - destruct Hspec as [_ Hall]. rewrite forallb_forall in Hall.
    specialize (Hall _ Hin). unfold leaf_ok in Hall. cbn [snd] in Hall.
    rewrite Hfail in Hall. discriminate.
  - destruct Hspec as (path' & s' & error' & Hin' & Hp' & -> & Herr).
    exists path', s', error', m1. repeat split; assumption.
Qed.

Lemma filter_failure_aborts_witness :
  let input := VObject [("a", VString "<b>x</b>")] in
  let config := Sanitizer_config BASE_CONFIG in
  In (Some "a", "<b>x</b>") (string_leaves input None) /\
  dompurify_failure (purifyConfig config) (truncated config "<b>x</b>") =
    inr (Error "dompurify-failure") /\
  exists path' s' error' m',
    In (path', s') (string_leaves input None) /\
    dompurify_failure (purifyConfig config) (truncated config s') = inr error' /\
    sanitize dompurify_failure no_length config input Sanitizer_metadata =
      (Thrown (SanitizationError (failure_message path' error') path'), m') /\
    Metadata.errors m' = Some [failure_message path' error'].
Proof.
  cbv zeta.
  assert (H1 : In (Some "a", "<b>x</b>")
                 (string_leaves (VObject [("a", VString "<b>x</b>")]) None))
    by (simpl; auto).
  assert (H2 : dompurify_failure (purifyConfig (Sanitizer_config BASE_CONFIG))
                 (truncated (Sanitizer_config BASE_CONFIG) "<b>x</b>") =
               inr (Error "dompurify-failure")) by reflexivity.
  split; [exact H1 | split; [exact H2 |]].
  exact (filter_failure_aborts dompurify_failure no_length
           (Sanitizer_config BASE_CONFIG) _ Sanitizer_metadata _ _ _ H1 H2).
Defined.

(** ** Sanitizing twice *)

Lemma closes_and_escapes_idempotent c s t :
  closes_and_escapes c s = inl t -> closes_and_escapes c t = inl t.
Proof.
  unfold closes_and_escapes.
  destruct (s =? "<b>&") eqn:E1; [intros H; inversion H; subst; reflexivity|].
  destruct (s =? "<b>&a") eqn:E2; intros H; inversion H; subst.
  - reflexivity.
  - rewrite E1, E2. reflexivity.
Qed.

(** C5, as the claim states it, fails.  The filter returns the
    serialization of the markup it has parsed, which can be longer than what
    it was given: under a profile that allows [b], with [maxStringLength] 5,
    the four characters [<b>&] come back as [<b>&amp;</b>]; the second pass
    cuts these twelve characters to [<b>&a], which comes back as
    [<b>&amp;a</b>]. *)
Lemma idempotence_fails_for_lengthening_filter :
  (forall c s t, closes_and_escapes c s = inl t -> closes_and_escapes c t = inl t) /\
  sanitizeRequestData closes_and_escapes no_length
    (VObject [("note", VString "<b>&")]) (bold_config 5) =
  Returned (mkResult (VObject [("note", VString "<b>&amp;</b>")]) true [] None) /\
  sanitizeRequestData closes_and_escapes no_length
    (VObject [("note", VString "<b>&amp;</b>")]) (bold_config 5) =
  Returned
    (mkResult (VObject [("note", VString "<b>&amp;a</b>")]) true
       ["String in field 'note' truncated from 12 to 5 characters"] None) /\
  VObject [("note", VString "<b>&amp;a</b>")]
  <> VObject [("note", VString "<b>&amp;</b>")].
Proof.
  split; [exact closes_and_escapes_idempotent |].
  split; [vm_compute; reflexivity |].
  split; [vm_compute; reflexivity | discriminate].
Qed.

(** Steps shared by the proofs about two traversals: a run that returns
    its input as it is, the first call of a run that returns, and the goal
    after such a call. *)
Ltac returned_as_is Hrun Hs :=
  inversion Hrun; subst; cbn [sanitizeValue]; rewrite ?Hs; eexists; reflexivity.

Ltac run_step Hrun x E :=
  let e := fresh "e" in
  let m := fresh "m" in
  unfold bind in Hrun;
  match type of Hrun with
  | (match ?c with _ => _ end) = _ =>
      destruct c as [[x|e] m] eqn:E; [|discriminate]
  end.

Ltac returned Hrun Hs :=
  inversion Hrun; subst; cbn [sanitizeValue]; rewrite ?Hs; unfold bind.

Section Idempotence.

Variable purify : PurifyConfig -> string -> string + exn.
Variable config : Required.config.

Lemma truncated_length input :
  (0 <= Required.maxStringLength config)%Z ->
  (Z.of_nat (String.length (truncated config input))
   <= Required.maxStringLength config)%Z.
Proof.
  intros Hmax. unfold truncated.
  destruct (Z.of_nat (String.length input) >? Required.maxStringLength config)%Z eqn:E.
  - unfold substring0. rewrite substring0_length. lia.
  - rewrite Z.gtb_ltb, Z.ltb_ge in E. exact E.
Qed.

Lemma truncated_within input :
  (Z.of_nat (String.length input) <= Required.maxStringLength config)%Z ->
  truncated config input = input.
Proof.
  intros Hlen. unfold truncated.
  replace (Z.of_nat (String.length input) >? Required.maxStringLength config)%Z
    with false by (symmetry; rewrite Z.gtb_ltb; apply Z.ltb_ge; lia).
  reflexivity.
Qed.

Lemma sanitizeString_fixed s fieldName m t m' :
  leaf_settled purify config (fieldName, s) ->
  sanitizeString purify config s fieldName m = (Returned t, m') ->
  forall m2, exists m2',
    sanitizeString purify config t fieldName m2 = (Returned t, m2').
Proof.
  intros Hleaf. rewrite sanitizeString_eq.
  destruct (purify (purifyConfig config) (truncated config s)) as [f|e] eqn:E;
    intros H; inversion H; subst.
  destruct (Hleaf t E) as [Hlen Hfix].
  intros m2. rewrite sanitizeString_eq, (truncated_within t Hlen), Hfix.
  eexists; reflexivity.
Qed.

Lemma map_items_fixed fieldName items :
  Forall (settles purify config) items ->
  forall index m items' m',
    Forall (leaf_settled purify config)
      (leaves_of_items string_leaves fieldName items index) ->
    map_items (sanitizeValue purify config) fieldName items index m =
      (Returned items', m') ->
    forall m2, exists m2',
      map_items (sanitizeValue purify config) fieldName items' index m2 =
        (Returned items', m2').
Proof.
  induction 1 as [|item rest Hitem _ IH]; intros index m items' m' Hall Hrun m2;
    cbn [map_items leaves_of_items] in Hrun, Hall.
  - inversion Hrun; subst. eexists; reflexivity.
  - apply Forall_app in Hall. destruct Hall as [Hall1 Hall2].
    unfold bind in Hrun.
    destruct (sanitizeValue purify config item _ m) as [[item'|e] m1] eqn:E1;
      [|discriminate].
    destruct (map_items _ fieldName rest (S index) m1) as [[rest'|e] m3] eqn:E2;
      [|discriminate].
    inversion Hrun; subst. cbn [map_items]. unfold bind.
    destruct (Hitem _ _ _ _ Hall1 E1 m2) as [m4 ->].
    destruct (IH _ _ _ _ Hall2 E2 m4) as [m5 ->].
    eexists; reflexivity.
Qed.

Lemma settled_assign fieldName obj key v :
  settled_object purify config fieldName obj ->
  fixed purify config v (Some (fullFieldName fieldName key)) ->
  settled_object purify config fieldName (assign obj key v).
Proof.
  intros (Hnd & Hproto & Hall) Hv. unfold assign.
  destruct (key =? "__proto__") eqn:E; [repeat split; assumption|].
  apply String.eqb_neq in E.
  split; [|split].
  - destruct (in_dec string_dec key (keys obj)) as [Hin|Hout].
    + rewrite keys_define_present by assumption. exact Hnd.
    + rewrite define_fresh by assumption. unfold keys. rewrite map_app.
      apply NoDup_app; [exact Hnd | constructor; [simpl; tauto | constructor] |].
      intros k Hk [<-|[]]. exact (Hout Hk).
  - destruct (in_dec string_dec key (keys obj)) as [Hin|Hout].
    + rewrite keys_define_present by assumption. exact Hproto.
    + rewrite define_fresh by assumption. unfold keys. rewrite map_app.
      intros Hin. apply in_app_or in Hin. destruct Hin as [Hin|[Hin|[]]].
      * exact (Hproto Hin).
      * simpl in Hin. congruence.
  - apply Forall_define; assumption.
Qed.

Lemma assign_entries_settled fieldName entries :
  Forall (fun kv => settles purify config (snd kv)) entries ->
  forall obj m obj' m',
    Forall (leaf_settled purify config)
      (leaves_of_entries string_leaves fieldName entries) ->
    settled_object purify config fieldName obj ->
    assign_entries (sanitizeValue purify config) fieldName entries obj m =
      (Returned obj', m') ->
    settled_object purify config fieldName obj'.
Proof.
  induction 1 as [|[key val] rest Hval _ IH]; intros obj m obj' m' Hall Hobj Hrun;
    cbn [assign_entries leaves_of_entries] in Hrun, Hall.
  - inversion Hrun; subst. exact Hobj.
  - apply Forall_app in Hall. destruct Hall as [Hall1 Hall2].
    unfold bind in Hrun.
    destruct (sanitizeValue purify config val _ m) as [[val'|e] m1] eqn:E1;
      [|discriminate].
    apply (IH _ _ _ _ Hall2
             (settled_assign _ _ _ _ Hobj (Hval _ _ _ _ Hall1 E1)) Hrun).
Qed.

Lemma assign_entries_replay fieldName rest :
  forall obj,
    NoDup (keys (obj ++ rest)) ->
    ~ In "__proto__" (keys rest) ->
    Forall (fun kv => fixed purify config (snd kv)
                        (Some (fullFieldName fieldName (fst kv)))) rest ->
    forall m, exists m',
      assign_entries (sanitizeValue purify config) fieldName rest obj m =
        (Returned (obj ++ rest)%list, m').
Proof.
  induction rest as [|[key val] rest IH]; intros obj Hnd Hproto Hall m;
    cbn [assign_entries].
  - rewrite app_nil_r. eexists; reflexivity.
  - inversion Hall as [|? ? Hval Hrest]; subst. cbn [fst snd] in Hval.
    unfold bind. destruct (Hval m) as [m1 ->].
    assert (Hfresh : ~ In key (keys obj)).
    { unfold keys in Hnd. rewrite map_app in Hnd. simpl in Hnd.
      apply NoDup_remove_2 in Hnd. intros Hin. apply Hnd.
      apply in_or_app. left. exact Hin. }
    assert (Hassign : assign obj key val = (obj ++ [(key, val)])%list).
    { unfold assign. destruct (key =? "__proto__") eqn:E.
      - apply String.eqb_eq in E. simpl in Hproto. tauto.
      - apply define_fresh. exact Hfresh. }
    rewrite Hassign.
    replace (obj ++ (key, val) :: rest)%list
      with ((obj ++ [(key, val)]) ++ rest)%list
      by (rewrite <- app_assoc; reflexivity).
    apply IH.
    + rewrite <- app_assoc. exact Hnd.
    + simpl in Hproto. tauto.
    + exact Hrest.
Qed.

Lemma sanitizeValue_settles v : settles purify config v.
Proof.
  induction v as [| |b|n|s|items IH|entries IH|t|source flags]
    using value_nested_ind; intros fieldName m v' m' Hall Hrun m2;
    cbn [sanitizeValue string_leaves] in Hrun, Hall;
    try (destruct (is_sensitive fieldName) eqn:Hs);
    try returned_as_is Hrun Hs.
  - run_step Hrun t E. returned Hrun Hs.
    inversion Hall as [|? ? Hleaf _]; subst.
    destruct (sanitizeString_fixed _ _ _ _ _ Hleaf E m2) as [m3 ->].
    eexists; reflexivity.
  - run_step Hrun items' E. returned Hrun Hs.
    destruct (map_items_fixed _ _ IH _ _ _ _ Hall E m2) as [m3 ->].
    eexists; reflexivity.
  - run_step Hrun obj E. returned Hrun Hs.
    assert (Hempty : settled_object purify config fieldName [])
      by (repeat split; [constructor | simpl; tauto | constructor]).
    destruct (assign_entries_settled _ _ IH _ _ _ _ Hall Hempty E)
      as (Hnd & Hproto & Hobj).
    destruct (assign_entries_replay fieldName obj [] Hnd Hproto Hobj m2)
      as [m3 ->].
    eexists; reflexivity.
Qed.

End Idempotence.

(** C5, amended.  When, for every string the traversal of the input
    reaches, what the filter returns for it is within [maxStringLength] and
    is returned by the filter unchanged, then sanitizing the data of a
    returned result returns again, and returns the same data. *)
Theorem sanitize_idempotent purify JSON_length config input m result m1 :
  Forall (leaf_settled purify config) (string_leaves input None) ->
  sanitize purify JSON_length config input m = (Returned result, m1) ->
  forall m2, exists result' m2',
    sanitize purify JSON_length config (data result) m2 = (Returned result', m2') /\
    data result' = data result.
Proof.
  intros Hleaves Hrun m2.
  assert (Hin : input <> VUndefined) by (intros ->; discriminate Hrun).
  rewrite (sanitize_eq _ _ _ _ _ Hin) in Hrun. cbv zeta in Hrun.
  destruct (sanitizeValue purify config input None _) as [[v'|e] m0] eqn:E;
    [|destruct e; discriminate Hrun].
  inversion Hrun; subst. cbn [data].
  pose proof (sanitizeValue_defined _ _ _ _ _ _ _ E Hin) as Hv'.
  rewrite (sanitize_eq _ _ _ _ _ Hv'). cbv zeta.
  destruct (sanitizeValue_settles purify config input _ _ _ _ Hleaves E
              (Metadata.mk false [] (Some []) [] (Some (JSON_length v')) None))
    as [m3 ->].
  eexists. eexists. split; reflexivity.
Qed.

Lemma sanitize_idempotent_witness :
  let config := Sanitizer_config (bold_config 12) in
  let input :=
    VObject [("note", VString "<b>&"); ("bio", VString "hello world, hello");
             ("password", VString "<b>&")] in
  let first :=
    mkResult
      (VObject [("note", VString "<b>&amp;</b>"); ("bio", VString "hello world,");
                ("password", VString "<b>&")])
      true ["String in field 'bio' truncated from 18 to 12 characters"] None in
  Forall (leaf_settled closes_and_escapes config) (string_leaves input None) /\
  sanitize closes_and_escapes no_length config input Sanitizer_metadata =
    (Returned first,
     Metadata.mk true ["String in field 'bio' truncated from 18 to 12 characters"]
       (Some []) ["note"] (Some 0) (Some 0)) /\
  exists result' m2',
    sanitize closes_and_escapes no_length config (data first) Sanitizer_metadata =
      (Returned result', m2') /\
    data result' = data first.
Proof.
  cbv zeta.
  assert (H1 : Forall (leaf_settled closes_and_escapes
                         (Sanitizer_config (bold_config 12)))
                 (string_leaves
                    (VObject [("note", VString "<b>&");
                              ("bio", VString "hello world, hello");
                              ("password", VString "<b>&")]) None)).
  { change (Forall (leaf_settled closes_and_escapes
                       (Sanitizer_config (bold_config 12)))
              [(Some "note", "<b>&"); (Some "bio", "hello world, hello")]).
    apply Forall_cons; [|apply Forall_cons; [|apply Forall_nil]];
      intros t Ht; vm_compute in Ht; inversion Ht; subst;
      (split; [vm_compute; discriminate | reflexivity]). }
  assert (H2 : sanitize closes_and_escapes no_length
                 (Sanitizer_config (bold_config 12))
                 (VObject [("note", VString "<b>&");
                           ("bio", VString "hello world, hello");
                           ("password", VString "<b>&")])
                 Sanitizer_metadata =
               (Returned
                  (mkResult
                     (VObject [("note", VString "<b>&amp;</b>");
                               ("bio", VString "hello world,");
                               ("password", VString "<b>&")])
                     true
                     ["String in field 'bio' truncated from 18 to 12 characters"]
                     None),
                Metadata.mk true
                  ["String in field 'bio' truncated from 18 to 12 characters"]
                  (Some []) ["note"] (Some 0) (Some 0)))
    by (vm_compute; reflexivity).
  split; [exact H1 | split; [exact H2 |]].
  exact (sanitize_idempotent closes_and_escapes no_length _ _ _ _ _ H1 H2
           Sanitizer_metadata).
Defined.

(** ** A scheme for properties of the traversal *)

(** A property of runs that holds of [ret], is kept by [bind] along the
    concatenation of the strings reached, and holds of [sanitizeString] at
    one string, holds of [sanitizeValue] at the strings it reaches. *)
Section Traversal_scheme.

Variable purify : PurifyConfig -> string -> string + exn.
Variable config : Required.config.
Variable S : forall A : Type,
    list (option string * string) -> SanitizationMetadata ->
    outcome A * SanitizationMetadata -> Prop.

Hypothesis S_ret : forall (A : Type) (a : A) m, S A [] m (ret a m).
Hypothesis S_bind :
  forall (A B : Type) (c : M A) (k : A -> M B) l1 l2 m,
    S A l1 m (c m) ->
    (forall a m1, S B l2 m1 (k a m1)) ->
    S B (l1 ++ l2)%list m (bind c k m).
Hypothesis S_string :
  forall s fieldName m,
    S string [(fieldName, s)] m (sanitizeString purify config s fieldName m).

Lemma scheme_map_items fieldName items :
  Forall (fun v => forall fn m,
              S value (string_leaves v fn) m (sanitizeValue purify config v fn m))
    items ->
  forall index m,
    S (list value) (leaves_of_items string_leaves fieldName items index) m
      (map_items (sanitizeValue purify config) fieldName items index m).
Proof.
  induction 1 as [|item rest Hitem _ IH]; intros index m;
    cbn [map_items leaves_of_items].
  - apply S_ret.
  - apply S_bind; [apply Hitem|]. intros item' m1.
    rewrite <- (app_nil_r (leaves_of_items _ _ rest _)).
    apply S_bind; [apply IH|]. intros; apply S_ret.
Qed.

Lemma scheme_assign_entries fieldName entries :
  Forall (fun kv => forall fn m,
              S value (string_leaves (snd kv) fn) m
                (sanitizeValue purify config (snd kv) fn m)) entries ->
  forall sanitizedObj m,
    S (list (string * value)) (leaves_of_entries string_leaves fieldName entries) m
      (assign_entries (sanitizeValue purify config) fieldName entries sanitizedObj m).
Proof.
  induction 1 as [|[key val] rest Hval _ IH]; intros sanitizedObj m;
    cbn [assign_entries leaves_of_entries].
  - apply S_ret.
  - apply S_bind; [apply Hval|]. intros val' m1. apply IH.
Qed.

Lemma scheme_sanitizeValue v :
  forall fieldName m,
    S value (string_leaves v fieldName) m
      (sanitizeValue purify config v fieldName m).
Proof.
  induction v as [| |b|n|s|items IH|entries IH|t|source flags]
    using value_nested_ind; intros fieldName m; cbn [sanitizeValue string_leaves];
    try apply S_ret;
    destruct (is_sensitive fieldName); try apply S_ret.
  - rewrite <- (app_nil_r [(fieldName, s)]).
    apply S_bind; [apply S_string|]. intros; apply S_ret.
  - rewrite <- (app_nil_r (leaves_of_items _ _ _ _)).
    apply S_bind; [apply scheme_map_items; exact IH|]. intros; apply S_ret.
  - rewrite <- (app_nil_r (leaves_of_entries _ _ _)).
    apply S_bind; [apply scheme_assign_entries; exact IH|]. intros; apply S_ret.
Qed.

End Traversal_scheme.

(** ** Warnings, modified fields and the flag *)

Section Metadata_facts.

Variable purify : PurifyConfig -> string -> string + exn.
Variable config : Required.config.

Lemma expected_warnings_app l1 l2 :
  expected_warnings config (l1 ++ l2) =
  (expected_warnings config l1 ++ expected_warnings config l2)%list.
Proof. unfold expected_warnings. rewrite filter_app, map_app. reflexivity. Qed.

Lemma expected_modified_app l1 l2 :
  expected_modified purify config (l1 ++ l2) =
  (expected_modified purify config l1 ++ expected_modified purify config l2)%list.
Proof. unfold expected_modified. apply flat_map_app. Qed.

Lemma meta_spec_ret (A : Type) (a : A) m : meta_spec purify config [] m (ret a m).
Proof.
  simpl. rewrite !app_nil_r, orb_false_r. auto.
Qed.

Lemma meta_spec_bind (A B : Type) (c : M A) (k : A -> M B) l1 l2 m :
  meta_spec purify config l1 m (c m) ->
  (forall a m1, meta_spec purify config l2 m1 (k a m1)) ->
  meta_spec purify config (l1 ++ l2)%list m (bind c k m).
Proof.
  unfold bind. intros Hc Hk.
  destruct (c m) as [[a|e] m1]; simpl in Hc; [|exact I].
  destruct Hc as (Hw & Hf & Hs). specialize (Hk a m1).
  destruct (k a m1) as [[b|e] m2]; simpl in *; [|exact I].
  destruct Hk as (Hw2 & Hf2 & Hs2).
  rewrite Hw2, Hf2, Hs2, Hw, Hf, Hs.
  rewrite expected_warnings_app, expected_modified_app, existsb_app.
  rewrite !app_assoc, orb_assoc. auto.
Qed.

Lemma meta_spec_string s fieldName m :
  meta_spec purify config [(fieldName, s)] m
    (sanitizeString purify config s fieldName m).
Proof.
  rewrite sanitizeString_eq.
  destruct (purify (purifyConfig config) (truncated config s)) as [filtered|error] eqn:E;
    [|exact I].
  unfold meta_spec, expected_warnings, expected_modified, touched, over_long,
    filter_changes, after_comparison, after_length_check.
  cbn [filter map flat_map existsb fst snd]. rewrite E.
  destruct (Z.of_nat (String.length s) >? Required.maxStringLength config)%Z;
    destruct (filtered =? truncated config s);
    destruct fieldName as [f|]; cbn [negb andb orb];
    try destruct (truthy (Some f));
    cbn; rewrite ?app_nil_r, ?orb_true_r, ?orb_false_r; auto.
Qed.

Lemma sanitizeValue_meta v fieldName m :
  meta_spec purify config (string_leaves v fieldName) m
    (sanitizeValue purify config v fieldName m).
Proof.
  apply (scheme_sanitizeValue purify config (@meta_spec purify config)).
  - intros; apply meta_spec_ret.
  - intros; apply meta_spec_bind; assumption.
  - intros; apply meta_spec_string.
Qed.

End Metadata_facts.

(** ** The public method, from outside *)

(** The metadata [sanitize] starts the traversal with. *)
Lemma sanitize_returned purify JSON_length config input m result m' :
  sanitize purify JSON_length config input m = (Returned result, m') ->
  input <> VUndefined /\
  exists m1,
    sanitizeValue purify config input None
      (Metadata.mk false [] (Some []) [] (Some (JSON_length input)) None) =
      (Returned (data result), m1) /\
    sanitized result = Metadata.sanitized m1 /\
    warnings result = Metadata.warnings m1 /\
    errors result = None /\
    m' = set_finalSize (JSON_length (data result)) m1.
Proof.
  intros H.
  assert (Hin : input <> VUndefined) by (intros ->; discriminate H).
  split; [exact Hin|].
  rewrite (sanitize_eq _ _ _ _ _ Hin) in H. cbv zeta in H.
  pose proof (sanitizeValue_spec purify config input None
                (Metadata.mk false [] (Some []) [] (Some (JSON_length input)) None))
    as Hspec.
  destruct (sanitizeValue purify config input None _) as [[v' | e] m1].
  - simpl in Hspec. destruct Hspec as [He _]. cbn [Metadata.errors] in He.
    inversion H; subst. exists m1. cbn [data sanitized warnings errors].
    rewrite He. repeat split; reflexivity.
  - destruct e; discriminate H.
Qed.

(** X1.  The warnings of a returned result are the truncation warnings of
    the reached strings longer than [maxStringLength], one each, in the order
    of the traversal. *)
Theorem warnings_are_the_truncations purify JSON_length config input m result m' :
  sanitize purify JSON_length config input m = (Returned result, m') ->
  warnings result = expected_warnings config (string_leaves input None).
Proof.
  intros H. destruct (sanitize_returned _ _ _ _ _ _ _ H)
    as (_ & m1 & Hrun & _ & Hw & _).
  pose proof (sanitizeValue_meta purify config input None
                (Metadata.mk false [] (Some []) [] (Some (JSON_length input)) None))
    as Hmeta.
  rewrite Hrun in Hmeta. simpl in Hmeta. destruct Hmeta as (Hw1 & _ & _).
  rewrite Hw, Hw1. reflexivity.
Qed.

(** X2.  After a call that returns, [fieldsModified] holds the field names
    of the reached strings the filter has changed, in the order of the
    traversal; a string reached under no name or the empty name is left
    out. *)
Theorem fieldsModified_are_the_changes purify JSON_length config input m result m' :
  sanitize purify JSON_length config input m = (Returned result, m') ->
  Metadata.fieldsModified m' =
  expected_modified purify config (string_leaves input None).
Proof.
  intros H. destruct (sanitize_returned _ _ _ _ _ _ _ H)
    as (_ & m1 & Hrun & _ & _ & _ & ->).
  pose proof (sanitizeValue_meta purify config input None
                (Metadata.mk false [] (Some []) [] (Some (JSON_length input)) None))
    as Hmeta.
  rewrite Hrun in Hmeta. simpl in Hmeta. destruct Hmeta as (_ & Hf & _).
  exact Hf.
Qed.

(** X3.  The flag [sanitized] of a returned result is set exactly when some
    reached string was cut or came back changed from the filter. *)
Theorem sanitized_flag_exact purify JSON_length config input m result m' :
  sanitize purify JSON_length config input m = (Returned result, m') ->
  sanitized result = existsb (touched purify config) (string_leaves input None).
Proof.
  intros H. destruct (sanitize_returned _ _ _ _ _ _ _ H)
    as (_ & m1 & Hrun & Hs & _).
  pose proof (sanitizeValue_meta purify config input None
                (Metadata.mk false [] (Some []) [] (Some (JSON_length input)) None))
    as Hmeta.
  rewrite Hrun in Hmeta. simpl in Hmeta. destruct Hmeta as (_ & _ & Hs1).
  rewrite Hs, Hs1. reflexivity.
Qed.

(** X4.  [sanitize] returns exactly when the input is not [undefined] and
    the filter accepts every string the traversal reaches. *)
Theorem sanitize_returns_iff purify JSON_length config input m :
  (exists result m', sanitize purify JSON_length config input m = (Returned result, m'))
  <->
  input <> VUndefined /\
  forallb (leaf_ok purify config) (string_leaves input None) = true.
Proof.
  split.
  - intros (result & m' & H).
    destruct (sanitize_returned _ _ _ _ _ _ _ H) as (Hin & m1 & Hrun & _).
    split; [exact Hin|].
    pose proof (sanitizeValue_spec purify config input None
                  (Metadata.mk false [] (Some []) [] (Some (JSON_length input)) None))
      as Hspec.
    rewrite Hrun in Hspec. simpl in Hspec. tauto.
  - intros (Hin & Hall). rewrite (sanitize_eq _ _ _ _ _ Hin). cbv zeta.
    pose proof (sanitizeValue_spec purify config input None
                  (Metadata.mk false [] (Some []) [] (Some (JSON_length input)) None))
      as Hspec.
    destruct (sanitizeValue purify config input None _) as [[v' | e] m1].
    + eexists. eexists. reflexivity.
    + simpl in Hspec. destruct Hspec as (path & s & error & Hleaf & Hp & _).
      rewrite forallb_forall in Hall. specialize (Hall _ Hleaf).
      unfold leaf_ok in Hall. cbn [snd] in Hall. rewrite Hp in Hall. discriminate.
Qed.

(** X5.  What [sanitize] throws: for the input [undefined] the [TypeError]
    of reading [length], with the metadata left as it was; for every other
    input a [SanitizationError] for a reached string the filter refused,
    whose message is the one entry of the error list.  The wrapper
    [Sanitization failed: ...] is never thrown. *)
Theorem sanitize_thrown purify JSON_length config input m e m' :
  sanitize purify JSON_length config input m = (Thrown e, m') ->
  (input = VUndefined /\ e = TypeError undefined_length_message /\ m' = m) \/
  (exists path s error,
      In (path, s) (string_leaves input None) /\
      purify (purifyConfig config) (truncated config s) = inr error /\
      e = SanitizationError (failure_message path error) path /\
      Metadata.errors m' = Some [failure_message path error]).
Proof.
  intros H.
  destruct (match input with VUndefined => true | _ => false end) eqn:Hu.
  - left. destruct input; try discriminate Hu.
    inversion H; subst. auto.
  - right. assert (Hin : input <> VUndefined) by (intros ->; discriminate).
    rewrite (sanitize_eq _ _ _ _ _ Hin) in H. cbv zeta in H.
    pose proof (sanitizeValue_spec purify config input None
                  (Metadata.mk false [] (Some []) [] (Some (JSON_length input)) None))
      as Hspec.
    destruct (sanitizeValue purify config input None _) as [[v' | e0] m1];
      [discriminate H|].
    simpl in Hspec. destruct Hspec as (path & s & error & Hleaf & Hp & -> & Herr).
    inversion H; subst. exists path, s, error. auto.
Qed.

Lemma sample_run :
  sanitize keep_all no_length (Sanitizer_config (max_length_config 5))
    sample_body Sanitizer_metadata =
  (Returned sample_result, sample_metadata).
Proof. vm_compute. reflexivity. Qed.

Lemma warnings_are_the_truncations_witness :
  sanitize keep_all no_length (Sanitizer_config (max_length_config 5))
    sample_body Sanitizer_metadata = (Returned sample_result, sample_metadata) /\
  warnings sample_result =
  expected_warnings (Sanitizer_config (max_length_config 5))
    (string_leaves sample_body None).
Proof.
  split; [exact sample_run |].
  exact (warnings_are_the_truncations _ _ _ _ _ _ _ sample_run).
Defined.

Lemma fieldsModified_are_the_changes_witness :
  let input := VObject [("bio", VString "<b>x</b>"); ("", VString "<i>y</i>")] in
  let m' := Metadata.mk true [] (Some []) ["bio"] (Some 0) (Some 0) in
  sanitize strip_all no_length (Sanitizer_config BASE_CONFIG) input
    Sanitizer_metadata =
    (Returned (mkResult (VObject [("bio", VString ""); ("", VString "")]) true [] None),
     m') /\
  Metadata.fieldsModified m' =
  expected_modified strip_all (Sanitizer_config BASE_CONFIG)
    (string_leaves input None).
Proof.
  cbv zeta.
  assert (H : sanitize strip_all no_length (Sanitizer_config BASE_CONFIG)
                (VObject [("bio", VString "<b>x</b>"); ("", VString "<i>y</i>")])
                Sanitizer_metadata =
              (Returned
                 (mkResult (VObject [("bio", VString ""); ("", VString "")])
                    true [] None),
               Metadata.mk true [] (Some []) ["bio"] (Some 0) (Some 0)))
    by (vm_compute; reflexivity).
  split; [exact H |].
  exact (fieldsModified_are_the_changes _ _ _ _ _ _ _ H).
Defined.

Lemma sanitized_flag_exact_witness :
  sanitize keep_all no_length (Sanitizer_config (max_length_config 5))
    sample_body Sanitizer_metadata = (Returned sample_result, sample_metadata) /\
  sanitized sample_result =
  existsb (touched keep_all (Sanitizer_config (max_length_config 5)))
    (string_leaves sample_body None).
Proof.
  split; [exact sample_run |].
  exact (sanitized_flag_exact _ _ _ _ _ _ _ sample_run).
Defined.

Lemma sanitize_returns_iff_witness :
  sample_body <> VUndefined /\
  forallb (leaf_ok keep_all (Sanitizer_config (max_length_config 5)))
    (string_leaves sample_body None) = true /\
  exists result m',
    sanitize keep_all no_length (Sanitizer_config (max_length_config 5))
      sample_body Sanitizer_metadata = (Returned result, m').
Proof.
  assert (H1 : sample_body <> VUndefined) by discriminate.
  assert (H2 : forallb (leaf_ok keep_all (Sanitizer_config (max_length_config 5)))
                 (string_leaves sample_body None) = true) by reflexivity.
  split; [exact H1 | split; [exact H2 |]].
  exact (proj2 (sanitize_returns_iff keep_all no_length _ sample_body
                  Sanitizer_metadata) (conj H1 H2)).
Defined.

Lemma sanitize_thrown_witness :
  let config := Sanitizer_config BASE_CONFIG in
  let input := VObject [("a", VString "<b>x</b>")] in
  let e := SanitizationError
             "Failed to sanitize string in field 'a': dompurify-failure" (Some "a") in
  let m' := Metadata.mk false []
              (Some ["Failed to sanitize string in field 'a': dompurify-failure"])
              [] (Some 0) None in
  sanitize dompurify_failure no_length config input Sanitizer_metadata =
    (Thrown e, m') /\
  ((input = VUndefined /\ e = TypeError undefined_length_message /\
    m' = Sanitizer_metadata) \/
   (exists path s error,
       In (path, s) (string_leaves input None) /\
       dompurify_failure (purifyConfig config) (truncated config s) = inr error /\
       e = SanitizationError (failure_message path error) path /\
       Metadata.errors m' = Some [failure_message path error])).
Proof.
  cbv zeta.
  assert (H : sanitize dompurify_failure no_length (Sanitizer_config BASE_CONFIG)
                (VObject [("a", VString "<b>x</b>")]) Sanitizer_metadata =
              (Thrown
                 (SanitizationError
                    "Failed to sanitize string in field 'a': dompurify-failure"
                    (Some "a")),
               Metadata.mk false []
                 (Some ["Failed to sanitize string in field 'a': dompurify-failure"])
                 [] (Some 0) None))
    by (vm_compute; reflexivity).
  split; [exact H |].
  exact (sanitize_thrown _ _ _ _ _ _ _ H).
Defined.

(** ** Input the engine leaves alone *)

Section Untouched.

Variable purify : PurifyConfig -> string -> string + exn.
Variable config : Required.config.

Lemma sanitizeString_untouched s fieldName m :
  untouched purify config (fieldName, s) ->
  sanitizeString purify config s fieldName m = (Returned s, m).
Proof.
  intros [Hlen Hp]. cbn [snd] in Hlen, Hp.
  rewrite sanitizeString_eq. unfold truncated, after_length_check.
  replace (Z.of_nat (String.length s) >? Required.maxStringLength config)%Z
    with false by (symmetry; rewrite Z.gtb_ltb; apply Z.ltb_ge; lia).
  rewrite Hp. unfold after_comparison. rewrite String.eqb_refl. reflexivity.
Qed.

Lemma map_items_untouched fieldName items :
  Forall (fun v => plain v -> forall fn m,
              Forall (untouched purify config) (string_leaves v fn) ->
              sanitizeValue purify config v fn m = (Returned v, m)) items ->
  Forall plain items ->
  forall index m,
    Forall (untouched purify config)
      (leaves_of_items string_leaves fieldName items index) ->
    map_items (sanitizeValue purify config) fieldName items index m =
      (Returned items, m).
Proof.
  induction 1 as [|item rest Hitem _ IH]; intros Hplain index m Hall;
    cbn [map_items leaves_of_items] in *; [reflexivity|].
  inversion Hplain as [|? ? Hp Hps]; subst.
  apply Forall_app in Hall. destruct Hall as [H1 H2].
  unfold bind. rewrite (Hitem Hp _ _ H1), (IH Hps _ _ H2). reflexivity.
Qed.

Lemma assign_entries_untouched fieldName entries :
  Forall (fun kv => plain (snd kv) -> forall fn m,
              Forall (untouched purify config) (string_leaves (snd kv) fn) ->
              sanitizeValue purify config (snd kv) fn m = (Returned (snd kv), m))
    entries ->
  Forall (fun kv => plain (snd kv)) entries ->
  forall obj m,
    NoDup (keys (obj ++ entries)) ->
    ~ In "__proto__" (keys entries) ->
    Forall (untouched purify config)
      (leaves_of_entries string_leaves fieldName entries) ->
    assign_entries (sanitizeValue purify config) fieldName entries obj m =
      (Returned (obj ++ entries)%list, m).
Proof.
  induction 1 as [|[key val] rest Hval _ IH]; intros Hplain obj m Hnd Hproto Hall;
    cbn [assign_entries leaves_of_entries] in *.
  - rewrite app_nil_r. reflexivity.
  - inversion Hplain as [|? ? Hp Hps]; subst. cbn [snd] in Hp, Hval.
    apply Forall_app in Hall. destruct Hall as [H1 H2].
    unfold bind. rewrite (Hval Hp _ _ H1).
    assert (Hfresh : ~ In key (keys obj)).
    { unfold keys in Hnd. rewrite map_app in Hnd. simpl in Hnd.
      apply NoDup_remove_2 in Hnd. intros Hin. apply Hnd.
      apply in_or_app. left. exact Hin. }
    assert (Hassign : assign obj key val = (obj ++ [(key, val)])%list).
    { unfold assign. destruct (key =? "__proto__") eqn:E.
      - apply String.eqb_eq in E. simpl in Hproto. tauto.
      - apply define_fresh. exact Hfresh. }
    rewrite Hassign.
    replace (obj ++ (key, val) :: rest)%list
      with ((obj ++ [(key, val)]) ++ rest)%list
      by (rewrite <- app_assoc; reflexivity).
    apply IH; [exact Hps | | simpl in Hproto; tauto | exact H2].
    rewrite <- app_assoc. exact Hnd.
Qed.

Lemma sanitizeValue_untouched v :
  plain v ->
  forall fieldName m,
    Forall (untouched purify config) (string_leaves v fieldName) ->
    sanitizeValue purify config v fieldName m = (Returned v, m).
Proof.
  induction v as [| |b|n|s|items IH|entries IH|t|source flags]
    using value_nested_ind; intros Hplain fieldName m Hall;
    cbn [sanitizeValue string_leaves] in *; try reflexivity;
    try (inversion Hplain; fail);
    destruct (is_sensitive fieldName); try reflexivity; unfold bind.
  - inversion Hall as [|? ? Hleaf _]; subst.
    rewrite (sanitizeString_untouched _ _ _ Hleaf). reflexivity.
  - inversion Hplain; subst.
    rewrite (map_items_untouched _ _ IH ltac:(assumption) _ _ Hall). reflexivity.
  - inversion Hplain as [| | | | | |? Hnd Hproto Hps]; subst.
    rewrite (assign_entries_untouched _ _ IH Hps [] _ Hnd Hproto Hall).
    reflexivity.
Qed.

End Untouched.

(** X6.  Input that needs no sanitizing comes back as it is: when every
    reached string is within [maxStringLength] and is returned by the filter
    unchanged, the result holds the very input, the flag is off and there
    are no warnings.  Numbers, booleans and [null] are such input under
    every filter. *)
Theorem clean_input_is_returned purify JSON_length config input m :
  plain input ->
  input <> VUndefined ->
  Forall (untouched purify config) (string_leaves input None) ->
  sanitize purify JSON_length config input m =
  (Returned (mkResult input false [] None),
   Metadata.mk false [] (Some []) [] (Some (JSON_length input))
     (Some (JSON_length input))).
Proof.
  intros Hplain Hin Hall. rewrite (sanitize_eq _ _ _ _ _ Hin). cbv zeta.
  rewrite (sanitizeValue_untouched purify config input Hplain None _ Hall).
  reflexivity.
Qed.

Lemma clean_input_is_returned_witness :
  let input := VObject [("a", VNumber 1); ("b", VBoolean true); ("c", VNull)] in
  plain input /\
  input <> VUndefined /\
  Forall (untouched dompurify_failure (Sanitizer_config STRICT_CONFIG))
    (string_leaves input None) /\
  sanitize dompurify_failure no_length (Sanitizer_config STRICT_CONFIG) input
    Sanitizer_metadata =
  (Returned (mkResult input false [] None),
   Metadata.mk false [] (Some []) [] (Some 0) (Some 0)).
Proof.
  cbv zeta.
  assert (H1 : plain (VObject [("a", VNumber 1); ("b", VBoolean true); ("c", VNull)])).
  { constructor.
    - repeat constructor; simpl; intuition discriminate.
    - simpl; intuition discriminate.
    - repeat constructor. }
  assert (H2 : VObject [("a", VNumber 1); ("b", VBoolean true); ("c", VNull)]
               <> VUndefined) by discriminate.
  assert (H3 : Forall (untouched dompurify_failure (Sanitizer_config STRICT_CONFIG))
                 (string_leaves
                    (VObject [("a", VNumber 1); ("b", VBoolean true); ("c", VNull)])
                    None)) by constructor.
  split; [exact H1 | split; [exact H2 | split; [exact H3 |]]].
  exact (clean_input_is_returned dompurify_failure no_length
           (Sanitizer_config STRICT_CONFIG) _ Sanitizer_metadata H1 H2 H3).
Defined.

(** ** The filter is consulted on cut strings only *)

Section Filter_extensionality.

Variables purify1 purify2 : PurifyConfig -> string -> string + exn.
Variable config : Required.config.

Hypothesis agree :
  forall s,
    purify1 (purifyConfig config) (truncated config s) =
    purify2 (purifyConfig config) (truncated config s).

Lemma sanitizeString_ext s fieldName m :
  sanitizeString purify1 config s fieldName m =
  sanitizeString purify2 config s fieldName m.
Proof. rewrite !sanitizeString_eq, agree. reflexivity. Qed.

Lemma map_items_ext fieldName items :
  Forall (fun v => forall fn m,
              sanitizeValue purify1 config v fn m =
              sanitizeValue purify2 config v fn m) items ->
  forall index m,
    map_items (sanitizeValue purify1 config) fieldName items index m =
    map_items (sanitizeValue purify2 config) fieldName items index m.
Proof.
  induction 1 as [|item rest Hitem _ IH]; intros index m; cbn [map_items];
    [reflexivity|].
  unfold bind. rewrite Hitem.
  destruct (sanitizeValue purify2 config item _ m) as [[item'|e] m1]; [|reflexivity].
  rewrite IH. reflexivity.
Qed.

Lemma assign_entries_ext fieldName entries :
  Forall (fun kv => forall fn m,
              sanitizeValue purify1 config (snd kv) fn m =
              sanitizeValue purify2 config (snd kv) fn m) entries ->
  forall obj m,
    assign_entries (sanitizeValue purify1 config) fieldName entries obj m =
    assign_entries (sanitizeValue purify2 config) fieldName entries obj m.
Proof.
  induction 1 as [|[key val] rest Hval _ IH]; intros obj m; cbn [assign_entries];
    [reflexivity|].
  unfold bind. cbn [snd] in Hval. rewrite Hval.
  destruct (sanitizeValue purify2 config val _ m) as [[val'|e] m1]; [|reflexivity].
  apply IH.
Qed.

Lemma sanitizeValue_ext v fieldName m :
  sanitizeValue purify1 config v fieldName m =
  sanitizeValue purify2 config v fieldName m.
Proof.
  revert fieldName m.
  induction v as [| |b|n|s|items IH|entries IH|t|source flags]
    using value_nested_ind; intros fieldName m; cbn [sanitizeValue];
    try reflexivity; destruct (is_sensitive fieldName); try reflexivity;
    unfold bind.
  - rewrite sanitizeString_ext. reflexivity.
  - rewrite (map_items_ext _ _ IH). reflexivity.
  - rewrite (assign_entries_ext _ _ IH). reflexivity.
Qed.

End Filter_extensionality.

(** X7.  For a [maxStringLength] that is not negative the filter only ever
    sees strings of at most that many characters: two filters that agree on
    those strings give the same outcome and the same metadata on every
    input. *)
Theorem filter_sees_bounded_strings purify1 purify2 JSON_length config input m :
  (0 <= Required.maxStringLength config)%Z ->
  (forall s,
      (Z.of_nat (String.length s) <= Required.maxStringLength config)%Z ->
      purify1 (purifyConfig config) s = purify2 (purifyConfig config) s) ->
  sanitize purify1 JSON_length config input m =
  sanitize purify2 JSON_length config input m.
Proof.
  intros Hmax Hagree.
  assert (Hext : forall s,
             purify1 (purifyConfig config) (truncated config s) =
             purify2 (purifyConfig config) (truncated config s))
    by (intros s; apply Hagree, truncated_length, Hmax).
  destruct (match input with VUndefined => true | _ => false end) eqn:Hu.
  - destruct input; try discriminate Hu. reflexivity.
  - assert (Hin : input <> VUndefined) by (intros ->; discriminate).
    rewrite !(sanitize_eq _ _ _ _ _ Hin). cbv zeta.
    rewrite (sanitizeValue_ext purify1 purify2 config Hext). reflexivity.
Qed.

Lemma filter_sees_bounded_strings_witness :
  let config := Sanitizer_config (max_length_config 5) in
  (0 <= Required.maxStringLength config)%Z /\
  (forall s,
      (Z.of_nat (String.length s) <= Required.maxStringLength config)%Z ->
      keep_all (purifyConfig config) s = refuse_longer_than 5 (purifyConfig config) s) /\
  sanitize keep_all no_length config sample_body Sanitizer_metadata =
  sanitize (refuse_longer_than 5) no_length config sample_body Sanitizer_metadata.
Proof.
  cbv zeta.
  assert (H1 : (0 <= Required.maxStringLength
                      (Sanitizer_config (max_length_config 5)))%Z)
    by (vm_compute; discriminate).
  assert (H2 : forall s,
             (Z.of_nat (String.length s)
              <= Required.maxStringLength (Sanitizer_config (max_length_config 5)))%Z ->
             keep_all (purifyConfig (Sanitizer_config (max_length_config 5))) s =
             refuse_longer_than 5
               (purifyConfig (Sanitizer_config (max_length_config 5))) s).
  { intros s Hs. unfold keep_all, refuse_longer_than.
    replace (Nat.leb (String.length s) 5) with true; [reflexivity|].
    symmetry. apply Nat.leb_le.
    change (Z.of_nat (String.length s) <= 5)%Z in Hs. lia. }
  split; [exact H1 | split; [exact H2 |]].
  exact (filter_sees_bounded_strings keep_all (refuse_longer_than 5) no_length _
           sample_body Sanitizer_metadata H1 H2).
Defined.

(** ** The entries of a sanitized object *)

Section Entries.

Variable purify : PurifyConfig -> string -> string + exn.
Variable config : Required.config.

Lemma own_assign obj key v k :
  k <> "__proto__" ->
  own k (assign obj key v) = if key =? k then Some v else own k obj.
Proof.
  intros Hk. unfold assign. destruct (key =? "__proto__") eqn:E.
  - apply String.eqb_eq in E. subst key.
    replace ("__proto__" =? k) with false; [reflexivity|].
    symmetry. apply String.eqb_neq. congruence.
  - apply own_define.
Qed.

Lemma own_assign_proto obj key v :
  own "__proto__" (assign obj key v) = own "__proto__" obj.
Proof.
  unfold assign. destruct (key =? "__proto__") eqn:E; [reflexivity|].
  rewrite own_define, E. reflexivity.
Qed.

Lemma assign_entries_own fieldName entries :
  forall obj m obj' m' k,
    assign_entries (sanitizeValue purify config) fieldName entries obj m =
      (Returned obj', m') ->
    k <> "__proto__" ->
    NoDup (keys entries) ->
    match own k entries with
    | Some v =>
        exists m1 v' m2,
          sanitizeValue purify config v (Some (fullFieldName fieldName k)) m1 =
            (Returned v', m2) /\
          own k obj' = Some v'
    | None => own k obj' = own k obj
    end.
Proof.
  induction entries as [|[key val] rest IH]; intros obj m obj' m' k Hrun Hk Hnd;
    cbn [assign_entries own] in *.
  - inversion Hrun; subst. reflexivity.
  - inversion Hnd as [|? ? Hnotin Hrest]; subst.
    unfold bind in Hrun.
    destruct (sanitizeValue purify config val _ m) as [[val'|e] m1] eqn:E;
      [|discriminate].
    specialize (IH _ _ _ _ k Hrun Hk Hrest).
    destruct (key =? k) eqn:Ek.
    + apply String.eqb_eq in Ek. subst key.
      rewrite (own_absent _ rest k Hnotin) in IH.
      exists m, val', m1. split; [exact E|].
      rewrite IH, own_assign by exact Hk. rewrite String.eqb_refl. reflexivity.
    + destruct (own k rest) as [v|]; [exact IH|].
      rewrite IH, own_assign by exact Hk. rewrite Ek. reflexivity.
Qed.

Lemma assign_entries_no_proto fieldName entries :
  forall obj m obj' m',
    assign_entries (sanitizeValue purify config) fieldName entries obj m =
      (Returned obj', m') ->
    own "__proto__" obj' = own "__proto__" obj.
Proof.
  induction entries as [|[key val] rest IH]; intros obj m obj' m' Hrun;
    cbn [assign_entries] in *.
  - inversion Hrun; subst. reflexivity.
  - unfold bind in Hrun.
    destruct (sanitizeValue purify config val _ m) as [[val'|e] m1] eqn:E;
      [|discriminate].
    rewrite (IH _ _ _ _ Hrun). apply own_assign_proto.
Qed.

End Entries.

Lemma sanitized_object_entry_aux purify config entries fieldName m obj m' key v :
  sanitizeValue purify config (VObject entries) fieldName m =
    (Returned (VObject obj), m') ->
  is_sensitive fieldName = false ->
  NoDup (keys entries) ->
  key <> "__proto__" ->
  own key entries = Some v ->
  exists m1 v' m2,
    sanitizeValue purify config v (Some (fullFieldName fieldName key)) m1 =
      (Returned v', m2) /\
    own key obj = Some v'.
Proof.
  intros Hrun Hs Hnd Hk Hown. cbn [sanitizeValue] in Hrun. rewrite Hs in Hrun.
  unfold bind in Hrun.
  destruct (assign_entries _ fieldName entries [] m) as [[obj0|e] m1] eqn:E;
    [|discriminate].
  inversion Hrun; subst.
  pose proof (assign_entries_own purify config fieldName entries _ _ _ _ key E Hk Hnd)
    as H.
  rewrite Hown in H. exact H.
Qed.

(** X8.  A property of the input object other than [__proto__] is a
    property of the result, and its value is what the traversal returns for
    the value of the input under the path of that key. *)
Theorem sanitized_object_entry purify config entries fieldName m obj m' key v :
  sanitizeValue purify config (VObject entries) fieldName m =
    (Returned (VObject obj), m') ->
  is_sensitive fieldName = false ->
  NoDup (keys entries) ->
  key <> "__proto__" ->
  own key entries = Some v ->
  exists m1 v' m2,
    sanitizeValue purify config v (Some (fullFieldName fieldName key)) m1 =
      (Returned v', m2) /\
    own key obj = Some v'.
Proof.
  exact (sanitized_object_entry_aux purify config entries fieldName m obj m' key v).
Qed.

(** X9.  A top-level field whose key is in [SENSITIVE_FIELDS] comes back
    with the very value it had, whatever that value and the filter are. *)
Theorem top_level_sensitive_field_is_kept
    purify JSON_length config entries m result m' key v :
  sanitize purify JSON_length config (VObject entries) m = (Returned result, m') ->
  NoDup (keys entries) ->
  In key SENSITIVE_FIELDS ->
  own key entries = Some v ->
  exists obj, data result = VObject obj /\ own key obj = Some v.
Proof.
  intros H Hnd Hkey Hown.
  destruct (sanitize_returned _ _ _ _ _ _ _ H) as (_ & m1 & Hrun & _).
  assert (Hobj : exists obj, data result = VObject obj).
  { cbn [sanitizeValue is_sensitive] in Hrun. unfold bind in Hrun.
    destruct (assign_entries _ None entries [] _) as [[obj0|e] m2];
      [|discriminate].
    inversion Hrun. eexists; reflexivity. }
  destruct Hobj as [obj Hobj]. exists obj. split; [exact Hobj|].
  rewrite Hobj in Hrun.
  assert (Hsens : is_sensitive (Some key) = true).
  { simpl in Hkey. unfold is_sensitive.
    repeat (destruct Hkey as [<-|Hkey]; [reflexivity|]). contradiction. }
  assert (Hk : key <> "__proto__").
  { intros ->. discriminate Hsens. }
  destruct (sanitized_object_entry_aux purify config entries None _ obj m1 key v
              Hrun eq_refl Hnd Hk Hown) as (m2 & v' & m3 & Hv & Hres).
  cbn [fullFieldName] in Hv.
  rewrite (sensitive_path_is_skipped _ _ _ _ _ Hsens) in Hv.
  inversion Hv; subst. exact Hres.
Qed.

(** X10.  The object the traversal builds never has an own property
    [__proto__], whatever the input has. *)
Theorem sanitized_object_has_no_proto purify config entries fieldName m obj m' :
  sanitizeValue purify config (VObject entries) fieldName m =
    (Returned (VObject obj), m') ->
  is_sensitive fieldName = false ->
  own "__proto__" obj = None.
Proof.
  intros Hrun Hs. cbn [sanitizeValue] in Hrun. rewrite Hs in Hrun.
  unfold bind in Hrun.
  destruct (assign_entries _ fieldName entries [] m) as [[obj0|e] m1] eqn:E;
    [|discriminate].
  inversion Hrun; subst.
  exact (assign_entries_no_proto purify config fieldName entries _ _ _ _ E).
Qed.

Lemma sanitized_object_entry_witness :
  let config := Sanitizer_config (max_length_config 5) in
  let entries := [("bio", VString "hello world"); ("__proto__", VNull)] in
  sanitizeValue keep_all config (VObject entries) None Sanitizer_metadata =
    (Returned (VObject [("bio", VString "hello")]),
     Metadata.mk true ["String in field 'bio' truncated from 11 to 5 characters"]
       (Some []) [] None None) /\
  is_sensitive None = false /\
  NoDup (keys entries) /\
  "bio" <> "__proto__" /\
  own "bio" entries = Some (VString "hello world") /\
  exists m1 v' m2,
    sanitizeValue keep_all config (VString "hello world")
      (Some (fullFieldName None "bio")) m1 = (Returned v', m2) /\
    own "bio" [("bio", VString "hello")] = Some v'.
Proof.
  cbv zeta.
  assert (H1 : sanitizeValue keep_all (Sanitizer_config (max_length_config 5))
                 (VObject [("bio", VString "hello world"); ("__proto__", VNull)])
                 None Sanitizer_metadata =
               (Returned (VObject [("bio", VString "hello")]),
                Metadata.mk true
                  ["String in field 'bio' truncated from 11 to 5 characters"]
                  (Some []) [] None None)) by (vm_compute; reflexivity).
  assert (H2 : is_sensitive None = false) by reflexivity.
  assert (H3 : NoDup (keys [("bio", VString "hello world"); ("__proto__", VNull)])).
  { repeat constructor; simpl; intuition discriminate. }
  assert (H4 : "bio" <> "__proto__") by discriminate.
  assert (H5 : own "bio" [("bio", VString "hello world"); ("__proto__", VNull)] =
               Some (VString "hello world")) by reflexivity.
  split; [exact H1 | split; [exact H2 | split; [exact H3 | split; [exact H4 |
    split; [exact H5 |]]]]].
  exact (sanitized_object_entry _ _ _ _ _ _ _ _ _ H1 H2 H3 H4 H5).
Defined.

Lemma top_level_sensitive_field_is_kept_witness :
  let config := Sanitizer_config BASE_CONFIG in
  let entries := [("password", VString "<b>secret</b>"); ("other", VString "<b>ok</b>")] in
  let result :=
    mkResult (VObject [("password", VString "<b>secret</b>"); ("other", VString "")])
      true [] None in
  sanitize strip_all no_length config (VObject entries) Sanitizer_metadata =
    (Returned result, Metadata.mk true [] (Some []) ["other"] (Some 0) (Some 0)) /\
  NoDup (keys entries) /\
  In "password" SENSITIVE_FIELDS /\
  own "password" entries = Some (VString "<b>secret</b>") /\
  exists obj,
    data result = VObject obj /\ own "password" obj = Some (VString "<b>secret</b>").
Proof.
  cbv zeta.
  assert (H1 : sanitize strip_all no_length (Sanitizer_config BASE_CONFIG)
                 (VObject [("password", VString "<b>secret</b>");
                           ("other", VString "<b>ok</b>")]) Sanitizer_metadata =
               (Returned
                  (mkResult
                     (VObject [("password", VString "<b>secret</b>");
                               ("other", VString "")]) true [] None),
                Metadata.mk true [] (Some []) ["other"] (Some 0) (Some 0)))
    by (vm_compute; reflexivity).
  assert (H2 : NoDup (keys [("password", VString "<b>secret</b>");
                            ("other", VString "<b>ok</b>")])).
  { repeat constructor; simpl; intuition discriminate. }
  assert (H3 : In "password" SENSITIVE_FIELDS) by (simpl; auto).
  assert (H4 : own "password" [("password", VString "<b>secret</b>");
                               ("other", VString "<b>ok</b>")] =
               Some (VString "<b>secret</b>")) by reflexivity.
  split; [exact H1 | split; [exact H2 | split; [exact H3 | split; [exact H4 |]]]].
  exact (top_level_sensitive_field_is_kept _ _ _ _ _ _ _ _ _ H1 H2 H3 H4).
Defined.

Lemma sanitized_object_has_no_proto_witness :
  let config := Sanitizer_config (max_length_config 5) in
  let entries := [("bio", VString "hello world"); ("__proto__", VNull)] in
  let m' := Metadata.mk true ["String in field 'bio' truncated from 11 to 5 characters"]
              (Some []) [] None None in
  sanitizeValue keep_all config (VObject entries) None Sanitizer_metadata =
    (Returned (VObject [("bio", VString "hello")]), m') /\
  is_sensitive None = false /\
  own "__proto__" [("bio", VString "hello")] = None.
Proof.
  cbv zeta.
  assert (H1 : sanitizeValue keep_all (Sanitizer_config (max_length_config 5))
                 (VObject [("bio", VString "hello world"); ("__proto__", VNull)])
                 None Sanitizer_metadata =
               (Returned (VObject [("bio", VString "hello")]),
                Metadata.mk true
                  ["String in field 'bio' truncated from 11 to 5 characters"]
                  (Some []) [] None None)) by (vm_compute; reflexivity).
  assert (H2 : is_sensitive None = false) by reflexivity.
  split; [exact H1 | split; [exact H2 |]].
  exact (sanitized_object_has_no_proto _ _ _ _ _ _ _ H1 H2).
Defined.

(** ** More on the profiles *)

(** X11.  Every name [getConfig] resolves, a profile or an inherited
    property, gives the sanitizer a positive [maxStringLength] and a positive
    [maxTagDepth]. *)
Theorem resolved_profiles_have_positive_limits name config :
  getConfig name = Returned config ->
  (0 < Required.maxStringLength (Sanitizer_config config))%Z /\
  (0 < Required.maxTagDepth (Sanitizer_config config))%Z.
Proof.
  unfold getConfig, SANITIZATION_CONFIGS. cbn [own].
  repeat match goal with
         | |- context [if ?k =? name then _ else _] => destruct (k =? name)
         end;
    try destruct (includes Object_prototype_keys name);
    intros H; inversion H; subst; split; reflexivity.
Qed.

Lemma resolved_profiles_have_positive_limits_witness :
  getConfig "comment" = Returned COMMENT_CONFIG /\
  (0 < Required.maxStringLength (Sanitizer_config COMMENT_CONFIG))%Z /\
  (0 < Required.maxTagDepth (Sanitizer_config COMMENT_CONFIG))%Z.
Proof.
  assert (H : getConfig "comment" = Returned COMMENT_CONFIG) by reflexivity.
  split; [exact H |].
  exact (resolved_profiles_have_positive_limits "comment" COMMENT_CONFIG H).
Defined.

(** X12.  An override that is present but [undefined] does not fall back to
    the base for any property but [allowedAttributes]: it erases the
    property, and the sanitizer then runs under the default of the library.
    For [allowedAttributes] an [undefined] override spreads nothing, and the
    sanitizer runs under the attributes of the base. *)
Theorem undefined_override_restores_default base baseConfig overrides merged :
  baseConfig_of base = Returned baseConfig ->
  createCustomConfig base overrides = Returned merged ->
  (allowedTags overrides = Present None ->
   Required.allowedTags (Sanitizer_config merged) = []) /\
  (allowedAttributes overrides = Present None ->
   Required.allowedAttributes (Sanitizer_config merged) =
   Required.allowedAttributes (Sanitizer_config baseConfig)) /\
  (stripIgnoreTag overrides = Present None ->
   Required.stripIgnoreTag (Sanitizer_config merged) = true) /\
  (stripIgnoreTagBody overrides = Present None ->
   Required.stripIgnoreTagBody (Sanitizer_config merged) = false) /\
  (allowEmptyTags overrides = Present None ->
   Required.allowEmptyTags (Sanitizer_config merged) = false) /\
  (maxTagDepth overrides = Present None ->
   Required.maxTagDepth (Sanitizer_config merged) = 10%Z) /\
  (maxStringLength overrides = Present None ->
   Required.maxStringLength (Sanitizer_config merged) = 10000%Z).
Proof.
  unfold createCustomConfig. intros Hbase. rewrite Hbase.
  intros H; inversion H; subst.
  repeat split; intros Hu; cbn; rewrite Hu; reflexivity.
Qed.

Lemma undefined_override_restores_default_witness :
  let overrides :=
    mkConfig Absent (Present None) Absent Absent Absent Absent (Present None) in
  exists merged,
    baseConfig_of (Named "blog") = Returned BLOG_CONFIG /\
    createCustomConfig (Named "blog") overrides = Returned merged /\
    Required.maxStringLength (Sanitizer_config BLOG_CONFIG) = 25000%Z /\
    Required.maxStringLength (Sanitizer_config merged) = 10000%Z /\
    Required.allowedAttributes (Sanitizer_config merged) =
    Required.allowedAttributes (Sanitizer_config BLOG_CONFIG).
Proof.
  cbv zeta. eexists.
  assert (Hbase : baseConfig_of (Named "blog") = Returned BLOG_CONFIG) by reflexivity.
  assert (H : createCustomConfig (Named "blog")
                (mkConfig Absent (Present None) Absent Absent Absent Absent
                   (Present None)) =
              Returned
                (mkConfig (allowedTags BLOG_CONFIG)
                   (some (spread (default (allowedAttributes BLOG_CONFIG) []) []))
                   (stripIgnoreTag BLOG_CONFIG) (stripIgnoreTagBody BLOG_CONFIG)
                   (allowEmptyTags BLOG_CONFIG) (maxTagDepth BLOG_CONFIG)
                   (Present None)))
    by reflexivity.
  split; [exact Hbase | split; [exact H | split; [reflexivity |]]].
  pose proof (undefined_override_restores_default _ _ _ _ Hbase H)
    as (_ & Hattr & _ & _ & _ & _ & Hmax).
  split; [exact (Hmax eq_refl) | exact (Hattr eq_refl)].
Defined.

(** X13.  Overrides without any property change nothing the sanitizer
    sees. *)
Theorem empty_overrides_keep_effective_config base baseConfig :
  baseConfig_of base = Returned baseConfig ->
  exists merged,
    createCustomConfig base empty_config = Returned merged /\
    Sanitizer_config merged = Sanitizer_config baseConfig.
Proof.
  intros Hbase. unfold createCustomConfig. rewrite Hbase.
  eexists; split; [reflexivity|]. destruct baseConfig. reflexivity.
Qed.

Lemma empty_overrides_keep_effective_config_witness :
  baseConfig_of (Named "blog") = Returned BLOG_CONFIG /\
  exists merged,
    createCustomConfig (Named "blog") empty_config = Returned merged /\
    Sanitizer_config merged = Sanitizer_config BLOG_CONFIG.
Proof.
  assert (H : baseConfig_of (Named "blog") = Returned BLOG_CONFIG) by reflexivity.
  split; [exact H |].
  exact (empty_overrides_keep_effective_config _ _ H).
Defined.

Lemma define_same (A : Type) (entries : list (string * A)) key v :
  own key entries = Some v -> define entries key v = entries.
Proof.
  induction entries as [|[k0 v0] rest IH]; simpl; [discriminate|].
  destruct (k0 =? key) eqn:E.
  - apply String.eqb_eq in E. intros H; inversion H; subst. reflexivity.
  - intros H. rewrite (IH H). reflexivity.
Qed.

Lemma own_In (A : Type) (entries : list (string * A)) key v :
  NoDup (keys entries) -> In (key, v) entries -> own key entries = Some v.
Proof.
  induction entries as [|[k0 v0] rest IH]; simpl; intros Hnd Hin; [contradiction|].
  inversion Hnd as [|? ? Hnotin Hrest]; subst.
  destruct Hin as [Heq|Hin].
  - inversion Heq; subst. rewrite String.eqb_refl. reflexivity.
  - destruct (k0 =? key) eqn:E.
    + apply String.eqb_eq in E; subst. exfalso. apply Hnotin.
      change key with (fst (key, v)). apply in_map. exact Hin.
    + apply IH; assumption.
Qed.

Lemma spread_fixed (A : Type) (b a : list (string * A)) :
  (forall key v, In (key, v) b -> own key a = Some v) ->
  spread a b = a.
Proof.
  unfold spread. induction b as [|[k v] rest IH]; simpl; intros H; [reflexivity|].
  rewrite define_same by (apply H; left; reflexivity).
  apply IH. intros key w Hin. apply H. right. exact Hin.
Qed.

Lemma spread_twice (A : Type) (a b : list (string * A)) :
  NoDup (keys b) -> spread (spread a b) b = spread a b.
Proof.
  intros Hnd. apply spread_fixed. intros key v Hin.
  rewrite own_spread by exact Hnd. rewrite (own_In _ b key v Hnd Hin). reflexivity.
Qed.

(** X14.  Merging the same overrides into a merged profile changes nothing:
    [createCustomConfig] is idempotent in its overrides. *)
Theorem createCustomConfig_twice base overrides merged :
  NoDup (keys (default (allowedAttributes overrides) [])) ->
  createCustomConfig base overrides = Returned merged ->
  createCustomConfig (Inline merged) overrides = Returned merged.
Proof.
  intros Hnd. unfold createCustomConfig at 1.
  destruct (baseConfig_of base) as [baseConfig|e]; [|discriminate].
  intros H; inversion H; subst. unfold createCustomConfig. cbn.
  rewrite (spread_twice _ _ _ Hnd).
  destruct overrides as [t a s1 s2 s3 d l]; cbn.
  destruct t, s1, s2, s3, d, l; reflexivity.
Qed.

Lemma createCustomConfig_twice_witness :
  let overrides :=
    mkConfig (some ["p"; "a"]) (some [("a", ["href"]); ("p", ["class"])])
      Absent Absent Absent Absent (some 1000%Z) in
  NoDup (keys (default (allowedAttributes overrides) [])) /\
  exists merged,
    createCustomConfig (Named "base") overrides = Returned merged /\
    createCustomConfig (Inline merged) overrides = Returned merged.
Proof.
  cbv zeta.
  assert (H1 : NoDup (keys (default (allowedAttributes
                 (mkConfig (some ["p"; "a"])
                    (some [("a", ["href"]); ("p", ["class"])])
                    Absent Absent Absent Absent (some 1000%Z))) []))).
  { repeat constructor; simpl; intuition discriminate. }
  split; [exact H1 |].
  eexists.
  assert (H2 : createCustomConfig (Named "base")
                 (mkConfig (some ["p"; "a"])
                    (some [("a", ["href"]); ("p", ["class"])])
                    Absent Absent Absent Absent (some 1000%Z)) =
               Returned
                 (mkConfig (some ["p"; "a"])
                    (some [("a", ["href"]); ("p", ["class"])])
                    (some true) (some false) (some false) (some 10%Z)
                    (some 1000%Z))) by reflexivity.
  split; [exact H2 |].
  exact (createCustomConfig_twice _ _ _ H1 H2).
Defined.

(** ** The middleware [sanitizeRequest] *)

Lemma getConfig_thrown name e :
  getConfig name = Thrown e ->
  e = Error ("Unknown sanitization config: " ++ name).
Proof.
  unfold getConfig. destruct (own name SANITIZATION_CONFIGS); [discriminate|].
  destruct (includes Object_prototype_keys name); [discriminate|].
  intros H; inversion H; reflexivity.
Qed.

Lemma sanitizeRequestData_thrown purify JSON_length body config e :
  sanitizeRequestData purify JSON_length body config = Thrown e ->
  body <> VUndefined ->
  exists message field, e = SanitizationError message field.
Proof.
  unfold sanitizeRequestData, run_sanitize. intros H Hin.
  rewrite (sanitize_eq _ _ _ _ _ Hin) in H. cbv zeta in H.
  pose proof (sanitizeValue_spec purify (Sanitizer_config config) body None
                (Metadata.mk false [] (Some []) [] (Some (JSON_length body)) None))
    as Hspec.
  destruct (sanitizeValue purify (Sanitizer_config config) body None _)
    as [[v'|e0] m1]; [discriminate H|].
  simpl in Hspec. destruct Hspec as (path & s & error & _ & _ & -> & _).
  inversion H; subst. eexists. eexists. reflexivity.
Qed.

Lemma expected_warnings_nil config leaves :
  existsb (over_long config) leaves = false -> expected_warnings config leaves = [].
Proof.
  unfold expected_warnings. induction leaves as [|leaf rest IH]; simpl;
    [reflexivity|].
  intros H. apply orb_false_elim in H. destruct H as [H1 H2].
  rewrite H1. apply IH, H2.
Qed.

Lemma sanitizeRequestData_returned purify JSON_length body config result :
  sanitizeRequestData purify JSON_length body config = Returned result ->
  errors result = None /\
  (sanitized result = false -> warnings result = []).
Proof.
  unfold sanitizeRequestData, run_sanitize. intros H.
  destruct (sanitize purify JSON_length (Sanitizer_config config) body
              Sanitizer_metadata) as [[r|e] m'] eqn:E; [|discriminate H].
  cbn [fst] in H. inversion H; subst r.
  destruct (sanitize_returned _ _ _ _ _ _ _ E) as (_ & m1 & Hrun & Hs & Hw & He & _).
  split; [exact He|].
  pose proof (sanitizeValue_meta purify (Sanitizer_config config) body None
                (Metadata.mk false [] (Some []) [] (Some (JSON_length body)) None))
    as Hmeta.
  rewrite Hrun in Hmeta. simpl in Hmeta. destruct Hmeta as (Hw1 & _ & Hs1).
  intros Hfalse. rewrite Hw, Hw1. rewrite Hs, Hs1 in Hfalse.
  apply expected_warnings_nil.
  clear - Hfalse. induction (string_leaves body None) as [|leaf rest IH]; simpl in *;
    [reflexivity|].
  apply orb_false_elim in Hfalse. destruct Hfalse as [H1 H2].
  unfold touched in H1. apply orb_false_elim in H1. destruct H1 as [H1 _].
  rewrite H1. apply IH, H2.
Qed.

(** The middleware by cases, with what is known of a returned result put
    in: it has no [errors], and it has warnings only if it is flagged. *)
Lemma sanitizeRequest_cases purify JSON_length options req :
  sanitizeRequest purify JSON_length options req =
  if skipped options req then (None, req)
  else
    match resolved options with
    | Thrown error => (Some (next_error error), req)
    | Returned config =>
        if is_object (body req) then
          match sanitizeRequestData purify JSON_length (body req) config with
          | Thrown error => (Some error, req)
          | Returned result =>
              (None,
               mkRequest (path req) (data result)
                 (if sanitized result
                  then Some (true, warnings result, None)
                  else _sanitization req))
          end
        else (None, req)
    end.
Proof.
  unfold sanitizeRequest. fold (skipped options req). fold (resolved options).
  destruct (skipped options req); [reflexivity|].
  destruct (resolved options) as [config|error]; [|reflexivity].
  destruct (is_object (body req)) eqn:Eobj; [|reflexivity].
  destruct (sanitizeRequestData purify JSON_length (body req) config)
    as [result|error] eqn:E.
  - destruct (sanitizeRequestData_returned _ _ _ _ _ E) as [He Hw].
    rewrite He. cbn [path body].
    destruct (sanitized result) eqn:Es; cbn [orb]; [reflexivity|].
    rewrite (Hw eq_refl). reflexivity.
  - destruct (sanitizeRequestData_thrown _ _ _ _ _ E) as (msg & fld & ->).
    { intros Hu; rewrite Hu in Eobj; discriminate. }
    reflexivity.
Qed.

Lemma resolved_thrown options error :
  resolved options = Thrown error ->
  exists name,
    Options.config options = Some (Named name) /\
    error = Error ("Unknown sanitization config: " ++ name).
Proof.
  unfold resolved. destruct (Options.config options) as [[name|config]|];
    try discriminate.
  destruct (name =? ""); [discriminate|].
  intros H. exists name. split; [reflexivity|]. exact (getConfig_thrown _ _ H).
Qed.

(** Without callbacks the middleware always ends with a call of [next],
    writes nothing, and is the function [sanitizeRequest]. *)
Lemma sanitizeRequest_with_no_callbacks purify JSON_length method options req :
  sanitizeRequest_with purify JSON_length no_callbacks method options req =
  (Next (fst (sanitizeRequest purify JSON_length options req)),
   snd (sanitizeRequest purify JSON_length options req), []).
Proof.
  unfold sanitizeRequest_with, sanitizeRequest, catch_block, call_onError.
  cbn [onSanitized onError logWarnings no_callbacks andb].
  destruct (match Options.skipPaths options with
            | Some paths => existsb (string_includes (path req)) paths
            | None => false
            end); [reflexivity|].
  destruct (match Options.config options with
            | Some (Named name) => if name =? "" then getConfig "base" else getConfig name
            | Some (Inline config) => Returned config
            | None => getConfig "base"
            end) as [config|error]; [|reflexivity].
  destruct (is_object (body req)); [|reflexivity].
  destruct (sanitizeRequestData purify JSON_length (body req) config)
    as [result|error]; [|reflexivity].
  rewrite andb_false_r.
  destruct (sanitized result || negb (Nat.eqb (length (warnings result)) 0));
    cbn [fst snd]; destruct (errors result) as [[|err errs]|]; reflexivity.
Qed.

(** X15.  When the middleware reports an error, that is, when it does not
    end with the plain [next()], it has gone through its [catch] block with
    an error raised in one of three ways.  The profile name did not resolve,
    or the filter failed: the [catch] block then starts from the request as
    it came in.  Or [onSanitized] threw: the body is then already replaced
    by the sanitized data and [_sanitization] is attached.  What [next]
    receives, and what [onError] has done before, is what the [catch] block
    makes of that error and request.  The branch that reports the [errors]
    of a result never runs. *)
Theorem sanitizeRequest_reported_errors
    purify JSON_length callbacks method options req ending req' console :
  sanitizeRequest_with purify JSON_length callbacks method options req =
    (ending, req', console) ->
  ending <> Next None ->
  exists error at_request,
    (ending, req') = catch_block callbacks error at_request /\
    ((at_request = req /\
      ((exists message field, error = SanitizationError message field) \/
       (exists name,
           Options.config options = Some (Named name) /\
           error = Error ("Unknown sanitization config: " ++ name))))
     \/
     (exists config result callback,
         resolved options = Returned config /\
         sanitizeRequestData purify JSON_length (body req) config = Returned result /\
         sanitized result = true /\
         onSanitized callbacks = Some callback /\
         fst (callback (true, warnings result, None)) = Some error /\
         at_request =
           mkRequest (path req) (data result)
             (Some (snd (callback (true, warnings result, None)))))).
Proof.
  unfold sanitizeRequest_with. fold (skipped options req). fold (resolved options).
  destruct (skipped options req).
  { intros H Hne; inversion H; subst. contradiction Hne; reflexivity. }
  destruct (resolved options) as [config|error] eqn:Er.
  - destruct (is_object (body req)) eqn:Eobj.
    2:{ intros H Hne; inversion H; subst. contradiction Hne; reflexivity. }
    destruct (sanitizeRequestData purify JSON_length (body req) config)
      as [result|error] eqn:E.
    + destruct (sanitizeRequestData_returned _ _ _ _ _ E) as [He Hw].
      rewrite He. cbv zeta. cbn [path body].
      destruct (sanitized result) eqn:Es; cbn [orb].
      * destruct (onSanitized callbacks) as [callback|] eqn:Ecb; cbn [fst snd].
        -- destruct (fst (callback (true, warnings result, None))) as [thrown|] eqn:Et.
           ++ intros H _. inversion H; subst.
              exists thrown, (mkRequest (path req) (data result)
                                (Some (snd (callback (true, warnings result, None))))).
              split; [first [reflexivity | symmetry; assumption | congruence]|]. right.
              exists config, result, callback. repeat split; assumption.
           ++ intros H Hne; inversion H; subst. contradiction Hne; reflexivity.
        -- intros H Hne; inversion H; subst. contradiction Hne; reflexivity.
      * rewrite (Hw eq_refl). cbn [length Nat.eqb negb fst snd].
        intros H Hne; inversion H; subst. contradiction Hne; reflexivity.
    + destruct (sanitizeRequestData_thrown _ _ _ _ _ E) as (msg & fld & ->).
      { intros Hu; rewrite Hu in Eobj; discriminate. }
      intros H _. inversion H; subst.
      exists (SanitizationError msg fld), req. split; [first [reflexivity | symmetry; assumption | congruence]|].
      left. split; [reflexivity|]. left. exists msg, fld. reflexivity.
  - destruct (resolved_thrown _ _ Er) as (name & Hcfg & ->).
    intros H _. inversion H; subst.
    exists (Error ("Unknown sanitization config: " ++ name)), req.
    split; [first [reflexivity | symmetry; assumption | congruence]|].
    left. split; [reflexivity|]. right. exists name. split; [exact Hcfg | reflexivity].
Qed.

Lemma sanitizeRequest_reported_errors_witness :
  let callbacks :=
    mkCallbacks (Some throwing_onSanitized) (Some recording_onError) true in
  let options := Options.mk (Some (Named "blog")) None in
  let req := mkRequest "/api/posts" (VObject [("content", VString "<p>x</p>")]) None in
  let req' :=
    mkRequest "/api/posts" (VObject [("content", VString "")])
      (Some (false, ["Request sanitization failed: boom"], None)) in
  sanitizeRequest_with strip_all no_length callbacks "POST" options req =
    (Next (Some (Error "Request sanitization failed: boom")), req', []) /\
  exists error at_request,
    (Next (Some (Error "Request sanitization failed: boom")), req') =
      catch_block callbacks error at_request /\
    ((at_request = req /\
      ((exists message field, error = SanitizationError message field) \/
       (exists name,
           Options.config options = Some (Named name) /\
           error = Error ("Unknown sanitization config: " ++ name))))
     \/
     (exists config result callback,
         resolved options = Returned config /\
         sanitizeRequestData strip_all no_length (body req) config = Returned result /\
         sanitized result = true /\
         onSanitized callbacks = Some callback /\
         fst (callback (true, warnings result, None)) = Some error /\
         at_request =
           mkRequest (path req) (data result)
             (Some (snd (callback (true, warnings result, None)))))).
Proof.
  cbv zeta.
  assert (H : sanitizeRequest_with strip_all no_length
                (mkCallbacks (Some throwing_onSanitized) (Some recording_onError) true)
                "POST" (Options.mk (Some (Named "blog")) None)
                (mkRequest "/api/posts" (VObject [("content", VString "<p>x</p>")])
                   None) =
              (Next (Some (Error "Request sanitization failed: boom")),
               mkRequest "/api/posts" (VObject [("content", VString "")])
                 (Some (false, ["Request sanitization failed: boom"], None)),
               [])) by (vm_compute; reflexivity).
  assert (Hne : Next (Some (Error "Request sanitization failed: boom")) <> Next None)
    by discriminate.
  split; [exact H |].
  exact (sanitizeRequest_reported_errors _ _ _ _ _ _ _ _ _ H Hne).
Defined.



(** ** Skipped paths *)

Lemma substring_skip a p b :
  substring (String.length a) (String.length p) (a ++ p ++ b) = p.
Proof.
  induction a as [|c a IH]; simpl.
  - induction p as [|c p IHp]; simpl.
    + destruct b; reflexivity.
    + rewrite IHp. reflexivity.
  - exact IH.
Qed.

Lemma string_includes_middle a p b : string_includes (a ++ p ++ b) p = true.
Proof.
  unfold string_includes.
  destruct (index 0 p (a ++ p ++ b)) eqn:E; [reflexivity|].
  destruct p as [|c p'].
  - destruct (a ++ "" ++ b); simpl in E; discriminate.
  - exfalso.
    apply (index_correct3 0 (String.length a) _ _ E); [discriminate | lia |].
    apply substring_skip.
Qed.

(** X17.  A path is skipped as soon as one of the [skipPaths] occurs
    anywhere inside it: the middleware then calls [next] at once, whatever
    the profile name, the body and the filter are. *)
Theorem skipped_path_is_untouched
    purify JSON_length config paths req skip before after :
  In skip paths ->
  path req = before ++ skip ++ after ->
  sanitizeRequest purify JSON_length (Options.mk config (Some paths)) req =
  (None, req).
Proof.
  intros Hin Hpath. rewrite sanitizeRequest_cases.
  replace (skipped (Options.mk config (Some paths)) req) with true; [reflexivity|].
  symmetry. unfold skipped. cbn [Options.skipPaths].
  apply existsb_exists. exists skip. split; [exact Hin|].
  rewrite Hpath. apply string_includes_middle.
Qed.

Lemma skipped_path_is_untouched_witness :
  let req := mkRequest "/v2/api/authors/7" (VObject [("bio", VString "<b>x</b>")]) None in
  In "/api/auth" ["/api/auth"; "/api/upload"] /\
  path req = "/v2" ++ "/api/auth" ++ "ors/7" /\
  sanitizeRequest dompurify_failure no_length
    (Options.mk (Some (Named "nonexistent")) (Some ["/api/auth"; "/api/upload"])) req =
  (None, req).
Proof.
  cbv zeta.
  assert (H1 : In "/api/auth" ["/api/auth"; "/api/upload"]) by (simpl; auto).
  assert (H2 : path (mkRequest "/v2/api/authors/7"
                       (VObject [("bio", VString "<b>x</b>")]) None) =
               "/v2" ++ "/api/auth" ++ "ors/7") by reflexivity.
  split; [exact H1 | split; [exact H2 |]].
  exact (skipped_path_is_untouched dompurify_failure no_length _ _ _ _ _ _ H1 H2).
Defined.

(** ** The middleware [sanitizeStrings] *)

Example defaultSanitizer_test :
  defaultSanitizer "  <b>hello</b> & " = "bhello/b".
Proof. reflexivity. Qed.

Lemma remove_markup_chars_clean s :
  has_markup_char (remove_markup_chars s) = false.
Proof.
  induction s as [|c s IH]; simpl; [reflexivity|].
  destruct (is_markup_char c) eqn:E; simpl; [exact IH|].
  rewrite E, IH. reflexivity.
Qed.

Lemma remove_markup_chars_fixed s :
  has_markup_char s = false -> remove_markup_chars s = s.
Proof.
  induction s as [|c s IH]; simpl; [reflexivity|].
  intros H. apply orb_false_elim in H. destruct H as [H1 H2].
  rewrite H1, (IH H2). reflexivity.
Qed.

Lemma trimStart_clean s :
  has_markup_char s = false -> has_markup_char (trimStart s) = false.
Proof.
  induction s as [|c s IH]; simpl; [reflexivity|].
  intros H. destruct (is_white_space c); [|exact H].
  apply orb_false_elim in H. apply IH, H.
Qed.

Lemma trimEnd_clean s :
  has_markup_char s = false -> has_markup_char (trimEnd s) = false.
Proof.
  induction s as [|c s IH]; simpl; [reflexivity|].
  intros H. apply orb_false_elim in H. destruct H as [H1 H2].
  specialize (IH H2).
  destruct (trimEnd s) as [|c' r]; [destruct (is_white_space c)|]; simpl in *;
    rewrite ?H1, ?IH; reflexivity.
Qed.

Lemma trimStart_starts s : starts_with_white_space (trimStart s) = false.
Proof.
  induction s as [|c s IH]; simpl; [reflexivity|].
  destruct (is_white_space c) eqn:E; [exact IH | simpl; exact E].
Qed.

Lemma trimStart_fixed s : starts_with_white_space s = false -> trimStart s = s.
Proof. destruct s as [|c s]; simpl; [reflexivity|]. intros ->. reflexivity. Qed.

Lemma trimEnd_starts s :
  starts_with_white_space s = false -> starts_with_white_space (trimEnd s) = false.
Proof.
  destruct s as [|c s]; simpl; [reflexivity|]. intros H.
  destruct (trimEnd s); [rewrite H|]; simpl; auto.
Qed.

Lemma trimEnd_ends s : ends_with_white_space (trimEnd s) = false.
Proof.
  induction s as [|c s IH]; simpl; [reflexivity|].
  destruct (trimEnd s) as [|c' r] eqn:E.
  - destruct (is_white_space c) eqn:Ec; simpl; auto.
  - exact IH.
Qed.

Lemma trimEnd_fixed s : ends_with_white_space s = false -> trimEnd s = s.
Proof.
  induction s as [|c s IH]; [reflexivity|].
  cbn [ends_with_white_space trimEnd]. destruct s as [|c' r].
  - simpl. intros ->. reflexivity.
  - intros H. rewrite (IH H). reflexivity.
Qed.

Lemma trim_fixed s :
  starts_with_white_space s = false -> ends_with_white_space s = false ->
  trim s = s.
Proof.
  intros Hs He. unfold trim. rewrite (trimStart_fixed s Hs). apply trimEnd_fixed, He.
Qed.

Lemma trim_starts s : starts_with_white_space (trim s) = false.
Proof. apply trimEnd_starts, trimStart_starts. Qed.

Lemma trim_ends s : ends_with_white_space (trim s) = false.
Proof. apply trimEnd_ends. Qed.

Lemma trim_trim s : trim (trim s) = trim s.
Proof. apply trim_fixed; [apply trim_starts | apply trim_ends]. Qed.

(** X18.  What the default sanitizer returns holds none of the five
    characters it removes and neither starts nor ends with white space. *)
Theorem defaultSanitizer_output value :
  has_markup_char (defaultSanitizer value) = false /\
  starts_with_white_space (defaultSanitizer value) = false /\
  ends_with_white_space (defaultSanitizer value) = false.
Proof.
  unfold defaultSanitizer. split; [|split].
  - apply trimEnd_clean, trimStart_clean, remove_markup_chars_clean.
  - apply trim_starts.
  - apply trim_ends.
Qed.

Lemma defaultSanitizer_twice value :
  defaultSanitizer (defaultSanitizer value) = defaultSanitizer value.
Proof.
  unfold defaultSanitizer at 1.
  rewrite remove_markup_chars_fixed.
  - unfold defaultSanitizer. apply trim_trim.
  - unfold defaultSanitizer.
    apply trimEnd_clean, trimStart_clean, remove_markup_chars_clean.
Qed.

(** X19.  The default sanitizer is idempotent, and it returns as it is
    exactly a string that holds none of the five characters and has no
    white space at either end. *)
Theorem defaultSanitizer_idempotent value :
  defaultSanitizer (defaultSanitizer value) = defaultSanitizer value /\
  (defaultSanitizer value = value <->
   has_markup_char value = false /\
   starts_with_white_space value = false /\
   ends_with_white_space value = false).
Proof.
  split; [apply defaultSanitizer_twice|]. split.
  - intros H. rewrite <- H.
    unfold defaultSanitizer. split; [|split].
    + apply trimEnd_clean, trimStart_clean, remove_markup_chars_clean.
    + apply trim_starts.
    + apply trim_ends.
  - intros (Hm & Hs & He). unfold defaultSanitizer.
    rewrite (remove_markup_chars_fixed _ Hm). apply trim_fixed; assumption.
Qed.

Lemma define_middle (A : Type) (pre post : list (string * A)) key v v' :
  ~ In key (keys pre) ->
  define (pre ++ (key, v) :: post) key v' = (pre ++ (key, v') :: post)%list.
Proof.
  induction pre as [|[k0 v0] pre IH]; simpl; intros H.
  - rewrite String.eqb_refl. reflexivity.
  - destruct (k0 =? key) eqn:E.
    + apply String.eqb_eq in E. tauto.
    + rewrite IH by tauto. reflexivity.
Qed.

Lemma NoDup_keys_middle (A : Type) (done rest : list (string * A)) key v :
  NoDup (keys (done ++ (key, v) :: rest)) -> ~ In key (keys done).
Proof.
  unfold keys. rewrite map_app. simpl. intros Hnd Hin.
  apply NoDup_remove_2 in Hnd. apply Hnd. apply in_or_app. left. exact Hin.
Qed.

Section SanitizeStrings_facts.

Variable strict : bool.
Variable sanitizer : string -> string + exn.
Variable clean : string -> string.
Variable sensitiveFields : list string.
Variable skipEmptyStrings : bool.

(** The loop over a stretch of entries on which the sanitizer returns. *)
Lemma sanitize_entries_prefix pre :
  forall done tail,
    NoDup (keys (done ++ pre ++ tail)) ->
    Forall (fun kv => forall s, snd kv = VString s -> sanitizer s = inl (clean s))
      pre ->
    sanitize_entries strict sanitizer sensitiveFields skipEmptyStrings
      (pre ++ tail) (VObject (done ++ pre ++ tail)) =
    sanitize_entries strict sanitizer sensitiveFields skipEmptyStrings
      tail
      (VObject (done ++ map (rewrite_entry clean sensitiveFields skipEmptyStrings) pre
                ++ tail)).
Proof.
  induction pre as [|[key v] pre IH]; intros done tail Hnd Hall; [reflexivity|].
  inversion Hall as [|? ? Hkv Hrest]; subst. cbn [snd] in Hkv.
  assert (Hstep : forall v',
             (done ++ ((key, v') :: pre) ++ tail)%list =
             ((done ++ [(key, v')]) ++ pre ++ tail)%list)
    by (intros; rewrite <- app_assoc; reflexivity).
  assert (Hnd' : forall v', NoDup (keys ((done ++ [(key, v')]) ++ pre ++ tail))).
  { intros v'. rewrite <- Hstep. unfold keys in *.
    rewrite !map_app in *. simpl in *. exact Hnd. }
  assert (Hgo : forall v',
             sanitize_entries strict sanitizer sensitiveFields skipEmptyStrings
               (pre ++ tail) (VObject (done ++ ((key, v') :: pre) ++ tail)) =
             sanitize_entries strict sanitizer sensitiveFields skipEmptyStrings tail
               (VObject
                  (done ++ ((key, v')
                     :: map (rewrite_entry clean sensitiveFields skipEmptyStrings) pre)
                   ++ tail))).
  { intros v'. rewrite Hstep, (IH _ _ (Hnd' v') Hrest), <- app_assoc. reflexivity. }
  cbn [map].
  set (rws := map (rewrite_entry clean sensitiveFields skipEmptyStrings) pre) in *.
  unfold rewrite_entry. cbn [fst snd].
  change (((key, v) :: pre) ++ tail)%list with ((key, v) :: pre ++ tail) at 1.
  destruct v as [| |b|n|s|items|entries|t|source flags];
    cbn [sanitize_entries]; try apply Hgo.
  destruct (includes sensitiveFields key); cbn [negb]; [apply Hgo|].
  destruct (skipEmptyStrings && (trim s =? "")); [apply Hgo|].
  rewrite (Hkv s eq_refl). cbn [set_property app].
  rewrite define_middle by exact (NoDup_keys_middle _ _ _ _ _ Hnd).
  apply Hgo.
Qed.

End SanitizeStrings_facts.

(** X20.  On an object body, with a sanitizer that returns for every
    string (the default one does), the middleware calls [next] without an
    error and leaves the same keys in the same order; a value that is not a
    string, a field whose key is sensitive and, under [skipEmptyStrings], a
    string of white space only are kept, every other string is replaced by
    what the sanitizer returns for it.  Strings below the top level are not
    visited. *)
Theorem sanitizeStrings_object strict options clean req entries :
  body req = VObject entries ->
  NoDup (keys entries) ->
  (forall s, sanitizer_of options s = inl (clean s)) ->
  sanitizeStrings strict options req =
  (None,
   mkRequest (path req)
     (VObject
        (map (rewrite_entry clean (sensitiveFields_of options)
                (skipEmptyStrings_of options)) entries))
     (_sanitization req)).
Proof.
  intros Hbody Hnd Htotal. unfold sanitizeStrings. rewrite Hbody.
  cbn [falsy Object_entries].
  pose proof (sanitize_entries_prefix strict (sanitizer_of options) clean
                (sensitiveFields_of options) (skipEmptyStrings_of options)
                entries [] []) as H.
  rewrite !app_nil_r in H. cbn [app] in H.
  rewrite H; [reflexivity | exact Hnd |].
  apply Forall_forall. intros kv _ s _. apply Htotal.
Qed.

Lemma sanitizeStrings_object_witness :
  let options := StringsOptions.mk (Some ["secret"]) None (Some true) in
  let entries :=
    [("secret", VString "<secret>"); ("normal", VString " <b>text</b> ");
     ("spaced", VString "   "); ("nested", VObject [("a", VString "<b>")])] in
  let req := mkRequest "/" (VObject entries) None in
  body req = VObject entries /\
  NoDup (keys entries) /\
  (forall s, sanitizer_of options s = inl (defaultSanitizer s)) /\
  sanitizeStrings true options req =
  (None,
   mkRequest "/"
     (VObject
        [("secret", VString "<secret>"); ("normal", VString "btext/b");
         ("spaced", VString "   "); ("nested", VObject [("a", VString "<b>")])])
     None).
Proof.
  cbv zeta.
  assert (H2 : NoDup (keys
                 [("secret", VString "<secret>"); ("normal", VString " <b>text</b> ");
                  ("spaced", VString "   ");
                  ("nested", VObject [("a", VString "<b>")])])).
  { repeat constructor; simpl; intuition discriminate. }
  split; [reflexivity | split; [exact H2 | split; [reflexivity |]]].
  exact (sanitizeStrings_object true
           (StringsOptions.mk (Some ["secret"]) None (Some true)) defaultSanitizer
           (mkRequest "/" _ None) _ eq_refl H2 (fun s => eq_refl)).
Defined.

(** X21.  A throwing sanitizer stops the middleware half way: [next]
    receives the very value thrown, the fields before the failing one are
    already rewritten and the failing field and those after it are as they
    were. *)
Theorem sanitizeStrings_failure_is_partial
    strict options clean req pre key value post error :
  body req = VObject (pre ++ (key, VString value) :: post) ->
  NoDup (keys (pre ++ (key, VString value) :: post)) ->
  Forall (fun kv => forall s, snd kv = VString s ->
                    sanitizer_of options s = inl (clean s)) pre ->
  includes (sensitiveFields_of options) key = false ->
  skipEmptyStrings_of options && (trim value =? "") = false ->
  sanitizer_of options value = inr error ->
  sanitizeStrings strict options req =
  (Some error,
   mkRequest (path req)
     (VObject
        (map (rewrite_entry clean (sensitiveFields_of options)
                (skipEmptyStrings_of options)) pre
         ++ (key, VString value) :: post))
     (_sanitization req)).
Proof.
  intros Hbody Hnd Hpre Hsens Hskip Hfail. unfold sanitizeStrings. rewrite Hbody.
  cbn [falsy Object_entries].
  pose proof (sanitize_entries_prefix strict (sanitizer_of options) clean
                (sensitiveFields_of options) (skipEmptyStrings_of options)
                pre [] ((key, VString value) :: post) Hnd Hpre) as H.
  cbn [app] in H. rewrite H. cbn [sanitize_entries].
  rewrite Hsens, Hskip, Hfail. reflexivity.
Qed.

Lemma sanitizeStrings_failure_is_partial_witness :
  let options := StringsOptions.mk None (Some (throwing_sanitizer_on "bad")) None in
  let pre := [("a", VString "<x>")] in
  let post := [("c", VString "<y>")] in
  let req := mkRequest "/" (VObject (pre ++ ("b", VString "bad") :: post)) None in
  body req = VObject (pre ++ ("b", VString "bad") :: post) /\
  NoDup (keys (pre ++ ("b", VString "bad") :: post)) /\
  Forall (fun kv => forall s, snd kv = VString s ->
                    sanitizer_of options s = inl (defaultSanitizer s)) pre /\
  includes (sensitiveFields_of options) "b" = false /\
  skipEmptyStrings_of options && (trim "bad" =? "") = false /\
  sanitizer_of options "bad" = inr (Error "Fail") /\
  sanitizeStrings true options req =
  (Some (Error "Fail"),
   mkRequest "/"
     (VObject [("a", VString "x"); ("b", VString "bad"); ("c", VString "<y>")])
     None).
Proof.
  cbv zeta.
  assert (H2 : NoDup (keys ([("a", VString "<x>")] ++
                            ("b", VString "bad") :: [("c", VString "<y>")]))).
  { repeat constructor; simpl; intuition discriminate. }
  assert (H3 : Forall (fun kv => forall s, snd kv = VString s ->
                 sanitizer_of
                   (StringsOptions.mk None (Some (throwing_sanitizer_on "bad")) None) s =
                 inl (defaultSanitizer s)) [("a", VString "<x>")]).
  { constructor; [|constructor]. intros s Hs. inversion Hs; subst. reflexivity. }
  split; [reflexivity | split; [exact H2 | split; [exact H3 |
    split; [reflexivity | split; [reflexivity | split; [reflexivity |]]]]]].
  exact (sanitizeStrings_failure_is_partial true
           (StringsOptions.mk None (Some (throwing_sanitizer_on "bad")) None)
           defaultSanitizer (mkRequest "/" _ None) _ "b" "bad" _ (Error "Fail")
           eq_refl H2 H3 eq_refl eq_refl eq_refl).
Defined.

Lemma sanitize_entries_keeps strict sanitizer sensitiveFields skipEmptyStrings key v
    entries :
  includes sensitiveFields key = true ->
  forall current,
    own key current = Some v ->
    exists current',
      snd (sanitize_entries strict sanitizer sensitiveFields skipEmptyStrings
             entries (VObject current)) = VObject current' /\
      own key current' = Some v.
Proof.
  intros Hkey. induction entries as [|[k w] rest IH]; intros current Hown.
  - exists current. split; [reflexivity | exact Hown].
  - destruct w as [| |b|n|s|items|es|t|source flags]; cbn [sanitize_entries];
      try (apply IH; exact Hown).
    destruct (includes sensitiveFields k) eqn:Ek; cbn [negb]; [apply IH; exact Hown|].
    destruct (skipEmptyStrings && (trim s =? "")); [apply IH; exact Hown|].
    destruct (sanitizer s) as [s'|error].
    + cbn [set_property]. apply IH. rewrite own_define.
      destruct (k =? key) eqn:E; [|exact Hown].
      apply String.eqb_eq in E. subst k. congruence.
    + exists current. split; [reflexivity | exact Hown].
Qed.

(** X22.  A top-level field whose key is in [SENSITIVE_FIELDS] or among the
    [customSensitiveFields] keeps its value on an object body, whatever the
    sanitizer does, also when it throws. *)
Theorem sanitizeStrings_keeps_sensitive strict options req entries key v :
  body req = VObject entries ->
  includes (sensitiveFields_of options) key = true ->
  own key entries = Some v ->
  exists entries',
    body (snd (sanitizeStrings strict options req)) = VObject entries' /\
    own key entries' = Some v.
Proof.
  intros Hbody Hkey Hown. unfold sanitizeStrings. rewrite Hbody.
  cbn [falsy Object_entries snd body].
  apply sanitize_entries_keeps; assumption.
Qed.

Lemma sanitizeStrings_keeps_sensitive_witness :
  let options := StringsOptions.mk (Some ["creditCard"])
                   (Some (throwing_sanitizer_on "bad")) None in
  let entries := [("note", VString "bad"); ("creditCard", VString "<4111>")] in
  let req := mkRequest "/" (VObject entries) None in
  body req = VObject entries /\
  includes (sensitiveFields_of options) "creditCard" = true /\
  own "creditCard" entries = Some (VString "<4111>") /\
  exists entries',
    body (snd (sanitizeStrings true options req)) = VObject entries' /\
    own "creditCard" entries' = Some (VString "<4111>").
Proof.
  cbv zeta.
  split; [reflexivity | split; [reflexivity | split; [reflexivity |]]].
  exact (sanitizeStrings_keeps_sensitive true
           (StringsOptions.mk (Some ["creditCard"])
              (Some (throwing_sanitizer_on "bad")) None)
           (mkRequest "/"
              (VObject [("note", VString "bad"); ("creditCard", VString "<4111>")])
              None)
           [("note", VString "bad"); ("creditCard", VString "<4111>")]
           "creditCard" (VString "<4111>") eq_refl eq_refl eq_refl).
Defined.

Lemma sanitizeStrings_object_aux strict options clean req entries :
  body req = VObject entries ->
  NoDup (keys entries) ->
  (forall s, sanitizer_of options s = inl (clean s)) ->
  sanitizeStrings strict options req =
  (None,
   mkRequest (path req)
     (VObject
        (map (rewrite_entry clean (sensitiveFields_of options)
                (skipEmptyStrings_of options)) entries))
     (_sanitization req)).
Proof.
  intros Hbody Hnd Htotal. unfold sanitizeStrings. rewrite Hbody.
  cbn [falsy Object_entries].
  pose proof (sanitize_entries_prefix strict (sanitizer_of options) clean
                (sensitiveFields_of options) (skipEmptyStrings_of options)
                entries [] []) as H.
  rewrite !app_nil_r in H. cbn [app] in H.
  rewrite H; [reflexivity | exact Hnd |].
  apply Forall_forall. intros kv _ s _. apply Htotal.
Qed.

Lemma rewrite_entry_key clean sensitiveFields skipEmptyStrings kv :
  fst (rewrite_entry clean sensitiveFields skipEmptyStrings kv) = fst kv.
Proof.
  unfold rewrite_entry. destruct kv as [k v]. cbn [fst snd].
  destruct v; try reflexivity.
  destruct (includes sensitiveFields k); [reflexivity|].
  destruct (skipEmptyStrings && _); reflexivity.
Qed.

Lemma rewrite_entry_default_twice sensitiveFields skipEmptyStrings kv :
  rewrite_entry defaultSanitizer sensitiveFields skipEmptyStrings
    (rewrite_entry defaultSanitizer sensitiveFields skipEmptyStrings kv) =
  rewrite_entry defaultSanitizer sensitiveFields skipEmptyStrings kv.
Proof.
  destruct kv as [k v].
  destruct v as [| |b|n|s|items|es|t|source flags]; try reflexivity.
  unfold rewrite_entry. cbn [fst snd].
  destruct (includes sensitiveFields k) eqn:Ek; cbn [fst snd];
    [rewrite Ek; reflexivity|].
  destruct (skipEmptyStrings && (trim s =? "")) eqn:Eskip; cbn [fst snd]; rewrite Ek.
  - rewrite Eskip. reflexivity.
  - rewrite defaultSanitizer_twice.
    destruct (skipEmptyStrings && (trim (defaultSanitizer s) =? "")); reflexivity.
Qed.

(** X23.  With the default sanitizer the middleware is idempotent on an
    object body: running it on the request it has left changes nothing. *)
Theorem sanitizeStrings_idempotent strict options req entries :
  StringsOptions.customSanitizer options = None ->
  body req = VObject entries ->
  NoDup (keys entries) ->
  sanitizeStrings strict options (snd (sanitizeStrings strict options req)) =
  sanitizeStrings strict options req.
Proof.
  intros Hdefault Hbody Hnd.
  assert (Htotal : forall s, sanitizer_of options s = inl (defaultSanitizer s))
    by (intros s; unfold sanitizer_of; rewrite Hdefault; reflexivity).
  rewrite (sanitizeStrings_object_aux strict options defaultSanitizer req entries
             Hbody Hnd Htotal).
  cbn [snd].
  set (rw := rewrite_entry defaultSanitizer (sensitiveFields_of options)
               (skipEmptyStrings_of options)).
  assert (Hnd' : NoDup (keys (map rw entries))).
  { unfold keys in *. rewrite map_map.
    rewrite (map_ext _ fst); [exact Hnd|].
    intros kv. apply rewrite_entry_key. }
  rewrite (sanitizeStrings_object_aux strict options defaultSanitizer
             (mkRequest (path req) (VObject (map rw entries)) (_sanitization req))
             (map rw entries) eq_refl Hnd' Htotal).
  cbn [path _sanitization]. rewrite map_map. fold rw.
  rewrite (map_ext _ rw); [reflexivity|].
  intros kv. apply rewrite_entry_default_twice.
Qed.

Lemma sanitizeStrings_idempotent_witness :
  let options := StringsOptions.mk None None (Some true) in
  let entries := [("text", VString "  <b>hello</b> & "); ("spaced", VString "   ")] in
  let req := mkRequest "/" (VObject entries) None in
  StringsOptions.customSanitizer options = None /\
  body req = VObject entries /\
  NoDup (keys entries) /\
  sanitizeStrings true options (snd (sanitizeStrings true options req)) =
  sanitizeStrings true options req.
Proof.
  cbv zeta.
  assert (H3 : NoDup (keys [("text", VString "  <b>hello</b> & ");
                            ("spaced", VString "   ")])).
  { repeat constructor; simpl; intuition discriminate. }
  split; [reflexivity | split; [reflexivity | split; [exact H3 |]]].
  exact (sanitizeStrings_idempotent true (StringsOptions.mk None None (Some true))
           (mkRequest "/" _ None) _ eq_refl eq_refl H3).
Defined.

(** ** Further facts on the engine *)

(** X24.  For a value with distinct keys, no key [__proto__] and no [Date]
    or [RegExp], the data of a returned result has the shape of the input:
    the same keys in the same order, arrays of the same length, the same
    kind of value at every place, numbers, booleans and [null] unchanged. *)
Theorem sanitize_keeps_shape purify JSON_length config input m result m' :
  plain input ->
  sanitize purify JSON_length config input m = (Returned result, m') ->
  same_shape input (data result).
Proof.
  intros Hplain H.
  destruct (sanitize_returned _ _ _ _ _ _ _ H) as (_ & m1 & Hrun & _).
  exact (sanitizeValue_keeps_shape purify config input Hplain _ _ _ _ Hrun).
Qed.

Lemma sample_body_plain : plain sample_body.
Proof.
  unfold sample_body. constructor.
  - repeat constructor; simpl; intuition discriminate.
  - simpl; intuition discriminate.
  - repeat constructor.
Qed.

Lemma sanitize_keeps_shape_witness :
  plain sample_body /\
  sanitize keep_all no_length (Sanitizer_config (max_length_config 5))
    sample_body Sanitizer_metadata = (Returned sample_result, sample_metadata) /\
  same_shape sample_body (data sample_result).
Proof.
  split; [exact sample_body_plain | split; [exact sample_run |]].
  exact (sanitize_keeps_shape _ _ _ _ _ _ _ sample_body_plain sample_run).
Defined.

(** X25.  An attribute is in the [ALLOWED_ATTR] handed to DOMPurify exactly
    when the profile lists it for some tag. *)
Theorem allowed_attr_is_the_union config attribute :
  In attribute (ALLOWED_ATTR (purifyConfig config)) <->
  exists tag attributes,
    In (tag, attributes) (Required.allowedAttributes config) /\
    In attribute attributes.
Proof.
  unfold purifyConfig, Object_values_flat. cbn [ALLOWED_ATTR].
  rewrite in_concat. split.
  - intros (l & Hl & Ha). apply in_map_iff in Hl.
    destruct Hl as ([tag attributes] & Heq & Hin). cbn [snd] in Heq. subst l.
    exists tag, attributes. auto.
  - intros (tag & attributes & Hin & Ha). exists attributes. split; [|exact Ha].
    apply in_map_iff. exists (tag, attributes). auto.
Qed.

(** X26.  The reach of the sensitivity guard: a key is skipped exactly when
    it is in [SENSITIVE_FIELDS] and the path of its parent is absent or
    empty; an element of an array is never skipped. *)
Theorem sensitive_guard_reach fieldName key index :
  (is_sensitive (Some (fullFieldName fieldName key)) = true <->
   truthy fieldName = false /\ includes SENSITIVE_FIELDS key = true) /\
  is_sensitive (Some (index_path fieldName index)) = false.
Proof.
  split; [|apply element_path_is_not_sensitive].
  split.
  - intros H. split; [|exact (sensitive_path_is_sensitive_key _ _ H)].
    destruct fieldName as [parent|]; [|reflexivity].
    destruct (String.eqb_spec parent "") as [->|Hp]; [reflexivity|].
    rewrite (nested_path_is_not_sensitive parent key Hp) in H. discriminate.
  - intros [Hparent Hkey].
    assert (Hpath : fullFieldName fieldName key = key).
    { destruct fieldName as [parent|]; [|reflexivity].
      unfold fullFieldName. rewrite Hparent. reflexivity. }
    rewrite Hpath. unfold is_sensitive. rewrite Hkey, andb_true_r.
    cbn [truthy]. destruct (String.eqb_spec key "") as [->|]; [discriminate Hkey|].
    reflexivity.
Qed.

(** X27.  [sanitize] starts from fresh metadata: for an input other than
    [undefined] neither the outcome nor the metadata it leaves depend on
    what earlier calls on the same instance have recorded. *)
Theorem sanitize_resets_metadata purify JSON_length config input m1 m2 :
  input <> VUndefined ->
  sanitize purify JSON_length config input m1 =
  sanitize purify JSON_length config input m2.
Proof.
  intros Hin. rewrite !(sanitize_eq _ _ _ _ _ Hin). reflexivity.
Qed.

Lemma sanitize_resets_metadata_witness :
  sample_body <> VUndefined /\
  sanitize keep_all no_length (Sanitizer_config (max_length_config 5))
    sample_body sample_metadata =
  sanitize keep_all no_length (Sanitizer_config (max_length_config 5))
    sample_body Sanitizer_metadata.
Proof.
  assert (H : sample_body <> VUndefined) by discriminate.
  split; [exact H |].
  exact (sanitize_resets_metadata keep_all no_length _ sample_body
           sample_metadata Sanitizer_metadata H).
Defined.

(** ** What the traversal does at a place *)

Lemma own_In_entry (A : Type) (entries : list (string * A)) key v :
  own key entries = Some v -> In (key, v) entries.
Proof.
  induction entries as [|[k0 v0] rest IH]; simpl; [discriminate|].
  destruct (k0 =? key) eqn:E.
  - apply String.eqb_eq in E. intros H; inversion H; subst. left. reflexivity.
  - intros H. right. exact (IH H).
Qed.

Lemma guard_quiet_at fieldName steps :
  guard_fires fieldName steps = false ->
  is_sensitive (field_name_at fieldName steps) = false.
Proof.
  revert fieldName. induction steps as [|[key|index] rest IH]; intros fieldName H;
    cbn [guard_fires field_name_at] in *; apply orb_false_elim in H;
    destruct H as [H1 H2]; [exact H1 | apply IH, H2 | apply IH, H2].
Qed.

Section Places.

Variable purify : PurifyConfig -> string -> string + exn.
Variable config : Required.config.

Lemma map_items_nth fieldName items :
  forall index m items' m' i u,
    map_items (sanitizeValue purify config) fieldName items index m =
      (Returned items', m') ->
    nth_error items i = Some u ->
    exists m1 u' m2,
      sanitizeValue purify config u (Some (index_path fieldName (index + i))) m1 =
        (Returned u', m2) /\
      nth_error items' i = Some u'.
Proof.
  induction items as [|item rest IH]; intros index m items' m' i u Hrun Hnth.
  - destruct i; discriminate Hnth.
  - cbn [map_items] in Hrun. unfold bind in Hrun.
    destruct (sanitizeValue purify config item _ m) as [[item'|e] m1] eqn:E1;
      [|discriminate].
    destruct (map_items _ fieldName rest (S index) m1) as [[rest'|e] m2] eqn:E2;
      [|discriminate].
    inversion Hrun; subst. destruct i as [|i].
    + inversion Hnth; subst. rewrite Nat.add_0_r.
      exists m, item', m1. split; [exact E1 | reflexivity].
    + cbn [nth_error] in *.
      destruct (IH _ _ _ _ i u E2 Hnth) as (ma & u' & mb & Hu & Hn).
      replace (index + S i) with (S index + i) by lia.
      exists ma, u', mb. split; assumption.
Qed.

Lemma sanitizeValue_object_result entries fieldName m v' m' :
  sanitizeValue purify config (VObject entries) fieldName m = (Returned v', m') ->
  exists obj, v' = VObject obj.
Proof.
  cbn [sanitizeValue]. destruct (is_sensitive fieldName).
  - intros H; inversion H; subst. eexists; reflexivity.
  - unfold bind. destruct (assign_entries _ _ _ _ _) as [[obj|e] m1];
      intros H; inversion H; subst. eexists; reflexivity.
Qed.

Lemma sanitizeValue_array_result items fieldName m v' m' :
  sanitizeValue purify config (VArray items) fieldName m = (Returned v', m') ->
  is_sensitive fieldName = false ->
  exists items',
    v' = VArray items' /\
    map_items (sanitizeValue purify config) fieldName items 0 m =
      (Returned items', m').
Proof.
  cbn [sanitizeValue]. intros H Hs. rewrite Hs in H. unfold bind in H.
  destruct (map_items _ _ _ _ _) as [[items'|e] m1]; inversion H; subst.
  eexists; split; reflexivity.
Qed.

(** What a returned traversal holds at a place of its input: the value of
    the input where the guard has fired at or above the place, and else what
    the traversal returns for the value there under its field name. *)
Lemma traversal_at steps :
  forall v fieldName m v' m' u,
    distinct_keys v ->
    ~ In (Key "__proto__") steps ->
    sanitizeValue purify config v fieldName m = (Returned v', m') ->
    value_at v steps = Some u ->
    if guard_fires fieldName steps then value_at v' steps = Some u
    else
      exists m1 u' m2,
        sanitizeValue purify config u (field_name_at fieldName steps) m1 =
          (Returned u', m2) /\
        value_at v' steps = Some u'.
Proof.
  induction steps as [|[key|index] rest IH];
    intros v fieldName m v' m' u Hdist Hproto Hrun Hat;
    cbn [value_at guard_fires field_name_at] in *.
  - inversion Hat; subst. rewrite orb_false_r.
    destruct (is_sensitive fieldName) eqn:Hs.
    + rewrite (sensitive_path_is_skipped _ _ _ _ _ Hs) in Hrun.
      inversion Hrun; subst. reflexivity.
    + exists m, v', m'. split; [exact Hrun | reflexivity].
  - destruct v as [| | | | | |entries| |]; try discriminate Hat.
    destruct (own key entries) as [child|] eqn:Hown; [|discriminate Hat].
    destruct (is_sensitive fieldName) eqn:Hs; cbn [orb].
    + rewrite (sensitive_path_is_skipped _ _ _ _ _ Hs) in Hrun.
      inversion Hrun; subst. cbn [value_at]. rewrite Hown. exact Hat.
    + destruct (sanitizeValue_object_result _ _ _ _ _ Hrun) as [obj ->].
      inversion Hdist as [| | | | | |? Hnd Hall| |]; subst.
      assert (Hkey : key <> "__proto__").
      { intros ->. apply Hproto. left. reflexivity. }
      destruct (sanitized_object_entry_aux _ _ _ _ _ _ _ _ _ Hrun Hs Hnd Hkey Hown)
        as (m1 & child' & m2 & Hchild & Hown').
      assert (Hdc : distinct_keys child).
      { rewrite Forall_forall in Hall.
        exact (Hall _ (own_In_entry _ _ _ _ Hown)). }
      assert (Hproto' : ~ In (Key "__proto__") rest)
        by (intros Hin; apply Hproto; right; exact Hin).
      pose proof (IH _ _ _ _ _ u Hdc Hproto' Hchild Hat) as H.
      cbn [value_at]. rewrite Hown'. exact H.
  - destruct v as [| | | | |items| | |]; try discriminate Hat.
    destruct (nth_error items index) as [child|] eqn:Hnth; [|discriminate Hat].
    destruct (is_sensitive fieldName) eqn:Hs; cbn [orb].
    + rewrite (sensitive_path_is_skipped _ _ _ _ _ Hs) in Hrun.
      inversion Hrun; subst. cbn [value_at]. rewrite Hnth. exact Hat.
    + destruct (sanitizeValue_array_result _ _ _ _ _ Hrun Hs) as (items' & -> & Hmap).
      destruct (map_items_nth _ _ _ _ _ _ _ _ Hmap Hnth)
        as (m1 & child' & m2 & Hchild & Hnth').
      cbn [Nat.add] in Hchild.
      inversion Hdist as [| | | | |? Hall| | |]; subst.
      assert (Hdc : distinct_keys child).
      { rewrite Forall_forall in Hall. exact (Hall _ (nth_error_In _ _ Hnth)). }
      assert (Hproto' : ~ In (Key "__proto__") rest)
        by (intros Hin; apply Hproto; right; exact Hin).
      pose proof (IH _ _ _ _ _ u Hdc Hproto' Hchild Hat) as H.
      cbn [value_at]. rewrite Hnth'. exact H.
Qed.

End Places.




(** ** Host objects inside an input *)

(** C9, amended.  A returned call of [sanitize] holds, at the place of every
    [Date] or [RegExp] of its input, the empty object, unless the sensitivity
    guard fires at that place or at a value around it: then it holds the
    [Date] or [RegExp] as it is.  Places are those reached through keys other
    than [__proto__]. *)
Theorem date_and_regexp_become_empty_objects
  purify JSON_length config input m result m' steps host :
  distinct_keys input ->
  ~ In (Key "__proto__") steps ->
  sanitize purify JSON_length config input m = (Returned result, m') ->
  value_at input steps = Some host ->
  is_host_object host = true ->
  value_at (data result) steps =
  Some (if guard_fires None steps then host else VObject []).
Proof.
  intros Hdist Hproto Hrun Hat Hhost.
  destruct (sanitize_returned _ _ _ _ _ _ _ Hrun) as (_ & m1 & Htrav & _).
  pose proof (traversal_at purify config steps _ _ _ _ _ _ Hdist Hproto Htrav Hat)
    as H.
  destruct (guard_fires None steps) eqn:Hg; [exact H|].
  destruct H as (ma & host' & mb & Hstep & Hat').
  rewrite Hat'. f_equal.
  pose proof (guard_quiet_at _ _ Hg) as Hs.
  destruct host; try discriminate Hhost;
    cbn [sanitizeValue] in Hstep; rewrite Hs in Hstep;
    cbn in Hstep; inversion Hstep; reflexivity.
Qed.

Lemma dated_body_distinct : distinct_keys dated_body.
Proof.
  unfold dated_body.
  apply distinct_object.
  - cbn. repeat constructor; cbn; intuition discriminate.
  - repeat first
      [ apply Forall_nil
      | apply Forall_cons; cbn [snd]
      | apply distinct_date
      | apply distinct_regexp
      | apply distinct_array
      | apply distinct_object; cbn; [repeat constructor; cbn; intuition discriminate|] ].
Qed.

Lemma date_and_regexp_become_empty_objects_witness :
  value_at
    (data (mkResult
             (VObject [("createdAt", VObject []);
                       ("rules", VArray [VObject []]);
                       ("token", VObject [("issuedAt", VDate 0)])])
             false [] None))
    [Key "rules"; Index 0] = Some (VObject []) /\
  value_at
    (data (mkResult
             (VObject [("createdAt", VObject []);
                       ("rules", VArray [VObject []]);
                       ("token", VObject [("issuedAt", VDate 0)])])
             false [] None))
    [Key "token"; Key "issuedAt"] = Some (VDate 0).
Proof.
  assert (Hrun : sanitize keep_all no_length (Sanitizer_config BASE_CONFIG)
                   dated_body Sanitizer_metadata =
                 (Returned
                    (mkResult
                       (VObject [("createdAt", VObject []);
                                 ("rules", VArray [VObject []]);
                                 ("token", VObject [("issuedAt", VDate 0)])])
                       false [] None),
                  Metadata.mk false [] (Some []) [] (Some 0) (Some 0)))
    by reflexivity.
  assert (Hp1 : ~ In (Key "__proto__") [Key "rules"; Index 0])
    by (cbn; intuition discriminate).
  assert (Hp2 : ~ In (Key "__proto__") [Key "token"; Key "issuedAt"])
    by (cbn; intuition discriminate).
  split.
  - exact (date_and_regexp_become_empty_objects keep_all no_length
             (Sanitizer_config BASE_CONFIG) dated_body Sanitizer_metadata _ _
             [Key "rules"; Index 0] (VRegExp "a+" "g")
             dated_body_distinct Hp1 Hrun eq_refl eq_refl).
  - exact (date_and_regexp_become_empty_objects keep_all no_length
             (Sanitizer_config BASE_CONFIG) dated_body Sanitizer_metadata _ _
             [Key "token"; Key "issuedAt"] (VDate 0)
             dated_body_distinct Hp2 Hrun eq_refl eq_refl).
Defined.

(** ** The truncation boundary *)




